(** * Strimzi transporter: ensure/merge, access policy, readiness and prune

    A shallow embedding of
      operator/pkg/utils/utils.go                         (MergeObjects)
      operator/pkg/controllers/hubofhubs/transporter/protocol/strimzi_transporter.go
    Go pointers are [option]; dereferencing a nil pointer or indexing a slice
    out of range is the outcome [Panic]; the controller-runtime client is an
    in-memory object store threaded through a small state-and-error monad that
    also logs every write request. *)

From Stdlib Require Import ZArith Ascii String.
From stdpp Require Import gmap strings list fin_maps.

#[local] Set Warnings "-register-all".
#[local] Open Scope string_scope.

(** ** JSON documents *)

Inductive json :=
| JNull
| JBool (b : bool)
| JNum (z : Z)
| JStr (s : string)
| JArr (l : list json)
| JObj (m : gmap string json).

Definition is_null (j : json) : bool :=
  match j with JNull => true | _ => false end.

Definition as_obj (j : json) : gmap string json :=
  match j with JObj m => m | _ => ∅ end.

Fixpoint json_size (j : json) : nat :=
  match j with
  | JArr l => S (list_sum (json_size <$> l))
  | JObj m => S (map_fold (fun _ v acc => json_size v + acc) 0 m)
  | _ => 1
  end.

(** jsonpatch.MergePatch (github.com/evanphx/json-patch) is the library's
    implementation of RFC 7386, transcribed here from the RFC's pseudo code:
    a patch that is not an object replaces the target; an object patch is
    applied member by member, [null] removing the member, an absent or
    non-object target counting as the empty object. *)
Definition patch_member (rec : json -> json -> json) (t : gmap string json)
    (k : string) (v : json) : option (option json) :=
  Some (if is_null v then None else Some (rec (default JNull (t !! k)) v)).

Definition apply_member (tv : option json) (pv : option (option json)) : option json :=
  match pv with
  | None => tv
  | Some r => r
  end.

Fixpoint MergePatch (target patch : json) {struct patch} : json :=
  match patch with
  | JObj p =>
      let t := as_obj target in
      JObj (merge apply_member t (map_imap (patch_member MergePatch t) p))
  | _ => patch
  end.

(** The member of the merged object under one key. *)
Definition merged_member (existing desired : option json) : option json :=
  match desired with
  | None => existing
  | Some v =>
      if is_null v then None else Some (MergePatch (default JNull existing) v)
  end.

(** ** Objects of the store: client.Object *)

(** The two directions of encoding/json for a Go type; [unmarshal] fails
    ([None]) where json.Unmarshal returns an error. *)
Class ClientObject (A : Type) := {
  marshal : A -> json;
  unmarshal : json -> option A
}.

(** utils.MergeObjects: marshal both objects, merge-patch the desired JSON
    into the existing JSON, unmarshal the result into the updated object.
    [None] is the error return. *)
Definition MergeObjects {A} `{ClientObject A} (existingObj desiredObj : A) : option A :=
  let existingJson := marshal existingObj in
  let desiredJson := marshal desiredObj in
  let patchedData := MergePatch existingJson desiredJson in
  unmarshal patchedData.

(** unstructured.Unstructured: an object that is its JSON document. *)
#[export] Instance Unstructured_object : ClientObject json := {
  marshal := fun j => j;
  unmarshal := fun j => Some j
}.

(** Field paths through nested objects. *)
Fixpoint get_path (path : list string) (j : json) : option json :=
  match path with
  | [] => Some j
  | k :: ks =>
      match j with
      | JObj m => m !! k ≫= get_path ks
      | _ => None
      end
  end.


(** ** Go struct encoding *)

(** A struct is encoded as the object of its fields; a field whose encoder
    yields [None] is left out (the omitempty tag). *)
Definition obj_of (fields : list (string * option json)) : gmap string json :=
  foldr (fun kv acc => match kv.2 with
                       | Some v => <[kv.1 := v]> acc
                       | None => acc
                       end) ∅ fields.

Definition enc_string (s : string) : option json := Some (JStr s).

Definition enc_string_omitempty (s : string) : option json :=
  if decide (s = "") then None else Some (JStr s).

Definition enc_ptr {A} (enc : A -> json) (p : option A) : option json :=
  enc <$> p.

Definition enc_slice_omitempty {A} (enc : A -> json) (l : list A) : option json :=
  match l with
  | [] => None
  | _ => Some (JArr (enc <$> l))
  end.

Definition enc_labels (m : gmap string string) : option json :=
  if decide (m = ∅) then None else Some (JObj (JStr <$> m)).

(** Decoders take the member found under a key ([None] when the key is
    missing). A missing member and [null] leave the Go zero value; a member
    of the wrong JSON kind is an error. *)
Definition dec_string (o : option json) : option string :=
  match o with
  | None | Some JNull => Some ""
  | Some (JStr s) => Some s
  | Some _ => None
  end.

Definition dec_int (o : option json) : option Z :=
  match o with
  | None | Some JNull => Some 0%Z
  | Some (JNum z) => Some z
  | Some _ => None
  end.

Definition dec_ptr {A} (dec : option json -> option A) (o : option json)
    : option (option A) :=
  match o with
  | None | Some JNull => Some None
  | Some _ => Some <$> dec o
  end.

Definition dec_slice {A} (dec : option json -> option A) (o : option json)
    : option (list A) :=
  match o with
  | None | Some JNull => Some []
  | Some (JArr l) => mapM (fun j => dec (Some j)) l
  | Some _ => None
  end.

Definition str_of (j : json) : option string :=
  match j with JStr s => Some s | _ => None end.

Definition dec_labels (o : option json) : option (gmap string string) :=
  match o with
  | None | Some JNull => Some ∅
  | Some (JObj m) =>
      if decide (map_Forall (fun _ v => is_Some (str_of v)) m)
      then Some (omap str_of m) else None
  | Some _ => None
  end.

(** ** metav1.ObjectMeta (the fields the transporter sets or reads) *)

Record ObjectMeta := {
  Name : string;
  Namespace : string;
  Labels : gmap string string;
  UID : string;
  CreationTimestamp : option string;
  DeletionTimestamp : option string
}.

(** creationTimestamp is a metav1.Time, a struct: the omitempty of its tag
    never leaves it out, and the zero time is written as null. The deletion
    timestamp is a pointer and is left out when nil. *)
Definition enc_time (t : option string) : option json :=
  Some (match t with
        | Some t => JStr t
        | None => JNull
        end).

Definition marshalObjectMeta (m : ObjectMeta) : json :=
  JObj (obj_of [
    ("name", enc_string_omitempty (Name m));
    ("namespace", enc_string_omitempty (Namespace m));
    ("labels", enc_labels (Labels m));
    ("uid", enc_string_omitempty (UID m));
    ("creationTimestamp", enc_time (CreationTimestamp m));
    ("deletionTimestamp", enc_ptr JStr (DeletionTimestamp m))
  ]).

Definition fields_of (o : option json) : option (gmap string json) :=
  match o with
  | None | Some JNull => Some ∅
  | Some (JObj m) => Some m
  | Some _ => None
  end.

Definition unmarshalObjectMeta (o : option json) : option ObjectMeta :=
  m ← fields_of o;
  name ← dec_string (m !! "name");
  namespace ← dec_string (m !! "namespace");
  labels ← dec_labels (m !! "labels");
  uid ← dec_string (m !! "uid");
  creationTimestamp ← dec_ptr dec_string (m !! "creationTimestamp");
  deletionTimestamp ← dec_ptr dec_string (m !! "deletionTimestamp");
  Some {| Name := name; Namespace := namespace; Labels := labels;
          UID := uid; CreationTimestamp := creationTimestamp;
          DeletionTimestamp := deletionTimestamp |}.

(** What a merge patch of one metadata into another decodes to (used to
    state the lemmas on MergeObjects). *)
Definition mergeObjectMeta (existing desired : ObjectMeta) : ObjectMeta :=
  {| Name := if decide (Name desired = "") then Name existing else Name desired;
     Namespace := if decide (Namespace desired = "") then Namespace existing
                  else Namespace desired;
     Labels := Labels desired ∪ Labels existing;
     UID := if decide (UID desired = "") then UID existing else UID desired;
     CreationTimestamp := CreationTimestamp desired;
     DeletionTimestamp :=
       match DeletionTimestamp desired with
       | Some t => Some t
       | None => DeletionTimestamp existing
       end |}.

(** ** kafkav1beta2.KafkaUser *)

(** The fields newKafkaUser and the ACL builders set. In the JSON encoding
    pointer fields and the operations slice are omitempty; the type fields
    and the acls are always written. *)

Record KafkaUserSpecAuthorizationAclsElemResource := {
  ResourceName : option string;
  PatternType : option string;
  ResourceType : string
}.

Record KafkaUserSpecAuthorizationAclsElem := {
  Host : option string;
  Operations : list string;
  Resource : KafkaUserSpecAuthorizationAclsElemResource
}.

Record KafkaUserSpecAuthentication := {
  AuthenticationType : string
}.

Record KafkaUserSpecAuthorization := {
  Acls : list KafkaUserSpecAuthorizationAclsElem;
  AuthorizationType : string
}.

Record KafkaUserSpec := {
  Authentication : option KafkaUserSpecAuthentication;
  Authorization : option KafkaUserSpecAuthorization
}.

Record KafkaUser := {
  UserMeta : ObjectMeta;
  UserSpec : option KafkaUserSpec
}.

Definition marshalResource (r : KafkaUserSpecAuthorizationAclsElemResource) : json :=
  JObj (obj_of [
    ("name", enc_ptr JStr (ResourceName r));
    ("patternType", enc_ptr JStr (PatternType r));
    ("type", enc_string (ResourceType r))
  ]).

Definition marshalAcl (a : KafkaUserSpecAuthorizationAclsElem) : json :=
  JObj (obj_of [
    ("host", enc_ptr JStr (Host a));
    ("operations", enc_slice_omitempty JStr (Operations a));
    ("resource", Some (marshalResource (Resource a)))
  ]).

Definition marshalAuthentication (a : KafkaUserSpecAuthentication) : json :=
  JObj (obj_of [("type", enc_string (AuthenticationType a))]).

Definition marshalAuthorization (a : KafkaUserSpecAuthorization) : json :=
  JObj (obj_of [
    ("acls", Some (JArr (marshalAcl <$> Acls a)));
    ("type", enc_string (AuthorizationType a))
  ]).

Definition marshalKafkaUserSpec (s : KafkaUserSpec) : json :=
  JObj (obj_of [
    ("authentication", enc_ptr marshalAuthentication (Authentication s));
    ("authorization", enc_ptr marshalAuthorization (Authorization s))
  ]).

Definition marshalKafkaUser (u : KafkaUser) : json :=
  JObj (obj_of [
    ("metadata", Some (marshalObjectMeta (UserMeta u)));
    ("spec", enc_ptr marshalKafkaUserSpec (UserSpec u))
  ]).

Definition unmarshalResource (o : option json)
    : option KafkaUserSpecAuthorizationAclsElemResource :=
  m ← fields_of o;
  name ← dec_ptr dec_string (m !! "name");
  patternType ← dec_ptr dec_string (m !! "patternType");
  type ← dec_string (m !! "type");
  Some {| ResourceName := name; PatternType := patternType; ResourceType := type |}.

Definition unmarshalAcl (o : option json) : option KafkaUserSpecAuthorizationAclsElem :=
  m ← fields_of o;
  host ← dec_ptr dec_string (m !! "host");
  operations ← dec_slice dec_string (m !! "operations");
  resource ← unmarshalResource (m !! "resource");
  Some {| Host := host; Operations := operations; Resource := resource |}.

Definition unmarshalAuthentication (o : option json) : option KafkaUserSpecAuthentication :=
  m ← fields_of o;
  type ← dec_string (m !! "type");
  Some {| AuthenticationType := type |}.

Definition unmarshalAuthorization (o : option json) : option KafkaUserSpecAuthorization :=
  m ← fields_of o;
  acls ← dec_slice unmarshalAcl (m !! "acls");
  type ← dec_string (m !! "type");
  Some {| Acls := acls; AuthorizationType := type |}.

Definition unmarshalKafkaUserSpec (o : option json) : option KafkaUserSpec :=
  m ← fields_of o;
  authentication ← dec_ptr unmarshalAuthentication (m !! "authentication");
  authorization ← dec_ptr unmarshalAuthorization (m !! "authorization");
  Some {| Authentication := authentication; Authorization := authorization |}.

Definition unmarshalKafkaUser (j : json) : option KafkaUser :=
  m ← fields_of (Some j);
  metadata ← unmarshalObjectMeta (m !! "metadata");
  spec ← dec_ptr unmarshalKafkaUserSpec (m !! "spec");
  Some {| UserMeta := metadata; UserSpec := spec |}.

#[export] Instance KafkaUser_object : ClientObject KafkaUser := {
  marshal := marshalKafkaUser;
  unmarshal := unmarshalKafkaUser
}.

(** ** kafkav1beta2.KafkaTopic *)

(** [Config] is an apiextensions.JSON, raw bytes holding one JSON value; the
    value stands for its bytes here. *)
Record KafkaTopicSpec := {
  Config : option json;
  Partitions : option Z;
  Replicas : option Z
}.

Record KafkaTopic := {
  TopicMeta : ObjectMeta;
  TopicSpec : option KafkaTopicSpec
}.

Definition marshalKafkaTopicSpec (s : KafkaTopicSpec) : json :=
  JObj (obj_of [
    ("config", Config s);
    ("partitions", enc_ptr JNum (Partitions s));
    ("replicas", enc_ptr JNum (Replicas s))
  ]).

Definition marshalKafkaTopic (t : KafkaTopic) : json :=
  JObj (obj_of [
    ("metadata", Some (marshalObjectMeta (TopicMeta t)));
    ("spec", enc_ptr marshalKafkaTopicSpec (TopicSpec t))
  ]).

Definition dec_raw (o : option json) : option json :=
  match o with
  | None | Some JNull => None
  | Some j => Some j
  end.

Definition unmarshalKafkaTopicSpec (o : option json) : option KafkaTopicSpec :=
  m ← fields_of o;
  partitions ← dec_ptr dec_int (m !! "partitions");
  replicas ← dec_ptr dec_int (m !! "replicas");
  Some {| Config := dec_raw (m !! "config"); Partitions := partitions;
          Replicas := replicas |}.

Definition unmarshalKafkaTopic (j : json) : option KafkaTopic :=
  m ← fields_of (Some j);
  metadata ← unmarshalObjectMeta (m !! "metadata");
  spec ← dec_ptr unmarshalKafkaTopicSpec (m !! "spec");
  Some {| TopicMeta := metadata; TopicSpec := spec |}.

(** The raw config of a topic as the target of a merge patch ([null] when
    the topic has none). *)
Definition configOf (t : KafkaTopic) : json :=
  default JNull (TopicSpec t ≫= Config).

#[export] Instance KafkaTopic_object : ClientObject KafkaTopic := {
  marshal := marshalKafkaTopic;
  unmarshal := unmarshalKafkaTopic
}.

(** ** equality.Semantic.DeepDerivative *)

Fixpoint json_eq_dec (x y : json) : Decision (x = y).
Proof.
  refine (match x, y with
  | JNull, JNull => left eq_refl
  | JBool a, JBool b => cast_if (decide (a = b))
  | JNum a, JNum b => cast_if (decide (a = b))
  | JStr a, JStr b => cast_if (decide (a = b))
  | JArr a, JArr b => cast_if (@list_eq_dec _ json_eq_dec a b)
  | JObj a, JObj b => cast_if (@gmap_eq_dec _ _ _ _ json_eq_dec a b)
  | _, _ => right _
  end); congruence.
Defined.

#[export] Instance json_eq : EqDecision json := json_eq_dec.

(** A Go call either returns or panics; errors are ordinary return values. *)
Inductive outcome (A : Type) :=
| Done (a : A)
| Panic.

Arguments Done {A} a.
Arguments Panic {A}.

(** DeepDerivative(a1, a2) of k8s.io/apimachinery compares what [a1] sets:
    a nil pointer, an empty string and an empty slice of [a1] are skipped;
    a slice of [a1] may be shorter than the one of [a2] and is compared
    element by element; numbers are compared for equality. A pointer set in
    [a1] against a nil pointer in [a2] panics: the comparison goes on with
    the elements of both, and asks the invalid reflect.Value of the nil
    pointer for its type. The fields of a struct and the elements of a slice
    are compared in their order, and the first difference ends the
    comparison. *)
Definition and_then (b1 b2 : outcome bool) : outcome bool :=
  match b1 with
  | Done true => b2
  | Done false => Done false
  | Panic => Panic
  end.

Definition DeepDerivative_string (a1 a2 : string) : outcome bool :=
  Done (bool_decide (a1 = "") || bool_decide (a1 = a2)).

Definition DeepDerivative_int (a1 a2 : Z) : outcome bool := Done (bool_decide (a1 = a2)).

Definition DeepDerivative_ptr {A} (f : A -> A -> outcome bool) (a1 a2 : option A)
    : outcome bool :=
  match a1, a2 with
  | None, _ => Done true
  | Some x, Some y => f x y
  | Some _, None => Panic
  end.

Fixpoint DeepDerivative_elems {A} (f : A -> A -> outcome bool) (a1 a2 : list A)
    : outcome bool :=
  match a1, a2 with
  | [], _ => Done true
  | x :: a1', y :: a2' => and_then (f x y) (DeepDerivative_elems f a1' a2')
  | _ :: _, [] => Done false
  end.

Definition DeepDerivative_slice {A} (f : A -> A -> outcome bool) (a1 a2 : list A)
    : outcome bool :=
  match a1 with
  | [] => Done true
  | _ => if decide (length a2 < length a1) then Done false
         else DeepDerivative_elems f a1 a2
  end.

(** The raw bytes of two apiextensions.JSON values, compared as the values
    they encode. *)
Definition DeepDerivative_raw (a1 a2 : json) : outcome bool := Done (bool_decide (a1 = a2)).

Definition DeepDerivative_Resource
    (a1 a2 : KafkaUserSpecAuthorizationAclsElemResource) : outcome bool :=
  and_then (DeepDerivative_ptr DeepDerivative_string (ResourceName a1) (ResourceName a2))
    (and_then (DeepDerivative_ptr DeepDerivative_string (PatternType a1) (PatternType a2))
       (DeepDerivative_string (ResourceType a1) (ResourceType a2))).

Definition DeepDerivative_Acl (a1 a2 : KafkaUserSpecAuthorizationAclsElem) : outcome bool :=
  and_then (DeepDerivative_ptr DeepDerivative_string (Host a1) (Host a2))
    (and_then (DeepDerivative_slice DeepDerivative_string (Operations a1) (Operations a2))
       (DeepDerivative_Resource (Resource a1) (Resource a2))).

Definition DeepDerivative_Authentication (a1 a2 : KafkaUserSpecAuthentication)
    : outcome bool :=
  DeepDerivative_string (AuthenticationType a1) (AuthenticationType a2).

Definition DeepDerivative_Authorization (a1 a2 : KafkaUserSpecAuthorization)
    : outcome bool :=
  and_then (DeepDerivative_slice DeepDerivative_Acl (Acls a1) (Acls a2))
    (DeepDerivative_string (AuthorizationType a1) (AuthorizationType a2)).

Definition DeepDerivative_KafkaUserSpec (a1 a2 : KafkaUserSpec) : outcome bool :=
  and_then
    (DeepDerivative_ptr DeepDerivative_Authentication (Authentication a1) (Authentication a2))
    (DeepDerivative_ptr DeepDerivative_Authorization (Authorization a1) (Authorization a2)).

Definition DeepDerivative_KafkaTopicSpec (a1 a2 : KafkaTopicSpec) : outcome bool :=
  and_then (DeepDerivative_ptr DeepDerivative_raw (Config a1) (Config a2))
    (and_then (DeepDerivative_ptr DeepDerivative_int (Partitions a1) (Partitions a2))
       (DeepDerivative_ptr DeepDerivative_int (Replicas a1) (Replicas a2))).

(** ** kafkav1beta2.Kafka: the parts of spec and status the transporter reads *)

Record KafkaSpecKafkaListenersElem := {
  ListenerName : string;
  ListenerPort : Z;
  Tls : bool;
  ListenerType : string
}.

Record KafkaSpecKafka := {
  SpecListeners : option (list KafkaSpecKafkaListenersElem)
}.

Record KafkaSpec := {
  SpecKafka : KafkaSpecKafka
}.

Record KafkaStatusConditionsElem := {
  ConditionStatus : option string;
  ConditionType : option string
}.

Record KafkaStatusListenersElem := {
  BootstrapServers : option string;
  Certificates : list string
}.

(** [Conditions] is [None] for the nil slice the code tests for. *)
Record KafkaStatus := {
  ClusterId : option string;
  Conditions : option (list KafkaStatusConditionsElem);
  Listeners : list KafkaStatusListenersElem
}.

Record Kafka := {
  KafkaMeta : ObjectMeta;
  Spec : option KafkaSpec;
  Status : option KafkaStatus
}.

(** ** v1alpha4.MulticlusterGlobalHub *)

Record Toleration := {
  TolerationKey : string;
  TolerationOperator : string;
  TolerationValue : string;
  TolerationEffect : string
}.

Record MulticlusterGlobalHubSpec := {
  AvailabilityConfig : string;
  EnableMetrics : bool;
  NodeSelector : gmap string string;
  Tolerations : list Toleration
}.

Record MulticlusterGlobalHub := {
  MghMeta : ObjectMeta;
  MghSpec : MulticlusterGlobalHubSpec
}.

Definition HAHigh : string := "High".

(** ** subv1alpha1.Subscription *)

Record SubscriptionConfig := {
  ConfigNodeSelector : gmap string string;
  ConfigTolerations : list Toleration
}.

Record SubscriptionSpec := {
  CatalogSource : string;
  CatalogSourceNamespace : string;
  Package : string;
  Channel : string;
  StartingCSV : string;
  InstallPlanApproval : string;
  SubConfig : option SubscriptionConfig
}.

Record Subscription := {
  SubMeta : ObjectMeta;
  SubSpec : option SubscriptionSpec
}.

#[export] Instance Toleration_eq : EqDecision Toleration.
Proof. solve_decision. Defined.

#[export] Instance SubscriptionConfig_eq : EqDecision SubscriptionConfig.
Proof. solve_decision. Defined.

#[export] Instance SubscriptionSpec_eq : EqDecision SubscriptionSpec.
Proof. solve_decision. Defined.

(** equality.Semantic.DeepEqual on two *SubscriptionSpec: nil and empty
    maps and slices are one value in this model, so it is equality. *)
Definition Semantic_DeepEqual (a1 a2 : option SubscriptionSpec) : bool :=
  bool_decide (a1 = a2).

(** ** transport.ClusterTopic and transport.KafkaConnCredential *)

Record ClusterTopic := {
  SpecTopic : string;
  StatusTopic : string
}.

Record KafkaConnCredential := {
  ClusterID : string;
  BootstrapServer : string;
  CACert : string;
  CASecretName : string;
  ClientSecretName : string;
  CredStatusTopic : string;
  CredSpecTopic : string
}.

(** ** The object store behind client.Client *)

Inductive error :=
| ErrNotFound
| ErrAlreadyExists
| ErrMsg (msg : string).

Definition IsNotFound (err : option error) : bool :=
  match err with Some ErrNotFound => true | _ => false end.

Inductive kind := KafkaUserKind | KafkaTopicKind | KafkaKind | SubscriptionKind | MghKind.

Inductive verb := CreateVerb | UpdateVerb | DeleteVerb.

(** types.NamespacedName as (namespace, name) *)
Definition NamespacedName : Type := string * string.

Record request := {
  reqVerb : verb;
  reqKind : kind;
  reqKey : NamespacedName
}.

Record Cluster := {
  kafkaUsers : gmap (string * string) KafkaUser;
  kafkaTopics : gmap (string * string) KafkaTopic;
  kafkas : gmap (string * string) Kafka;
  subscriptions : gmap (string * string) Subscription;
  mghs : gmap (string * string) MulticlusterGlobalHub;
  writes : list request
}.

#[export] Instance kind_eq : EqDecision kind.
Proof. solve_decision. Defined.

#[export] Instance verb_eq : EqDecision verb.
Proof. solve_decision. Defined.

#[export] Instance request_eq : EqDecision request.
Proof. solve_decision. Defined.

(** What a kind of object needs to live in the store: its table and its
    metadata. *)
Class Stored (A : Type) := {
  kind_of : kind;
  meta_of : A -> ObjectMeta;
  table : Cluster -> gmap (string * string) A;
  set_table : gmap (string * string) A -> Cluster -> Cluster
}.

#[export] Instance KafkaUser_stored : Stored KafkaUser := {
  kind_of := KafkaUserKind;
  meta_of := UserMeta;
  table := kafkaUsers;
  set_table := fun t c =>
    {| kafkaUsers := t; kafkaTopics := kafkaTopics c; kafkas := kafkas c;
       subscriptions := subscriptions c; mghs := mghs c; writes := writes c |}
}.

#[export] Instance KafkaTopic_stored : Stored KafkaTopic := {
  kind_of := KafkaTopicKind;
  meta_of := TopicMeta;
  table := kafkaTopics;
  set_table := fun t c =>
    {| kafkaUsers := kafkaUsers c; kafkaTopics := t; kafkas := kafkas c;
       subscriptions := subscriptions c; mghs := mghs c; writes := writes c |}
}.

#[export] Instance Kafka_stored : Stored Kafka := {
  kind_of := KafkaKind;
  meta_of := KafkaMeta;
  table := kafkas;
  set_table := fun t c =>
    {| kafkaUsers := kafkaUsers c; kafkaTopics := kafkaTopics c; kafkas := t;
       subscriptions := subscriptions c; mghs := mghs c; writes := writes c |}
}.

#[export] Instance Subscription_stored : Stored Subscription := {
  kind_of := SubscriptionKind;
  meta_of := SubMeta;
  table := subscriptions;
  set_table := fun t c =>
    {| kafkaUsers := kafkaUsers c; kafkaTopics := kafkaTopics c; kafkas := kafkas c;
       subscriptions := t; mghs := mghs c; writes := writes c |}
}.

#[export] Instance Mgh_stored : Stored MulticlusterGlobalHub := {
  kind_of := MghKind;
  meta_of := MghMeta;
  table := mghs;
  set_table := fun t c =>
    {| kafkaUsers := kafkaUsers c; kafkaTopics := kafkaTopics c; kafkas := kafkas c;
       subscriptions := subscriptions c; mghs := t; writes := writes c |}
}.

Definition log_request (r : request) (c : Cluster) : Cluster :=
  {| kafkaUsers := kafkaUsers c; kafkaTopics := kafkaTopics c; kafkas := kafkas c;
     subscriptions := subscriptions c; mghs := mghs c; writes := writes c ++ [r] |}.

Definition ObjectKeyFromObject {A} `{Stored A} (obj : A) : NamespacedName :=
  (Namespace (meta_of obj), Name (meta_of obj)).

(** Objects are stored under their own namespace and name. *)
Definition wf_table {A} `{Stored A} (c : Cluster) : Prop :=
  forall key obj, table c !! key = Some obj -> ObjectKeyFromObject obj = key.

(** ** Computations against the store *)

Definition M (A : Type) : Type := Cluster -> outcome A * Cluster.

Definition ret {A} (a : A) : M A := fun c => (Done a, c).

Definition bind {A B} (m : M A) (f : A -> M B) : M B :=
  fun c => match m c with
           | (Done a, c') => f a c'
           | (Panic, c') => (Panic, c')
           end.

Definition panic {A} : M A := fun c => (Panic, c).

(** A call that does not touch the store. *)
Definition call {A} (o : outcome A) : M A := fun c => (o, c).

(** Dereference of a pointer: a nil pointer panics. *)
Definition deref {A} (p : option A) : M A :=
  match p with
  | Some a => ret a
  | None => panic
  end.

(** Index into a slice: out of range panics. *)
Definition index {A} (l : list A) (i : nat) : M A := deref (l !! i).

Declare Scope go_scope.
Delimit Scope go_scope with go.
Notation "x <- m ;; k" := (bind m (fun x => k))
  (at level 100, m at next level, right associativity) : go_scope.

(** client.Client: Create, Update and Delete are logged as write requests
    whether the store accepts them or not. *)
Definition Create {A} `{Stored A} (obj : A) : M (option error) :=
  fun c =>
    let key := ObjectKeyFromObject obj in
    let c' := log_request {| reqVerb := CreateVerb; reqKind := kind_of; reqKey := key |} c in
    match table c !! key with
    | Some _ => (Done (Some ErrAlreadyExists), c')
    | None => (Done None, set_table (<[key := obj]> (table c')) c')
    end.

Definition Update {A} `{Stored A} (obj : A) : M (option error) :=
  fun c =>
    let key := ObjectKeyFromObject obj in
    let c' := log_request {| reqVerb := UpdateVerb; reqKind := kind_of; reqKey := key |} c in
    match table c !! key with
    | Some _ => (Done None, set_table (<[key := obj]> (table c')) c')
    | None => (Done (Some ErrNotFound), c')
    end.

Definition Delete {A} `{Stored A} (obj : A) : M (option error) :=
  fun c =>
    let key := ObjectKeyFromObject obj in
    let c' := log_request {| reqVerb := DeleteVerb; reqKind := kind_of; reqKey := key |} c in
    match table c !! key with
    | Some _ => (Done None, set_table (delete key (table c')) c')
    | None => (Done (Some ErrNotFound), c')
    end.

Inductive result (A : Type) :=
| Found (obj : A)
| Failed (err : error).

Arguments Found {A} obj.
Arguments Failed {A} err.

(** client.Client.Get as its callers use it: the object when err == nil,
    the error otherwise. *)
Definition Get {A} `{Stored A} (key : NamespacedName) : M (result A) :=
  fun c => match table c !! key with
           | Some obj => (Done (Found obj), c)
           | None => (Done (Failed ErrNotFound), c)
           end.

(** ** Package-level values of other packages *)

(** The transporter reads the packages operator/pkg/config, pkg/constants
    and addon/certificates through these getters and constants; their values
    are parameters of the development. *)
Record PkgConfig := {
  GetSpecTopic : string;
  GetRawStatusTopic : string;
  GetKafkaUserName : string -> string;
  GetMGHNamespacedName : NamespacedName;
  AgentCertificateSecretName : string;
  GlobalHubOwnerLabelKey : string;
  GlobalHubOwnerLabelVal : string;
  GHOperatorOwnerLabelVal : string
}.

(** strings.Contains(s, old) and strings.Replace(s, old, new, -1) for a
    one-character [old], the only use the transporter makes of them. *)
Fixpoint strings_Contains (s : string) (old : ascii) : bool :=
  match s with
  | EmptyString => false
  | String c s' => if Ascii.eqb c old then true else strings_Contains s' old
  end.

Fixpoint strings_Replace (s : string) (old : ascii) (new : string) : string :=
  match s with
  | EmptyString => EmptyString
  | String c s' =>
      if Ascii.eqb c old then new +:+ strings_Replace s' old new
      else String c (strings_Replace s' old new)
  end.

(** Modelled from the spec: config.GetStatusTopic is missing from the
    sources. "StatusTopic is either a literal per-tenant name or, when the
    configured status-topic template contains a wildcard placeholder, a name
    built by substituting the tenant identifier into a prefix pattern";
    tenant "cluster-a" and template "status.*" give "status.cluster-a". *)
Definition GetStatusTopic (cfg : PkgConfig) (clusterName : string) : string :=
  strings_Replace (GetRawStatusTopic cfg) "*"%char clusterName.

(** ** Constants of kafkav1beta2 and of the transporter *)

Definition KafkaUserSpecAuthorizationAclsElemResourcePatternTypeLiteral : string := "literal".
Definition KafkaUserSpecAuthorizationAclsElemResourcePatternTypePrefix : string := "prefix".
Definition KafkaUserSpecAuthorizationAclsElemResourceTypeTopic : string := "topic".
Definition KafkaUserSpecAuthorizationAclsElemResourceTypeGroup : string := "group".
Definition KafkaUserSpecAuthorizationAclsElemOperationsElemRead : string := "Read".
Definition KafkaUserSpecAuthorizationAclsElemOperationsElemWrite : string := "Write".
Definition KafkaUserSpecAuthorizationAclsElemOperationsElemDescribe : string := "Describe".
Definition KafkaUserSpecAuthenticationTypeTlsExternal : string := "tls-external".
Definition KafkaUserSpecAuthorizationTypeSimple : string := "simple".

Definition KafkaClusterName : string := "kafka".
Definition DefaultGlobalHubKafkaUserName : string := "global-hub-kafka-user".
Definition DefaultKafkaSubName : string := "strimzi-kafka-operator".
Definition DefaultInstallPlanApproval : string := "Automatic".
Definition DefaultCatalogSourceNamespace : string := "openshift-marketplace".
Definition DefaultAMQChannel : string := "amq-streams-2.7.x".
Definition DefaultAMQPackageName : string := "amq-streams".
Definition DefaultCatalogSourceName : string := "redhat-operators".

Definition DefaultPartition : Z := 1.
Definition DefaultPartitionReplicas : Z := 3.

(** ** The transporter *)

Record strimziTransporter := {
  kafkaClusterName : string;
  kafkaClusterNamespace : string;
  subName : string;
  subCommunity : bool;
  subChannel : string;
  subCatalogSourceName : string;
  subPackageName : string;
  mgh : MulticlusterGlobalHub;
  waitReady : bool;
  enableTLS : bool;
  sharedTopics : bool;
  topicPartitionReplicas : Z
}.

Definition KafkaOption : Type := strimziTransporter -> strimziTransporter.

Definition set_kafkaClusterName (v : string) (k : strimziTransporter) :=
  {| kafkaClusterName := v; kafkaClusterNamespace := kafkaClusterNamespace k;
     subName := subName k; subCommunity := subCommunity k; subChannel := subChannel k;
     subCatalogSourceName := subCatalogSourceName k; subPackageName := subPackageName k;
     mgh := mgh k; waitReady := waitReady k; enableTLS := enableTLS k;
     sharedTopics := sharedTopics k; topicPartitionReplicas := topicPartitionReplicas k |}.

Definition set_kafkaClusterNamespace (v : string) (k : strimziTransporter) :=
  {| kafkaClusterName := kafkaClusterName k; kafkaClusterNamespace := v;
     subName := subName k; subCommunity := subCommunity k; subChannel := subChannel k;
     subCatalogSourceName := subCatalogSourceName k; subPackageName := subPackageName k;
     mgh := mgh k; waitReady := waitReady k; enableTLS := enableTLS k;
     sharedTopics := sharedTopics k; topicPartitionReplicas := topicPartitionReplicas k |}.

Definition set_subName (v : string) (k : strimziTransporter) :=
  {| kafkaClusterName := kafkaClusterName k; kafkaClusterNamespace := kafkaClusterNamespace k;
     subName := v; subCommunity := subCommunity k; subChannel := subChannel k;
     subCatalogSourceName := subCatalogSourceName k; subPackageName := subPackageName k;
     mgh := mgh k; waitReady := waitReady k; enableTLS := enableTLS k;
     sharedTopics := sharedTopics k; topicPartitionReplicas := topicPartitionReplicas k |}.

Definition set_subCommunity (v : bool) (k : strimziTransporter) :=
  {| kafkaClusterName := kafkaClusterName k; kafkaClusterNamespace := kafkaClusterNamespace k;
     subName := subName k; subCommunity := v; subChannel := subChannel k;
     subCatalogSourceName := subCatalogSourceName k; subPackageName := subPackageName k;
     mgh := mgh k; waitReady := waitReady k; enableTLS := enableTLS k;
     sharedTopics := sharedTopics k; topicPartitionReplicas := topicPartitionReplicas k |}.



Definition set_mgh (v : MulticlusterGlobalHub) (k : strimziTransporter) :=
  {| kafkaClusterName := kafkaClusterName k; kafkaClusterNamespace := kafkaClusterNamespace k;
     subName := subName k; subCommunity := subCommunity k; subChannel := subChannel k;
     subCatalogSourceName := subCatalogSourceName k; subPackageName := subPackageName k;
     mgh := v; waitReady := waitReady k; enableTLS := enableTLS k;
     sharedTopics := sharedTopics k; topicPartitionReplicas := topicPartitionReplicas k |}.

Definition set_waitReady (v : bool) (k : strimziTransporter) :=
  {| kafkaClusterName := kafkaClusterName k; kafkaClusterNamespace := kafkaClusterNamespace k;
     subName := subName k; subCommunity := subCommunity k; subChannel := subChannel k;
     subCatalogSourceName := subCatalogSourceName k; subPackageName := subPackageName k;
     mgh := mgh k; waitReady := v; enableTLS := enableTLS k;
     sharedTopics := sharedTopics k; topicPartitionReplicas := topicPartitionReplicas k |}.

Definition set_enableTLS (v : bool) (k : strimziTransporter) :=
  {| kafkaClusterName := kafkaClusterName k; kafkaClusterNamespace := kafkaClusterNamespace k;
     subName := subName k; subCommunity := subCommunity k; subChannel := subChannel k;
     subCatalogSourceName := subCatalogSourceName k; subPackageName := subPackageName k;
     mgh := mgh k; waitReady := waitReady k; enableTLS := v;
     sharedTopics := sharedTopics k; topicPartitionReplicas := topicPartitionReplicas k |}.


Definition WithNamespacedName (name : NamespacedName) : KafkaOption :=
  fun sk => set_kafkaClusterNamespace name.1 (set_kafkaClusterName name.2 sk).

Definition WithCommunity (val : bool) : KafkaOption :=
  fun sk => set_subCommunity val sk.

Definition WithSubName (name : string) : KafkaOption :=
  fun sk => set_subName name sk.

Definition WithWaitReady (wait : bool) : KafkaOption :=
  fun sk => set_waitReady wait sk.

(** ** Access control rules *)

Definition WriteTopicACL (topicName : string) : KafkaUserSpecAuthorizationAclsElem :=
  let host := "*" in
  let patternType := KafkaUserSpecAuthorizationAclsElemResourcePatternTypeLiteral in
  {| Host := Some host;
     Resource := {|
       ResourceType := KafkaUserSpecAuthorizationAclsElemResourceTypeTopic;
       ResourceName := Some topicName;
       PatternType := Some patternType |};
     Operations := [KafkaUserSpecAuthorizationAclsElemOperationsElemWrite] |}.

Definition ReadTopicACL (topicName : string) (prefixParttern : bool)
    : KafkaUserSpecAuthorizationAclsElem :=
  let host := "*" in
  let patternType :=
    if prefixParttern then KafkaUserSpecAuthorizationAclsElemResourcePatternTypePrefix
    else KafkaUserSpecAuthorizationAclsElemResourcePatternTypeLiteral in
  {| Host := Some host;
     Resource := {|
       ResourceType := KafkaUserSpecAuthorizationAclsElemResourceTypeTopic;
       ResourceName := Some topicName;
       PatternType := Some patternType |};
     Operations := [KafkaUserSpecAuthorizationAclsElemOperationsElemDescribe;
                    KafkaUserSpecAuthorizationAclsElemOperationsElemRead] |}.

Definition ConsumeGroupReadACL : KafkaUserSpecAuthorizationAclsElem :=
  let host := "*" in
  let consumerGroup := "*" in
  let consumerPatternType := KafkaUserSpecAuthorizationAclsElemResourcePatternTypeLiteral in
  {| Host := Some host;
     Resource := {|
       ResourceType := KafkaUserSpecAuthorizationAclsElemResourceTypeGroup;
       ResourceName := Some consumerGroup;
       PatternType := Some consumerPatternType |};
     Operations := [KafkaUserSpecAuthorizationAclsElemOperationsElemRead] |}.

#[local] Open Scope go_scope.

Section Transporter.

Context (cfg : PkgConfig).

Definition getClusterTopic (k : strimziTransporter) (clusterName : string) : ClusterTopic :=
  {| SpecTopic := GetSpecTopic cfg;
     StatusTopic := GetStatusTopic cfg clusterName |}.

Definition newKafkaTopic (k : strimziTransporter) (topicName : string) : KafkaTopic :=
  {| TopicMeta := {|
       Name := topicName;
       Namespace := kafkaClusterNamespace k;
       Labels := <[GlobalHubOwnerLabelKey cfg := GlobalHubOwnerLabelVal cfg]>
                   {["strimzi.io/cluster" := kafkaClusterName k]};
       UID := "";
       CreationTimestamp := None;
       DeletionTimestamp := None |};
     TopicSpec := Some {|
       Partitions := Some DefaultPartition;
       Replicas := Some (topicPartitionReplicas k);
       Config := Some (JObj {["cleanup.policy" := JStr "compact"]}) |} |}.

Definition newKafkaUser (k : strimziTransporter) (userName : string)
    (authnType : string) (simpleACLs : list KafkaUserSpecAuthorizationAclsElem)
    : KafkaUser :=
  {| UserMeta := {|
       Name := userName;
       Namespace := kafkaClusterNamespace k;
       Labels := <[GlobalHubOwnerLabelKey cfg := GlobalHubOwnerLabelVal cfg]>
                   {["strimzi.io/cluster" := kafkaClusterName k]};
       UID := "";
       CreationTimestamp := None;
       DeletionTimestamp := None |};
     UserSpec := Some {|
       Authentication := Some {| AuthenticationType := authnType |};
       Authorization := Some {|
         AuthorizationType := KafkaUserSpecAuthorizationTypeSimple;
         Acls := simpleACLs |} |} |}.

Definition MergeError : error := ErrMsg "merge patch".

(** EnsureUser to reconcile the kafkaUser's setting (authn and authz) *)
Definition EnsureUser (k : strimziTransporter) (clusterName : string)
    : M (string * option error) :=
  let userName := GetKafkaUserName cfg clusterName in
  let clusterTopic := getClusterTopic k clusterName in
  let authnType := KafkaUserSpecAuthenticationTypeTlsExternal in
  let simpleACLs := [
    ConsumeGroupReadACL;
    ReadTopicACL (SpecTopic clusterTopic) false;
    WriteTopicACL (StatusTopic clusterTopic)
  ] in
  let desiredKafkaUser := newKafkaUser k userName authnType simpleACLs in
  r <- Get (A:=KafkaUser) (kafkaClusterNamespace k, userName) ;;
  match r with
  | Failed ErrNotFound =>
      e <- Create desiredKafkaUser ;;
      ret (userName, e)
  | Failed err => ret ("", Some err)
  | Found kafkaUser =>
      match MergeObjects kafkaUser desiredKafkaUser with
      | None => ret ("", Some MergeError)
      | Some updatedKafkaUser =>
          derivative <- call (DeepDerivative_ptr DeepDerivative_KafkaUserSpec
                                (UserSpec updatedKafkaUser) (UserSpec kafkaUser)) ;;
          if negb derivative
          then
            e <- Update updatedKafkaUser ;;
            match e with
            | Some err => ret ("", Some err)
            | None => ret (userName, None)
            end
          else ret (userName, None)
      end
  end.

Definition set_Replicas (v : option Z) (s : KafkaTopicSpec) : KafkaTopicSpec :=
  {| Config := Config s; Partitions := Partitions s; Replicas := v |}.

(** The body of the loop of EnsureTopic over the topic names; [None] lets
    the loop go on, an error ends EnsureTopic. *)
Definition ensureTopicNamed (k : strimziTransporter) (topicName : string)
    : M (option error) :=
  r <- Get (A:=KafkaTopic) (kafkaClusterNamespace k, topicName) ;;
  match r with
  | Failed ErrNotFound =>
      e <- Create (newKafkaTopic k topicName) ;;
      ret e
  | Failed err => ret (Some err)
  | Found kafkaTopic =>
      let desiredTopic := newKafkaTopic k topicName in
      match MergeObjects kafkaTopic desiredTopic with
      | None => ret (Some MergeError)
      | Some updatedTopic =>
          (* updatedTopic.Spec.Replicas = kafkaTopic.Spec.Replicas *)
          updatedSpec <- deref (TopicSpec updatedTopic) ;;
          existingSpec <- deref (TopicSpec kafkaTopic) ;;
          let updatedTopic :=
            {| TopicMeta := TopicMeta updatedTopic;
               TopicSpec := Some (set_Replicas (Replicas existingSpec) updatedSpec) |} in
          derivative <- call (DeepDerivative_ptr DeepDerivative_KafkaTopicSpec
                                (TopicSpec updatedTopic) (TopicSpec kafkaTopic)) ;;
          if negb derivative
          then Update updatedTopic
          else ret None
      end
  end.

Fixpoint ensureTopics (k : strimziTransporter) (topicNames : list string)
    : M (option error) :=
  match topicNames with
  | [] => ret None
  | topicName :: rest =>
      e <- ensureTopicNamed k topicName ;;
      match e with
      | Some err => ret (Some err)
      | None => ensureTopics k rest
      end
  end.

Definition EnsureTopic (k : strimziTransporter) (clusterName : string)
    : M (option ClusterTopic * option error) :=
  let clusterTopic := getClusterTopic k clusterName in
  let topicNames := [SpecTopic clusterTopic; StatusTopic clusterTopic] in
  e <- ensureTopics k topicNames ;;
  match e with
  | Some err => ret (None, Some err)
  | None => ret (Some clusterTopic, None)
  end.

Definition Prune (k : strimziTransporter) (clusterName : string) : M (option error) :=
  (* cleanup kafkaUser *)
  let kafkaUser : KafkaUser :=
    {| UserMeta := {| Name := GetKafkaUserName cfg clusterName;
                      Namespace := kafkaClusterNamespace k;
                      Labels := ∅; UID := ""; CreationTimestamp := None;
                      DeletionTimestamp := None |};
       UserSpec := None |} in
  r <- Get (A:=KafkaUser) (ObjectKeyFromObject kafkaUser) ;;
  match r with
  | Found kafkaUser =>
      e <- Delete kafkaUser ;;
      match e with
      | Some err => ret (Some err)
      | None => ret None
      end
  | Failed ErrNotFound => ret None
  | Failed err => ret (Some err)
  end.

Definition GetClusterCASecret (clusterName : string) : string :=
  clusterName +:+ "-cluster-ca-cert".

Section Credential.

(** base64.StdEncoding.EncodeToString *)
Context (EncodeToString : string -> string).

(** The loop of getConnCredentailByCluster over the status conditions;
    [Some] is the return from inside the loop. *)
Fixpoint readyCredential (kafkaCluster : Kafka) (status : KafkaStatus)
    (conditions : list KafkaStatusConditionsElem) : M (option KafkaConnCredential) :=
  match conditions with
  | [] => ret None
  | condition :: rest =>
      type <- deref (ConditionType condition) ;;
      ready <- (if decide (type = "Ready")
                then conditionStatus <- deref (ConditionStatus condition) ;;
                     ret (bool_decide (conditionStatus = "True"))
                else ret false) ;;
      if ready : bool then
        let clusterIdentity :=
          match ClusterId status with
          | Some id => id
          | None => UID (KafkaMeta kafkaCluster)
          end in
        listener <- index (Listeners status) 1 ;;
        bootstrapServers <- deref (BootstrapServers listener) ;;
        listener <- index (Listeners status) 1 ;;
        certificate <- index (Certificates listener) 0 ;;
        ret (Some {| ClusterID := clusterIdentity;
                     BootstrapServer := bootstrapServers;
                     CACert := EncodeToString certificate;
                     CASecretName := ""; ClientSecretName := "";
                     CredStatusTopic := ""; CredSpecTopic := "" |})
      else readyCredential kafkaCluster status rest
  end.

(** getConnCredentailByCluster gets credential with clusterId,
    bootstrapServer, and serverCA *)
Definition getConnCredentailByCluster (k : strimziTransporter)
    : M (option KafkaConnCredential * option error) :=
  r <- Get (A:=Kafka) (kafkaClusterNamespace k, kafkaClusterName k) ;;
  match r with
  | Failed err => ret (None, Some err)
  | Found kafkaCluster =>
      match Status kafkaCluster with
      | None =>
          ret (None, Some (ErrMsg ("kafka cluster " +:+ Name (KafkaMeta kafkaCluster)
                                     +:+ " has no status conditions")))
      | Some status =>
          match Conditions status with
          | None =>
              ret (None, Some (ErrMsg ("kafka cluster " +:+ Name (KafkaMeta kafkaCluster)
                                         +:+ " has no status conditions")))
          | Some conditions =>
              credential <- readyCredential kafkaCluster status conditions ;;
              match credential with
              | Some credential => ret (Some credential, None)
              | None =>
                  ret (None, Some (ErrMsg ("kafka cluster " +:+ kafkaClusterNamespace k
                                             +:+ "/" +:+ kafkaClusterName k
                                             +:+ " is not ready")))
              end
          end
      end
  end.

(** the username is the kafkauser, it's the same as the secret name *)
Definition GetConnCredential (k : strimziTransporter) (clusterName : string)
    : M (option KafkaConnCredential * option error) :=
  r <- getConnCredentailByCluster k ;;
  match r with
  | (_, Some err) => ret (None, Some err)
  | (None, None) => panic
  | (Some credential, None) =>
      ret (Some {| ClusterID := ClusterID credential;
                   BootstrapServer := BootstrapServer credential;
                   CACert := CACert credential;
                   CASecretName := GetClusterCASecret (kafkaClusterName k);
                   ClientSecretName := AgentCertificateSecretName cfg;
                   CredStatusTopic := GetStatusTopic cfg clusterName;
                   CredSpecTopic := GetSpecTopic cfg |}, None)
  end.

End Credential.

(** ** Waiting *)

(** context.DeadlineExceeded *)
Definition DeadlineExceeded : error := ErrMsg "context deadline exceeded".

(** wait.PollUntilContextTimeout with immediate = true: the condition is
    evaluated at once and then again after every interval, until it reports
    done or an error or the timeout has passed. Time is counted in
    evaluations: [attempts] of them fit into the timeout. Between two
    evaluations the rest of the system acts on the store: [world n] is what
    happens during the sleep after evaluation [n]. The condition closes over
    the transporter, whose fields it may assign. The result carries the
    number of evaluations made. *)
Fixpoint PollUntilContextTimeout (world : nat -> Cluster -> Cluster)
    (attempts : nat) (n : nat)
    (condition : strimziTransporter -> M (strimziTransporter * bool * option error))
    (k : strimziTransporter) : M (strimziTransporter * option error * nat) :=
  match attempts with
  | 0 => ret (k, Some DeadlineExceeded, n)
  | S attempts' =>
      r <- condition k ;;
      match r with
      | (k, _, Some err) => ret (k, Some err, S n)
      | (k, true, None) => ret (k, None, S n)
      | (k, false, None) =>
          fun c => PollUntilContextTimeout world attempts' (S n) condition k (world n c)
      end
  end.

(** The evaluations that fit into [timeout] at one every [interval] (both in
    seconds), the first at time 0. *)
Definition attempts_within (interval timeout : nat) : nat :=
  (timeout + interval - 1) / interval.

(** The loop of kafkaClusterReady over spec.kafka.listeners *)
Fixpoint anyTls (listeners : list KafkaSpecKafkaListenersElem) : bool :=
  match listeners with
  | [] => false
  | listener :: rest => if Tls listener then true else anyTls rest
  end.

(** The loop of kafkaClusterReady over the status conditions *)
Fixpoint anyReady (conditions : list KafkaStatusConditionsElem) : M bool :=
  match conditions with
  | [] => ret false
  | condition :: rest =>
      type <- deref (ConditionType condition) ;;
      ready <- (if decide (type = "Ready")
                then conditionStatus <- deref (ConditionStatus condition) ;;
                     ret (bool_decide (conditionStatus = "True"))
                else ret false) ;;
      if ready : bool then ret true else anyReady rest
  end.

Definition deletingError (k : strimziTransporter) : error :=
  ErrMsg ("deleting the mgh: " +:+ Namespace (MghMeta (mgh k))
            +:+ ", no need waiting the kafka ready").

(** The condition function kafkaClusterReady polls. *)
Definition kafkaClusterReadyCondition (k : strimziTransporter)
    : M (strimziTransporter * bool * option error) :=
  (* if the mgh is deleted/deleting, then don't need to wait the kafka is ready *)
  e <- Get (A:=MulticlusterGlobalHub) (GetMGHNamespacedName cfg) ;;
  match e with
  | Failed e => ret (k, false, Some e)
  | Found m =>
      let k := set_mgh m k in
      match DeletionTimestamp (MghMeta (mgh k)) with
      | Some _ => ret (k, false, Some (deletingError k))
      | None =>
          r <- Get (A:=Kafka) (kafkaClusterNamespace k, kafkaClusterName k) ;;
          match r with
          | Failed _ => ret (k, false, None)
          | Found kafkaCluster =>
              match Status kafkaCluster with
              | None => ret (k, false, None)
              | Some status =>
                  match Conditions status with
                  | None => ret (k, false, None)
                  | Some conditions =>
                      let k :=
                        match Spec kafkaCluster with
                        | Some spec =>
                            match SpecListeners (SpecKafka spec) with
                            | Some listeners => set_enableTLS (anyTls listeners) k
                            | None => k
                            end
                        | None => k
                        end in
                      ready <- anyReady conditions ;;
                      ret (k, ready, None)
                  end
              end
          end
      end
  end.

(** waits for kafka cluster to be ready and returns nil if kafka cluster
    ready: one evaluation every 5 seconds for 10 minutes *)
Definition kafkaClusterReadyFrom (world : nat -> Cluster -> Cluster)
    (attempts n : nat) (k : strimziTransporter)
    : M (strimziTransporter * option error * nat) :=
  PollUntilContextTimeout world attempts n kafkaClusterReadyCondition k.

Definition kafkaClusterReady (world : nat -> Cluster -> Cluster) (k : strimziTransporter)
    : M (strimziTransporter * option error * nat) :=
  kafkaClusterReadyFrom world (attempts_within 5 600) 0 k.

(** ** The subscription *)

Definition newSubscription (k : strimziTransporter) (mgh : MulticlusterGlobalHub)
    : Subscription :=
  let labels : gmap string string :=
    <[GlobalHubOwnerLabelKey cfg := GHOperatorOwnerLabelVal cfg]>
      (<["installer.namespace" := Namespace (MghMeta mgh)]>
         {["installer.name" := Name (MghMeta mgh)]}) in
  let subConfig :=
    {| ConfigNodeSelector := NodeSelector (MghSpec mgh);
       ConfigTolerations := Tolerations (MghSpec mgh) |} in
  {| SubMeta := {| Name := subName k;
                   Namespace := Namespace (MghMeta mgh);
                   Labels := labels; UID := ""; CreationTimestamp := None;
                   DeletionTimestamp := None |};
     SubSpec := Some {|
       Channel := subChannel k;
       InstallPlanApproval := DefaultInstallPlanApproval;
       Package := subPackageName k;
       CatalogSource := subCatalogSourceName k;
       CatalogSourceNamespace := DefaultCatalogSourceNamespace;
       SubConfig := Some subConfig;
       StartingCSV := "" |} |}.

Definition set_StartingCSV (v : string) (s : SubscriptionSpec) : SubscriptionSpec :=
  {| CatalogSource := CatalogSource s;
     CatalogSourceNamespace := CatalogSourceNamespace s;
     Package := Package s; Channel := Channel s; StartingCSV := v;
     InstallPlanApproval := InstallPlanApproval s; SubConfig := SubConfig s |}.

(** create/ update the kafka subscription *)
Definition ensureSubscription (k : strimziTransporter) (mgh : MulticlusterGlobalHub)
    : M (option error) :=
  r <- Get (A:=Subscription) (Namespace (MghMeta mgh), subName k) ;;
  match r with
  | Failed ErrNotFound =>
      Create (newSubscription k mgh)
  | Failed err => ret (Some err)
  | Found existingSub =>
      let expectedSub := newSubscription k mgh in
      expectedSpec <- deref (SubSpec expectedSub) ;;
      let startingCSV := StartingCSV expectedSpec in
      (* if updating channel must remove startingCSV *)
      existingSpec <- deref (SubSpec existingSub) ;;
      let startingCSV :=
        if decide (Channel existingSpec <> Channel expectedSpec) then "" else startingCSV in
      let spec :=
        if negb (Semantic_DeepEqual (SubSpec existingSub) (SubSpec expectedSub))
        then SubSpec expectedSub else SubSpec existingSub in
      spec <- deref spec ;;
      let existingSub :=
        {| SubMeta := SubMeta existingSub;
           SubSpec := Some (set_StartingCSV startingCSV spec) |} in
      Update existingSub
  end.

(** ** The rendered resources *)

(** The values renderKafkaResources hands to the manifest templates. *)
Record KafkaManifestValues := {
  ValEnableMetrics : bool;
  ValNamespace : string;
  ValKafkaCluster : string;
  ValGlobalHubKafkaUser : string;
  ValSpecTopic : string;
  ValStatusTopic : string;
  ValStatusTopicParttern : string;
  ValStatusPlaceholderTopic : string;
  ValTopicPartition : Z;
  ValTopicReplicas : Z
}.

Definition kafkaManifestValues (k : strimziTransporter) (mgh : MulticlusterGlobalHub)
    : KafkaManifestValues :=
  let wildcard := strings_Contains (GetRawStatusTopic cfg) "*"%char in
  let statusTopic :=
    if wildcard then strings_Replace (GetRawStatusTopic cfg) "*"%char ""
    else GetRawStatusTopic cfg in
  let statusPlaceholderTopic :=
    if wildcard then strings_Replace (GetRawStatusTopic cfg) "*"%char "global-hub"
    else GetRawStatusTopic cfg in
  let topicParttern :=
    if wildcard then KafkaUserSpecAuthorizationAclsElemResourcePatternTypePrefix
    else KafkaUserSpecAuthorizationAclsElemResourcePatternTypeLiteral in
  {| ValEnableMetrics := EnableMetrics (MghSpec mgh);
     ValNamespace := Namespace (MghMeta mgh);
     ValKafkaCluster := KafkaClusterName;
     ValGlobalHubKafkaUser := DefaultGlobalHubKafkaUserName;
     ValSpecTopic := GetSpecTopic cfg;
     ValStatusTopic := statusTopic;
     ValStatusTopicParttern := topicParttern;
     ValStatusPlaceholderTopic := statusPlaceholderTopic;
     ValTopicPartition := DefaultPartition;
     ValTopicReplicas := DefaultPartitionReplicas |}.

Section Pipeline.

(** What the pipeline calls and this development leaves open: the renderer
    and deployer of the manifests, the construction and patching of the Kafka
    cluster object, the flag of the CRD controller and the client CA. *)
Context (deploy : KafkaManifestValues -> MulticlusterGlobalHub -> M (option error)).
Context (CreateUpdateKafkaCluster :
           strimziTransporter -> MulticlusterGlobalHub -> M (option error * bool)).
Context (GetKafkaResourceReady : M bool).
Context (SetClientCA : string -> string -> M (option error)).
Context (world : nat -> Cluster -> Cluster).

(** renders the kafka podmonitor and metrics, and kafkaUser and kafkaTopic
    for global hub *)
Definition renderKafkaResources (k : strimziTransporter) (mgh : MulticlusterGlobalHub)
    : M (option error) :=
  deploy (kafkaManifestValues k mgh) mgh.

Definition ensureKafkaCondition (mgh : MulticlusterGlobalHub) (k : strimziTransporter)
    : M (strimziTransporter * bool * option error) :=
  ready <- GetKafkaResourceReady ;;
  if negb ready then ret (k, false, Some (ErrMsg "the kafka crds is not ready"))
  else
    r <- CreateUpdateKafkaCluster k mgh ;;
    match r.1 with
    | Some _ => ret (k, false, None)
    | None =>
        (* kafka metrics, monitor, global hub kafkaTopic and kafkaUser *)
        err <- renderKafkaResources k mgh ;;
        match err with
        | Some _ => ret (k, false, None)
        | None => ret (k, true, None)
        end
    end.

(** ensureKafka the kafka subscription, cluster, metrics, global hub user
    and topic *)
Definition ensureKafka (k : strimziTransporter) (mgh : MulticlusterGlobalHub)
    : M (strimziTransporter * option error) :=
  err <- ensureSubscription k mgh ;;
  match err with
  | Some err => ret (k, Some err)
  | None =>
      r <- PollUntilContextTimeout world (attempts_within 2 30) 0
             (ensureKafkaCondition mgh) k ;;
      match r with
      | (k, Some err, _) => ret (k, Some err)
      | (k, None, _) =>
          if negb (waitReady k) then ret (k, None)
          else
            r <- kafkaClusterReady world k ;;
            match r with
            | (k, Some err, _) => ret (k, Some err)
            | (k, None, _) => ret (k, None)
            end
      end
  end.


End Pipeline.

End Transporter.

(** ** Definitions used in the statements *)

Definition compactConfig : json := JObj {["cleanup.policy" := JStr "compact"]}.

(** The topic EnsureTopic compares with an existing one and writes when they
    differ: metadata merged, the compaction policy patched into the existing
    config, the desired partitions, the existing replicas. *)
Definition updatedTopicOf (cfg : PkgConfig) (k : strimziTransporter) (topicName : string)
    (existing : KafkaTopic) (existingSpec : KafkaTopicSpec) : KafkaTopic :=
  {| TopicMeta := mergeObjectMeta (TopicMeta existing)
                    (TopicMeta (newKafkaTopic cfg k topicName));
     TopicSpec := Some {| Config := Some (MergePatch (configOf existing) compactConfig);
                          Partitions := Some DefaultPartition;
                          Replicas := Replicas existingSpec |} |}.

(** The access rules EnsureUser gives the user of a managed hub. *)
Definition simpleACLs (cfg : PkgConfig) (k : strimziTransporter) (clusterName : string)
    : list KafkaUserSpecAuthorizationAclsElem :=
  [ ConsumeGroupReadACL;
    ReadTopicACL (SpecTopic (getClusterTopic cfg k clusterName)) false;
    WriteTopicACL (StatusTopic (getClusterTopic cfg k clusterName)) ].

(** The user EnsureUser asks for. *)
Definition desiredUserOf (cfg : PkgConfig) (k : strimziTransporter) (clusterName : string)
    : KafkaUser :=
  newKafkaUser cfg k (GetKafkaUserName cfg clusterName)
    KafkaUserSpecAuthenticationTypeTlsExternal (simpleACLs cfg k clusterName).

Definition topicKey (k : strimziTransporter) (topicName : string) : NamespacedName :=
  (kafkaClusterNamespace k, topicName).

Definition userKey (cfg : PkgConfig) (k : strimziTransporter) (clusterName : string)
    : NamespacedName :=
  (kafkaClusterNamespace k, GetKafkaUserName cfg clusterName).

(** A comparison that returns. *)
Definition returns (o : outcome bool) : Prop := exists b, o = Done b.

(** A stored user that has every pointer the desired user sets: its spec,
    authentication and authorization, and in every rule the host and the
    name and pattern type of the resource. *)
Definition aclSet (acl : KafkaUserSpecAuthorizationAclsElem) : Prop :=
  is_Some (Host acl) /\ is_Some (ResourceName (Resource acl))
  /\ is_Some (PatternType (Resource acl)).

Definition userSet (user : KafkaUser) : Prop :=
  exists spec authn authz,
    UserSpec user = Some spec /\ Authentication spec = Some authn
    /\ Authorization spec = Some authz /\ Forall aclSet (Acls authz).

(** The tenant's user, if stored, has them. *)
Definition userIsSet (cfg : PkgConfig) (k : strimziTransporter) (clusterName : string)
    (c : Cluster) : Prop :=
  forall existing, kafkaUsers c !! userKey cfg k clusterName = Some existing ->
                   userSet existing.

(** A stored topic that has every pointer the desired topic sets apart
    from the replicas: its spec, config and partitions. *)
Definition topicSet (topic : KafkaTopic) : Prop :=
  exists spec, TopicSpec topic = Some spec /\ is_Some (Config spec)
               /\ is_Some (Partitions spec).

(** Every topic stored under one of the names has them. *)
Definition topicsAreSet (k : strimziTransporter) (topicNames : list string)
    (c : Cluster) : Prop :=
  forall topicName existing,
    topicName ∈ topicNames ->
    kafkaTopics c !! topicKey k topicName = Some existing ->
    topicSet existing.

(** An existing topic on which EnsureTopic has nothing to write. *)
Definition topicSettled (cfg : PkgConfig) (k : strimziTransporter) (topicName : string)
    (o : option KafkaTopic) : Prop :=
  exists existing existingSpec,
    o = Some existing /\ TopicSpec existing = Some existingSpec /\
    DeepDerivative_ptr DeepDerivative_KafkaTopicSpec
      (TopicSpec (updatedTopicOf cfg k topicName existing existingSpec))
      (Some existingSpec) = Done true.

(** Every topic of [c] that has a spec is still there in [c1] with the
    same replication factor. *)
Definition replicasKept (c c1 : Cluster) : Prop :=
  forall key existing existingSpec,
    kafkaTopics c !! key = Some existing ->
    TopicSpec existing = Some existingSpec ->
    exists topic spec,
      kafkaTopics c1 !! key = Some topic /\ TopicSpec topic = Some spec /\
      Replicas spec = Replicas existingSpec.

(** ** A concrete deployment *)

Definition exampleConfig : PkgConfig :=
  {| GetSpecTopic := "spec";
     GetRawStatusTopic := "status.*";
     GetKafkaUserName := fun clusterName => clusterName +:+ "-kafka-user";
     GetMGHNamespacedName := ("multicluster-global-hub", "multiclusterglobalhub");
     AgentCertificateSecretName := "agent-certs";
     GlobalHubOwnerLabelKey := "global-hub.open-cluster-management.io/managed-by";
     GlobalHubOwnerLabelVal := "global-hub";
     GHOperatorOwnerLabelVal := "global-hub-operator" |}.

Definition exampleMgh (availability : string) (deletionTimestamp : option string)
    : MulticlusterGlobalHub :=
  {| MghMeta := {| Name := "multiclusterglobalhub";
                   Namespace := "multicluster-global-hub";
                   Labels := ∅; UID := "mgh-uid";
                   CreationTimestamp := None;
                   DeletionTimestamp := deletionTimestamp |};
     MghSpec := {| AvailabilityConfig := availability; EnableMetrics := false;
                   NodeSelector := ∅; Tolerations := [] |} |}.

Definition exampleTransporter : strimziTransporter :=
  {| kafkaClusterName := KafkaClusterName;
     kafkaClusterNamespace := "multicluster-global-hub";
     subName := DefaultKafkaSubName;
     subCommunity := false;
     subChannel := DefaultAMQChannel;
     subCatalogSourceName := DefaultCatalogSourceName;
     subPackageName := DefaultAMQPackageName;
     mgh := exampleMgh HAHigh None;
     waitReady := true;
     enableTLS := true;
     sharedTopics := false;
     topicPartitionReplicas := DefaultPartitionReplicas |}.

Definition emptyCluster : Cluster :=
  {| kafkaUsers := ∅; kafkaTopics := ∅; kafkas := ∅; subscriptions := ∅;
     mghs := ∅; writes := [] |}.

(** A spec topic that exists with two replicas and a retention setting, and
    a user of cluster-a that exists without any access rule. *)
Definition liveSpecTopic : KafkaTopic :=
  {| TopicMeta := {| Name := "spec"; Namespace := "multicluster-global-hub";
                     Labels := {["strimzi.io/cluster" := "kafka"]};
                     UID := "topic-uid"; CreationTimestamp := None;
                     DeletionTimestamp := None |};
     TopicSpec := Some {| Config := Some (JObj {["retention.ms" := JStr "7200000"]});
                          Partitions := Some 1%Z; Replicas := Some 2%Z |} |}.

Definition liveUser : KafkaUser :=
  {| UserMeta := {| Name := "cluster-a-kafka-user"; Namespace := "multicluster-global-hub";
                    Labels := ∅; UID := "user-uid"; CreationTimestamp := None;
                    DeletionTimestamp := None |};
     UserSpec := None |}.

Definition liveCluster : Cluster :=
  {| kafkaUsers := {[("multicluster-global-hub", "cluster-a-kafka-user") := liveUser]};
     kafkaTopics := {[("multicluster-global-hub", "spec") := liveSpecTopic]};
     kafkas := ∅; subscriptions := ∅; mghs := ∅; writes := [] |}.

(** A user of cluster-a that exists with a single access rule, and a store
    that holds it beside the spec topic. *)
Definition readerUser : KafkaUser :=
  {| UserMeta := {| Name := "cluster-a-kafka-user"; Namespace := "multicluster-global-hub";
                    Labels := ∅; UID := "user-uid"; CreationTimestamp := None;
                    DeletionTimestamp := None |};
     UserSpec := Some {|
       Authentication :=
         Some {| AuthenticationType := KafkaUserSpecAuthenticationTypeTlsExternal |};
       Authorization := Some {|
         AuthorizationType := KafkaUserSpecAuthorizationTypeSimple;
         Acls := [ReadTopicACL "spec" false] |} |} |}.

Definition tenantCluster : Cluster :=
  {| kafkaUsers := {[("multicluster-global-hub", "cluster-a-kafka-user") := readerUser]};
     kafkaTopics := {[("multicluster-global-hub", "spec") := liveSpecTopic]};
     kafkas := ∅; subscriptions := ∅; mghs := ∅; writes := [] |}.


(** The status topic of cluster-a stored without spec, beside the spec
    topic. *)
Definition bareStatusTopic : KafkaTopic :=
  {| TopicMeta := {| Name := "status.cluster-a"; Namespace := "multicluster-global-hub";
                     Labels := {["strimzi.io/cluster" := "kafka"]};
                     UID := "status-uid"; CreationTimestamp := None;
                     DeletionTimestamp := None |};
     TopicSpec := None |}.

Definition clusterWithBareStatusTopic : Cluster :=
  {| kafkaUsers := ∅;
     kafkaTopics := {[("multicluster-global-hub", "spec") := liveSpecTopic;
                      ("multicluster-global-hub", "status.cluster-a") := bareStatusTopic]};
     kafkas := ∅; subscriptions := ∅; mghs := ∅; writes := [] |}.

(** An existing unstructured object with a status and a server-assigned
    uid, and a desired one that sets only part of the spec. *)
Definition liveDocument : json :=
  JObj {[ "metadata" := JObj {[ "name" := JStr "spec"; "uid" := JStr "topic-uid" ]};
          "spec" := JObj {[ "replicas" := JNum 2; "partitions" := JNum 1 ]};
          "status" := JObj {[ "observedGeneration" := JNum 7 ]} ]}.

Definition desiredDocument : json :=
  JObj {[ "metadata" := JObj {[ "name" := JStr "spec" ]};
          "spec" := JObj {[ "partitions" := JNum 3 ]} ]}.

(** Collaborators that always succeed, and a world in which nothing else
    acts on the store. *)
Definition deployOk (values : KafkaManifestValues) (hub : MulticlusterGlobalHub)
    : M (option error) := ret None.

Definition createUpdateOk (k : strimziTransporter) (hub : MulticlusterGlobalHub)
    : M (option error * bool) := ret (None, false).

Definition crdsReady : M bool := ret true.


Definition quietWorld (n : nat) (c : Cluster) : Cluster := c.

Definition kafkaKey (k : strimziTransporter) : NamespacedName :=
  (kafkaClusterNamespace k, kafkaClusterName k).

Definition subscriptionKey (k : strimziTransporter) (hub : MulticlusterGlobalHub)
    : NamespacedName :=
  (Namespace (MghMeta hub), subName k).

(** The second listener of a status has what the credential needs. *)
Definition listenerData (status : KafkaStatus) : Prop :=
  exists listener server certificate,
    Listeners status !! 1%nat = Some listener
    /\ BootstrapServers listener = Some server
    /\ Certificates listener !! 0%nat = Some certificate.

(** No condition is Ready with status True, and every condition carries the
    pointers the loop dereferences. *)
Definition notReady (conditions : list KafkaStatusConditionsElem) : Prop :=
  Forall (fun condition =>
            exists type, ConditionType condition = Some type
                         /\ (type = "Ready" ->
                             exists status, ConditionStatus condition = Some status
                                            /\ status <> "True"))
    conditions.

Definition readyCondition : KafkaStatusConditionsElem :=
  {| ConditionStatus := Some "True"; ConditionType := Some "Ready" |}.

Definition kafkaWithStatus (status : option KafkaStatus) : Kafka :=
  {| KafkaMeta := {| Name := "kafka"; Namespace := "multicluster-global-hub";
                     Labels := ∅; UID := "kafka-uid"; CreationTimestamp := None;
                     DeletionTimestamp := None |};
     Spec := None;
     Status := status |}.

Definition clusterWithKafka (kafka : Kafka) : Cluster :=
  {| kafkaUsers := ∅; kafkaTopics := ∅;
     kafkas := {[("multicluster-global-hub", "kafka") := kafka]};
     subscriptions := ∅; mghs := ∅; writes := [] |}.

(** A cluster that reports Ready but publishes no listener. *)
Definition readyWithoutListeners : Kafka :=
  kafkaWithStatus (Some {| ClusterId := Some "cluster-id";
                           Conditions := Some [readyCondition];
                           Listeners := [] |}).

(** A cluster whose only condition has neither type nor status. *)
Definition conditionWithoutType : Kafka :=
  kafkaWithStatus (Some {| ClusterId := None;
                           Conditions := Some [{| ConditionStatus := None;
                                                  ConditionType := None |}];
                           Listeners := [] |}).

(** The store after the subscription has been created as desired. *)
Definition subscribedCluster : Cluster :=
  {| kafkaUsers := ∅; kafkaTopics := ∅; kafkas := ∅;
     subscriptions :=
       {[("multicluster-global-hub", "strimzi-kafka-operator")
           := newSubscription exampleConfig exampleTransporter (exampleMgh HAHigh None)]};
     mghs := ∅; writes := [] |}.

(** [waits cfg world n k c n' k' c']: starting at evaluation [n] with
    transporter [k] and store [c], the readiness condition answers "not yet"
    until evaluation [n'], which starts with [k'] and [c']. *)
Inductive waits (cfg : PkgConfig) (world : nat -> Cluster -> Cluster)
    : nat -> strimziTransporter -> Cluster -> nat -> strimziTransporter -> Cluster -> Prop :=
| waits_here n k c : waits cfg world n k c n k c
| waits_on n k c k1 c1 n' k' c' :
    kafkaClusterReadyCondition cfg k c = (Done (k1, false, None), c1) ->
    waits cfg world (S n) k1 (world n c1) n' k' c' ->
    waits cfg world n k c n' k' c'.

(** The hub is in the store and not being deleted, the cluster object has
    no status yet; during the second sleep the hub is marked for deletion. *)
Definition waitingCluster : Cluster :=
  {| kafkaUsers := ∅; kafkaTopics := ∅;
     kafkas := {[("multicluster-global-hub", "kafka") := kafkaWithStatus None]};
     subscriptions := ∅;
     mghs := {[("multicluster-global-hub", "multiclusterglobalhub")
                 := exampleMgh HAHigh None]};
     writes := [] |}.

Definition deletingCluster : Cluster :=
  {| kafkaUsers := ∅; kafkaTopics := ∅;
     kafkas := {[("multicluster-global-hub", "kafka") := kafkaWithStatus None]};
     subscriptions := ∅;
     mghs := {[("multicluster-global-hub", "multiclusterglobalhub")
                 := exampleMgh HAHigh (Some "2024-05-01T00:00:00Z")]};
     writes := [] |}.

Definition deletionWorld (n : nat) (c : Cluster) : Cluster :=
  if decide (n = 1) then deletingCluster else c.

(** * Further definitions *)

(** ** More concrete objects *)

(** A cluster that reports Ready after a NotReady condition, with the two
    listeners of the fixed layout; the condition after the Ready one carries
    no type. *)
Definition readyStatus : KafkaStatus :=
  {| ClusterId := None;
     Conditions := Some [ {| ConditionStatus := Some "True"; ConditionType := Some "Warning" |};
                          readyCondition;
                          {| ConditionStatus := None; ConditionType := None |} ];
     Listeners := [ {| BootstrapServers := Some "kafka-bootstrap:9092"; Certificates := [] |};
                    {| BootstrapServers := Some "kafka-route:443";
                       Certificates := ["tls-certificate"; "older-certificate"] |} ] |}.

Definition readyKafka : Kafka :=
  {| KafkaMeta := {| Name := "kafka"; Namespace := "multicluster-global-hub";
                     Labels := ∅; UID := "kafka-uid"; CreationTimestamp := None;
                     DeletionTimestamp := None |};
     Spec := Some {| SpecKafka := {| SpecListeners := Some [
               {| ListenerName := "plain"; ListenerPort := 9092; Tls := false;
                  ListenerType := "internal" |};
               {| ListenerName := "tls"; ListenerPort := 9093; Tls := true;
                  ListenerType := "route" |} ] |} |};
     Status := Some readyStatus |}.

(** The hub is in the store; the cluster object has no status at first and
    is Ready after the second sleep. *)
Definition readyCluster : Cluster :=
  {| kafkaUsers := ∅; kafkaTopics := ∅;
     kafkas := {[("multicluster-global-hub", "kafka") := readyKafka]};
     subscriptions := ∅;
     mghs := {[("multicluster-global-hub", "multiclusterglobalhub")
                 := exampleMgh HAHigh None]};
     writes := [] |}.

Definition readinessWorld (n : nat) (c : Cluster) : Cluster :=
  if decide (n = 1) then readyCluster else c.

(** The second listener, where the credential is read from. *)
Definition isFirstReady (conditions : list KafkaStatusConditionsElem) : Prop :=
  exists before rest, conditions = (before ++ readyCondition :: rest)%list /\ notReady before.

(** ** Statements about waiting for the cluster *)

Definition hasReady (conditions : list KafkaStatusConditionsElem) : Prop :=
  Exists (fun condition => ConditionType condition = Some "Ready"
                           /\ ConditionStatus condition = Some "True") conditions.

(** What an evaluation of the readiness condition finds when it answers
    "ready": the hub, not being deleted, and the cluster object with a Ready
    condition of status "True". *)
Definition clusterSeenReady (cfg : PkgConfig) (k : strimziTransporter) (c : Cluster) : Prop :=
  exists hub kafka status conditions,
    mghs c !! GetMGHNamespacedName cfg = Some hub
    /\ DeletionTimestamp (MghMeta hub) = None
    /\ kafkas c !! kafkaKey k = Some kafka
    /\ Status kafka = Some status
    /\ Conditions status = Some conditions
    /\ hasReady conditions.

(** The value of enableTLS after an evaluation that read [kafka]: whether a
    listener of the spec has tls, or the old value when the spec lists none. *)
Definition observedTLS (kafka : Kafka) (k : strimziTransporter) : bool :=
  match Spec kafka with
  | Some spec =>
      match SpecListeners (SpecKafka spec) with
      | Some listeners => anyTls listeners
      | None => enableTLS k
      end
  | None => enableTLS k
  end.

(** During the second sleep the hub is removed from the store. *)
Definition hubRemovedWorld (n : nat) (c : Cluster) : Cluster :=
  if decide (n = 1) then clusterWithKafka (kafkaWithStatus None) else c.

(** ** Subscriptions in the store *)

(** A subscription on another channel, pinned to a CSV, under labels of its
    own. *)
Definition driftedSubscription : Subscription :=
  {| SubMeta := {| Name := DefaultKafkaSubName; Namespace := "multicluster-global-hub";
                   Labels := {["installed-by" := "an-administrator"]};
                   UID := "subscription-uid"; CreationTimestamp := None;
                   DeletionTimestamp := None |};
     SubSpec := Some {| CatalogSource := DefaultCatalogSourceName;
                        CatalogSourceNamespace := DefaultCatalogSourceNamespace;
                        Package := DefaultAMQPackageName;
                        Channel := "amq-streams-2.5.x";
                        StartingCSV := "amqstreams.v2.5.0-0";
                        InstallPlanApproval := "Manual";
                        SubConfig := None |} |}.

Definition clusterWithSubscription (sub : Subscription) : Cluster :=
  {| kafkaUsers := ∅; kafkaTopics := ∅; kafkas := ∅;
     subscriptions := {[("multicluster-global-hub", DefaultKafkaSubName) := sub]};
     mghs := ∅; writes := [] |}.

(** A subscription object without spec. *)
Definition bareSubscription : Subscription :=
  {| SubMeta := {| Name := DefaultKafkaSubName; Namespace := "multicluster-global-hub";
                   Labels := ∅; UID := "subscription-uid"; CreationTimestamp := None;
                   DeletionTimestamp := None |};
     SubSpec := None |}.

(** ** More stand-ins for what the pipeline calls *)

Definition crdsMissing : M bool := ret false.

Definition createUpdateFails (k : strimziTransporter) (hub : MulticlusterGlobalHub)
    : M (option error * bool) := ret (Some (ErrMsg "admission webhook denied the request"), false).

(** ** Users in the store *)

(** A user with the desired rules of cluster-a and, after them, a rule
    that somebody added by hand; it carries no labels. *)
Definition extendedUser : KafkaUser :=
  {| UserMeta := {| Name := "cluster-a-kafka-user"; Namespace := "multicluster-global-hub";
                    Labels := ∅; UID := "user-uid"; CreationTimestamp := None;
                    DeletionTimestamp := None |};
     UserSpec := Some {|
       Authentication :=
         Some {| AuthenticationType := KafkaUserSpecAuthenticationTypeTlsExternal |};
       Authorization := Some {|
         AuthorizationType := KafkaUserSpecAuthorizationTypeSimple;
         Acls := (simpleACLs exampleConfig exampleTransporter "cluster-a"
                  ++ [WriteTopicACL "audit"])%list |} |} |}.

Definition clusterWithUser (user : KafkaUser) : Cluster :=
  {| kafkaUsers := {[("multicluster-global-hub", "cluster-a-kafka-user") := user]};
     kafkaTopics := ∅; kafkas := ∅; subscriptions := ∅; mghs := ∅; writes := [] |}.

(** The write requests a call may add to the log: at most [n], none of them
    a Delete, all of one kind and on the keys [keys]. *)
Definition sentOnly (n : nat) (objects : kind) (keys : list NamespacedName)
    (sent : list request) : Prop :=
  length sent <= n
  /\ Forall (fun r => reqKind r = objects /\ reqKey r ∈ keys /\ reqVerb r <> DeleteVerb) sent.

(** ** Topics in the store *)

(** A stored topic with one partition and the compaction policy in its
    config. *)
Definition topicCompacted (o : option KafkaTopic) : Prop :=
  exists topic spec config,
    o = Some topic /\ TopicSpec topic = Some spec
    /\ Partitions spec = Some DefaultPartition
    /\ Config spec = Some config
    /\ as_obj config !! "cleanup.policy" = Some (JStr "compact").

(** A topic object without spec. *)
Definition bareTopic : KafkaTopic :=
  {| TopicMeta := {| Name := "spec"; Namespace := "multicluster-global-hub";
                     Labels := ∅; UID := "topic-uid"; CreationTimestamp := None;
                     DeletionTimestamp := None |};
     TopicSpec := None |}.

Definition clusterWithTopic (topic : KafkaTopic) : Cluster :=
  {| kafkaUsers := ∅;
     kafkaTopics := {[("multicluster-global-hub", "spec") := topic]};
     kafkas := ∅; subscriptions := ∅; mghs := ∅; writes := [] |}.

(** * operator/pkg/utils: the helpers *)

(** Remove is used to remove string from a string array *)
Definition Remove (list : list string) (s : string) : Datatypes.list string :=
  foldl (fun result v => if decide (v <> s) then (result ++ [v])%list else result) [] list.

(** Contains is used to check whether a list contains string s *)
Fixpoint Contains (list : list string) (s : string) : bool :=
  match list with
  | [] => false
  | v :: rest => if decide (v = s) then true else Contains rest s
  end.

(** RemoveDuplicates: the loop state is the set of the strings met so far
    and the result slice. *)
Definition RemoveDuplicates (elements : list string) : list string :=
  let step (state : gset string * list string) (v : string) :=
    let '(encountered, result) := state in
    if decide (v ∈ encountered) then state
    else ({[v]} ∪ encountered, (result ++ [v])%list) in
  (foldl step (∅, []) elements).2.

(** CopyMap assigns every entry of the original map to the new map, which it
    changes in place: the result is the new map after the call. A nil map
    ([None]) can be ranged over, but an assignment to one panics. *)
Definition CopyMap (newMap originalMap : option (gmap string string))
    : outcome (option (gmap string string)) :=
  let entries := default ∅ originalMap in
  if decide (entries = ∅) then Done newMap
  else match newMap with
       | None => Panic
       | Some newMap =>
           Done (Some (map_fold (fun key value newMap => <[key := value]> newMap)
                         newMap entries))
       end.

Section Alerts.

(** yaml.Unmarshal into a map[string]interface{}: the parsed document or
    the error. *)
Context (yaml_Unmarshal : string -> result (gmap string json)).

(** vArray, _ := v.([]interface{}); len(vArray) *)
Definition arrayLength (v : json) : nat :=
  match v with
  | JArr vArray => length vArray
  | _ => 0
  end.

(** The body of the loop of GetAlertGPCcount over the entries of the
    parsed document. *)
Definition countEntry (k : string) (v : json) (counts : nat * nat * nat)
    : nat * nat * nat :=
  let '(groupCount, policyCount, contactCount) := counts in
  if negb (bool_decide (k = "groups") || bool_decide (k = "policies")
           || bool_decide (k = "contactPoints"))
  then counts
  else
    let groupCount := if decide (k = "groups") then arrayLength v else groupCount in
    let policyCount := if decide (k = "policies") then arrayLength v else policyCount in
    let contactCount :=
      if decide (k = "contactPoints") then arrayLength v else contactCount in
    (groupCount, policyCount, contactCount).

(** GetAlertGPCcount counts the groupCount, policyCount, contactCount for
    the alert. *)
Definition GetAlertGPCcount (a : string) : nat * nat * nat * option error :=
  if decide (String.length a = 0) then (0, 0, 0, None)
  else match yaml_Unmarshal a with
       | Failed err => (0, 0, 0, Some err)
       | Found o1 =>
           let '(groupCount, policyCount, contactCount) :=
             map_fold countEntry (0, 0, 0) o1 in
           (groupCount, policyCount, contactCount, None)
       end.

Definition IsAlertGPCcountEqual (a b : string) : bool * option error :=
  let '(ag, ap, ac, err) := GetAlertGPCcount a in
  match err with
  | Some err => (false, Some err)
  | None =>
      let '(bg, bp, bc, err) := GetAlertGPCcount b in
      match err with
      | Some err => (false, Some err)
      | None =>
          if bool_decide (ag = bg) && bool_decide (ap = bp) && bool_decide (ac = bc)
          then (true, None) else (false, None)
      end
  end.

End Alerts.

(** The strings of [elements] not in [encountered], each at its first
    occurrence (used to state what RemoveDuplicates returns). *)
Fixpoint firstOccurrences (encountered : gset string) (elements : list string)
    : list string :=
  match elements with
  | [] => []
  | v :: rest =>
      if decide (v ∈ encountered) then firstOccurrences encountered rest
      else v :: firstOccurrences ({[v]} ∪ encountered) rest
  end.

(** The number of entries of the sequence under [key] of a parsed alert
    document, 0 when the key is missing or holds no sequence. *)
Definition alertCount (key : string) (o1 : gmap string json) : nat :=
  from_option arrayLength 0 (o1 !! key).

(** The document GetAlertGPCcount counts in: the empty one for empty input,
    else what yaml.Unmarshal gives. *)
Definition parsedAlert (yaml_Unmarshal : string -> result (gmap string json)) (a : string)
    : option (gmap string json) :=
  if decide (a = "") then Some ∅
  else match yaml_Unmarshal a with
       | Found o1 => Some o1
       | Failed _ => None
       end.

(** A parser that knows two alert documents. *)
Definition exampleYaml (a : string) : result (gmap string json) :=
  if decide (a = "groups: [cpu, memory]")
  then Found {["groups" := JArr [JStr "cpu"; JStr "memory"]]}
  else if decide (a = "{groups: [disk, network], policies: none}")
  then Found {["groups" := JArr [JStr "disk"; JStr "network"]; "policies" := JStr "none"]}
  else Failed (ErrMsg "yaml: unmarshal errors").

(** * operator/pkg/utils: the managed clusters *)

(** clusterv1.ManagedCluster, the parts the helpers read: name, labels,
    annotations and finalizers. [Map] is what an annotations field holds: the
    map itself in the store, a reference to a map in memory; [None] is the
    nil map. *)
Record ManagedClusterOf (Map : Type) := {
  ClusterName : string;
  ClusterLabels : option (gmap string string);
  Annotations : option Map;
  Finalizers : list string
}.

Arguments ClusterName {Map} _.
Arguments ClusterLabels {Map} _.
Arguments Annotations {Map} _.
Arguments Finalizers {Map} _.

Definition ManagedCluster : Type := ManagedClusterOf (gmap string string).

(** The cluster-scoped store of the managed clusters, in the order in which
    List returns them, and the objects of the Update requests it received. *)
Record Fleet := {
  managedClusters : list ManagedCluster;
  updates : list ManagedCluster
}.

(** client.Client.Update on a managed cluster: the object replaces the
    stored one of its name. *)
Definition UpdateCluster (obj : ManagedCluster) (fleet : Fleet) : option error * Fleet :=
  let updates := (updates fleet ++ [obj])%list in
  if decide (ClusterName obj ∈ ClusterName <$> managedClusters fleet)
  then (None,
        {| managedClusters :=
             (fun stored => if decide (ClusterName stored = ClusterName obj)
                            then obj else stored) <$> managedClusters fleet;
           updates := updates |})
  else (Some ErrNotFound,
        {| managedClusters := managedClusters fleet; updates := updates |}).

(** Names of the packages constants and pkg/constants that the helpers
    use; their values are parameters of the development. *)
Record PkgConstants := {
  LocalClusterName : string;
  AnnotationONMulticlusterHub : string;
  AnnotationPolicyONMulticlusterHub : string;
  GlobalHubCleanupFinalizer : string
}.

(** ** Maps in memory *)

(** A Go map is a reference: the maps a call works on live in a heap, a
    list of maps, and a reference is a position in it; two variables that
    hold the same reference see each other's writes. *)

(** make(map[string]string) and the decoding of a map *)
Definition alloc (m : gmap string string) (heap : list (gmap string string))
    : nat * list (gmap string string) :=
  (length heap, (heap ++ [m])%list).

(** m[key] = value *)
Definition assign (r : nat) (key value : string) (heap : list (gmap string string))
    : list (gmap string string) :=
  alter (insert key value) r heap.

(** The map behind a field, nil for a nil field. *)
Definition load (r : option nat) (heap : list (gmap string string))
    : option (gmap string string) :=
  r ≫= fun r => heap !! r.

(** CopyMap on two maps in memory. *)
Definition CopyMapAt (newMap : nat) (originalMap : option nat)
    (heap : list (gmap string string))
    : outcome (list (gmap string string)) :=
  match CopyMap (heap !! newMap) (load originalMap heap) with
  | Panic => Panic
  | Done (Some copied) => Done (<[newMap := copied]> heap)
  | Done None => Done heap
  end.

Definition withAnnotations {Map Map'} (annotations : option Map')
    (cluster : ManagedClusterOf Map) : ManagedClusterOf Map' :=
  {| ClusterName := ClusterName cluster; ClusterLabels := ClusterLabels cluster;
     Annotations := annotations; Finalizers := Finalizers cluster |}.

(** client.Client.List decodes every stored cluster into an object of its
    own, with a map of its own when it has annotations. *)
Fixpoint decodeItems (stored : list ManagedCluster) (heap : list (gmap string string))
    : list (ManagedClusterOf nat) * list (gmap string string) :=
  match stored with
  | [] => ([], heap)
  | cluster :: rest =>
      let '(annotations, heap) :=
        match Annotations cluster with
        | Some annotations => let '(r, heap) := alloc annotations heap in (Some r, heap)
        | None => (None, heap)
        end in
      let '(items, heap) := decodeItems rest heap in
      (withAnnotations annotations cluster :: items, heap)
  end.

(** The object an Update sends for an item: its fields as they are in
    memory at the time of the call. *)
Definition encodeItem (item : ManagedClusterOf nat) (heap : list (gmap string string))
    : ManagedCluster :=
  withAnnotations (load (Annotations item) heap) item.

(** equality.Semantic.DeepEqual on two maps: a nil map and an empty map are
    one value. *)
Definition Semantic_DeepEqual_maps (a b : option (gmap string string)) : bool :=
  bool_decide (default ∅ a = default ∅ b).

Section ManagedHubs.

Context (constants : PkgConstants).

(** The loop of AnnotateManagedHubCluster over clusters.Items. The loop
    variable managedHub is a copy of clusters.Items[idx]: both hold the same
    reference to the annotations. *)
Fixpoint annotateItems (items : list (ManagedClusterOf nat))
    (heap : list (gmap string string)) (fleet : Fleet)
    : outcome (option error) * Fleet :=
  match items with
  | [] => (Done None, fleet)
  | item :: rest =>
      let managedHub := item in
      if decide (ClusterName managedHub = LocalClusterName constants)
      then annotateItems rest heap fleet
      else
        let '(orgAnnotations, heap) :=
          match Annotations managedHub with
          | Some orgAnnotations => (orgAnnotations, heap)
          | None => alloc ∅ heap
          end in
        let '(annotations, heap) := alloc ∅ heap in
        match CopyMapAt annotations (Annotations managedHub) heap with
        | Panic => (Panic, fleet)
        | Done heap =>
            (* set the annotations for the managed hub *)
            let heap := assign orgAnnotations (AnnotationONMulticlusterHub constants)
                          "true" heap in
            let heap := assign orgAnnotations (AnnotationPolicyONMulticlusterHub constants)
                          "true" heap in
            if negb (Semantic_DeepEqual_maps (heap !! annotations) (heap !! orgAnnotations))
            then
              let '(err, fleet) := UpdateCluster (encodeItem item heap) fleet in
              match err with
              | Some err => (Done (Some err), fleet)
              | None => annotateItems rest heap fleet
              end
            else annotateItems rest heap fleet
        end
  end.

(** add addon.open-cluster-management.io/on-multicluster-hub annotation to
    the managed hub clusters indicate the addons are running on a hub
    cluster *)
Definition AnnotateManagedHubCluster (fleet : Fleet) : outcome (option error) * Fleet :=
  let '(items, heap) := decodeItems (managedClusters fleet) [] in
  annotateItems items heap fleet.

(** controllerutil.RemoveFinalizer: the finalizers without the given one,
    and whether any was removed. *)
Definition RemoveFinalizer {Map} (o : ManagedClusterOf Map) (finalizer : string)
    : ManagedClusterOf Map * bool :=
  let f := Finalizers o in
  let kept := Remove f finalizer in
  ({| ClusterName := ClusterName o; ClusterLabels := ClusterLabels o;
      Annotations := Annotations o; Finalizers := kept |},
   bool_decide (length f <> length kept)).

(** The loop of RemoveManagedHubClusterFinalizer over clusters.Items. *)
Fixpoint removeFinalizers (items : list ManagedCluster) (fleet : Fleet)
    : option error * Fleet :=
  match items with
  | [] => (None, fleet)
  | managedHub :: rest =>
      if decide (ClusterName managedHub = LocalClusterName constants)
      then removeFinalizers rest fleet
      else
        let '(managedHub, ok) :=
          RemoveFinalizer managedHub (GlobalHubCleanupFinalizer constants) in
        if ok then
          let '(err, fleet) := UpdateCluster managedHub fleet in
          match err with
          | Some err => (Some err, fleet)
          | None => removeFinalizers rest fleet
          end
        else removeFinalizers rest fleet
  end.

Definition RemoveManagedHubClusterFinalizer (fleet : Fleet) : option error * Fleet :=
  removeFinalizers (managedClusters fleet) fleet.

End ManagedHubs.

(** ** Statements about the managed clusters *)

(** The two annotations set to "true" in a map. *)
Definition annotationsSet (constants : PkgConstants) (annotations : gmap string string)
    : gmap string string :=
  <[AnnotationPolicyONMulticlusterHub constants := "true"]>
    (<[AnnotationONMulticlusterHub constants := "true"]> annotations).

(** The object of the Update request that a call of
    AnnotateManagedHubCluster sends for a stored cluster, if it sends one. *)
Definition annotateUpdate (constants : PkgConstants) (cluster : ManagedCluster)
    : option ManagedCluster :=
  if decide (ClusterName cluster = LocalClusterName constants) then None
  else match Annotations cluster with
       | None => Some cluster
       | Some annotations =>
           if decide (annotations = annotationsSet constants annotations) then None
           else Some (withAnnotations (Some (annotationsSet constants annotations)) cluster)
       end.

(** An item in memory holds the stored cluster [cluster]. *)
Definition itemOf (heap : list (gmap string string)) (item : ManagedClusterOf nat)
    (cluster : ManagedCluster)
    : Prop :=
  ClusterName item = ClusterName cluster
  /\ ClusterLabels item = ClusterLabels cluster
  /\ Finalizers item = Finalizers cluster
  /\ match Annotations item, Annotations cluster with
     | None, None => True
     | Some r, Some annotations => heap !! r = Some annotations
     | _, _ => False
     end.

(** The store after [n] calls of AnnotateManagedHubCluster. *)
Definition annotatedTimes (constants : PkgConstants) (n : nat) (fleet : Fleet) : Fleet :=
  Nat.iter n (fun fleet => (AnnotateManagedHubCluster constants fleet).2) fleet.

(** The object of the Update request that RemoveManagedHubClusterFinalizer
    sends for a stored cluster, if it sends one. *)
Definition finalizerUpdate (constants : PkgConstants) (cluster : ManagedCluster)
    : option ManagedCluster :=
  if decide (ClusterName cluster = LocalClusterName constants) then None
  else if decide (GlobalHubCleanupFinalizer constants ∈ Finalizers cluster)
       then Some (RemoveFinalizer cluster (GlobalHubCleanupFinalizer constants)).1
       else None.

(** A fleet: the local cluster, a managed hub without annotations and one
    with an annotation of its own; all three hold the cleanup finalizer. *)
Definition exampleConstants : PkgConstants :=
  {| LocalClusterName := "local-cluster";
     AnnotationONMulticlusterHub := "addon.open-cluster-management.io/on-multicluster-hub";
     AnnotationPolicyONMulticlusterHub :=
       "policy.open-cluster-management.io/sync-to-multicluster-hub";
     GlobalHubCleanupFinalizer := "global-hub.open-cluster-management.io/resource-cleanup" |}.

Definition exampleHub (name : string) (annotations : option (gmap string string))
    : ManagedCluster :=
  {| ClusterName := name; ClusterLabels := Some {["vendor" := "OpenShift"]};
     Annotations := annotations;
     Finalizers := ["cluster.open-cluster-management.io/api-resource-cleanup";
                    "global-hub.open-cluster-management.io/resource-cleanup"] |}.

Definition exampleFleet : Fleet :=
  {| managedClusters := [ exampleHub "local-cluster" None;
                          exampleHub "hub1" None;
                          exampleHub "hub2" (Some {["owner" := "team-a"]}) ];
     updates := [] |}.

(** * operator/pkg/utils: config maps and secrets *)

(** corev1.ConfigMap and corev1.Secret, the parts ApplyConfigMap and
    ApplySecret read: the metadata and the data, [None] for a nil map (the
    bytes of a secret's values are written as strings). *)
Record ConfigMap := {
  ConfigMapMeta : ObjectMeta;
  ConfigMapData : option (gmap string string)
}.

Record Secret := {
  SecretMeta : ObjectMeta;
  SecretData : option (gmap string string)
}.

(** The namespaced store of both kinds with the write requests it received,
    in order. While [unavailable] holds an error, the API server answers
    every request with it. *)
Record ConfigStore := {
  configMaps : gmap NamespacedName ConfigMap;
  secrets : gmap NamespacedName Secret;
  unavailable : option error;
  configWrites : list (verb * NamespacedName)
}.

Definition configMapKey (obj : ConfigMap) : NamespacedName :=
  (Namespace (ConfigMapMeta obj), Name (ConfigMapMeta obj)).

Definition secretKey (obj : Secret) : NamespacedName :=
  (Namespace (SecretMeta obj), Name (SecretMeta obj)).

Definition logWrite (v : verb) (key : NamespacedName) (store : ConfigStore) : ConfigStore :=
  {| configMaps := configMaps store; secrets := secrets store;
     unavailable := unavailable store;
     configWrites := (configWrites store ++ [(v, key)])%list |}.

Definition setConfigMaps (t : gmap NamespacedName ConfigMap) (store : ConfigStore)
    : ConfigStore :=
  {| configMaps := t; secrets := secrets store; unavailable := unavailable store;
     configWrites := configWrites store |}.

Definition setSecrets (t : gmap NamespacedName Secret) (store : ConfigStore)
    : ConfigStore :=
  {| configMaps := configMaps store; secrets := t; unavailable := unavailable store;
     configWrites := configWrites store |}.

Definition GetConfigMap (key : NamespacedName) (store : ConfigStore) : result ConfigMap :=
  match unavailable store with
  | Some err => Failed err
  | None => match configMaps store !! key with
            | Some obj => Found obj
            | None => Failed ErrNotFound
            end
  end.

Definition CreateConfigMap (obj : ConfigMap) (store : ConfigStore)
    : option error * ConfigStore :=
  let store := logWrite CreateVerb (configMapKey obj) store in
  match unavailable store with
  | Some err => (Some err, store)
  | None => match configMaps store !! configMapKey obj with
            | Some _ => (Some ErrAlreadyExists, store)
            | None => (None, setConfigMaps (<[configMapKey obj := obj]> (configMaps store)) store)
            end
  end.

Definition UpdateConfigMap (obj : ConfigMap) (store : ConfigStore)
    : option error * ConfigStore :=
  let store := logWrite UpdateVerb (configMapKey obj) store in
  match unavailable store with
  | Some err => (Some err, store)
  | None => match configMaps store !! configMapKey obj with
            | Some _ => (None, setConfigMaps (<[configMapKey obj := obj]> (configMaps store)) store)
            | None => (Some ErrNotFound, store)
            end
  end.

Definition GetSecret (key : NamespacedName) (store : ConfigStore) : result Secret :=
  match unavailable store with
  | Some err => Failed err
  | None => match secrets store !! key with
            | Some obj => Found obj
            | None => Failed ErrNotFound
            end
  end.

Definition CreateSecret (obj : Secret) (store : ConfigStore) : option error * ConfigStore :=
  let store := logWrite CreateVerb (secretKey obj) store in
  match unavailable store with
  | Some err => (Some err, store)
  | None => match secrets store !! secretKey obj with
            | Some _ => (Some ErrAlreadyExists, store)
            | None => (None, setSecrets (<[secretKey obj := obj]> (secrets store)) store)
            end
  end.

Definition UpdateSecret (obj : Secret) (store : ConfigStore) : option error * ConfigStore :=
  let store := logWrite UpdateVerb (secretKey obj) store in
  match unavailable store with
  | Some err => (Some err, store)
  | None => match secrets store !! secretKey obj with
            | Some _ => (None, setSecrets (<[secretKey obj := obj]> (secrets store)) store)
            | None => (Some ErrNotFound, store)
            end
  end.

(** reflect.DeepEqual on two maps: a nil map differs from an empty one. *)
Definition reflect_DeepEqual (a b : option (gmap string string)) : bool :=
  bool_decide (a = b).

(** err.Error(), as far as the store's errors go. *)
Definition errorString (err : error) : string :=
  match err with
  | ErrNotFound => "not found"
  | ErrAlreadyExists => "already exists"
  | ErrMsg message => message
  end.

(** fmt.Errorf("<message>, namespace: %v, name: %v, error:%v", ...) *)
Definition wrapError (message : string) (obj : ObjectMeta) (err : error) : error :=
  ErrMsg (message +:+ ", namespace: " +:+ Namespace obj +:+ ", name: " +:+ Name obj
            +:+ ", error:" +:+ errorString err).

(** ApplyConfigMap returns whether it wrote, and an error. *)
Definition ApplyConfigMap (required : ConfigMap) (store : ConfigStore)
    : bool * option error * ConfigStore :=
  match GetConfigMap (configMapKey required) store with
  | Failed err =>
      if IsNotFound (Some err) then
        let '(err, store) := CreateConfigMap required store in
        match err with
        | Some err =>
            (false, Some (wrapError "failed to create alert configmap"
                            (ConfigMapMeta required) err), store)
        | None => (true, None, store)
        end
      else (false, None, store)
  | Found curAlertConfigMap =>
      if reflect_DeepEqual (ConfigMapData curAlertConfigMap) (ConfigMapData required)
      then (false, None, store)
      else
        let curAlertConfigMap :=
          {| ConfigMapMeta := ConfigMapMeta curAlertConfigMap;
             ConfigMapData := ConfigMapData required |} in
        let '(err, store) := UpdateConfigMap curAlertConfigMap store in
        match err with
        | Some err =>
            (false, Some (wrapError "failed to update alert configmap"
                            (ConfigMapMeta required) err), store)
        | None => (true, None, store)
        end
  end.

Definition ApplySecret (requiredSecret : Secret) (store : ConfigStore)
    : bool * option error * ConfigStore :=
  match GetSecret (secretKey requiredSecret) store with
  | Failed err =>
      if IsNotFound (Some err) then
        let '(err, store) := CreateSecret requiredSecret store in
        match err with
        | Some err =>
            (false, Some (wrapError "failed to create secret"
                            (SecretMeta requiredSecret) err), store)
        | None => (true, None, store)
        end
      else (false, None, store)
  | Found currentSecret =>
      if reflect_DeepEqual (SecretData currentSecret) (SecretData requiredSecret)
      then (false, None, store)
      else
        let currentSecret :=
          {| SecretMeta := SecretMeta currentSecret;
             SecretData := SecretData requiredSecret |} in
        let '(err, store) := UpdateSecret currentSecret store in
        match err with
        | Some err =>
            (false, Some (wrapError "failed to update secret"
                            (SecretMeta requiredSecret) err), store)
        | None => (true, None, store)
        end
  end.

(** Config maps are stored under their own namespace and name, and so are
    secrets. *)
Definition configMapsKeyed (store : ConfigStore) : Prop :=
  forall key obj, configMaps store !! key = Some obj -> configMapKey obj = key.

Definition secretsKeyed (store : ConfigStore) : Prop :=
  forall key obj, secrets store !! key = Some obj -> secretKey obj = key.

(** The alert config map as an administrator left it and as the operator
    requires it, and the store that holds the former. *)
Definition alertMeta (labels : gmap string string) : ObjectMeta :=
  {| Name := "multicluster-global-hub-default-alerting";
     Namespace := "multicluster-global-hub";
     Labels := labels; UID := ""; CreationTimestamp := None;
     DeletionTimestamp := None |}.

Definition currentAlerts : ConfigMap :=
  {| ConfigMapMeta := alertMeta {["edited-by" := "an-administrator"]};
     ConfigMapData := Some {["alerting.yaml" := "groups: []"]} |}.

Definition requiredAlerts : ConfigMap :=
  {| ConfigMapMeta := alertMeta {["name" := "multicluster-global-hub-operator"]};
     ConfigMapData := Some {["alerting.yaml" := "groups: [cpu, memory]"]} |}.

Definition currentCredentials : Secret :=
  {| SecretMeta := alertMeta {["edited-by" := "an-administrator"]};
     SecretData := None |}.

Definition requiredCredentials : Secret :=
  {| SecretMeta := alertMeta ∅;
     SecretData := Some {["password" := "secret"]} |}.

Definition exampleStore (fault : option error) : ConfigStore :=
  {| configMaps := {[("multicluster-global-hub", "multicluster-global-hub-default-alerting")
                       := currentAlerts]};
     secrets := {[("multicluster-global-hub", "multicluster-global-hub-default-alerting")
                    := currentCredentials]};
     unavailable := fault;
     configWrites := [] |}.

(** * Statements about MergeObjects *)

(** A value that a merge patch takes over as it is: a scalar or an array. *)
Definition is_leaf (v : json) : Prop :=
  match v with
  | JNull | JObj _ => False
  | _ => True
  end.

(** A desired document that removes a label by setting it to null. *)
Definition removingDocument : json :=
  JObj {[ "metadata" := JObj {[ "labels" := JObj {[ "obsolete" := JNull ]} ]} ]}.

Definition labelledDocument : json :=
  JObj {[ "metadata" := JObj {[ "name" := JStr "spec";
                                "labels" := JObj {[ "obsolete" := JStr "yes";
                                                    "kept" := JStr "yes" ]} ]} ]}.
(** ** Lemmas on MergePatch *)

Lemma json_size_lookup (m : gmap string json) k v :
  m !! k = Some v -> json_size v < json_size (JObj m).
Proof.
  intros H. simpl.
  rewrite <-(insert_delete_id m k v H).
  rewrite map_fold_insert_L.
  - lia.
  - intros. lia.
  - apply lookup_delete_eq.
Qed.

Lemma json_size_ind (P : json -> Prop) :
  (forall j, (forall j', json_size j' < json_size j -> P j') -> P j) ->
  forall j, P j.
Proof.
  intros IH j. remember (json_size j) as n eqn:Hn.
  revert j Hn. induction n as [n IHn] using lt_wf_ind.
  intros j ->. apply IH. intros j' Hlt. eapply IHn; eauto.
Qed.

Lemma MergePatch_not_obj target patch :
  (forall p, patch <> JObj p) -> MergePatch target patch = patch.
Proof. destruct patch; try reflexivity. intros H. destruct (H m eq_refl). Qed.

Lemma MergePatch_obj target p :
  MergePatch target (JObj p) =
  JObj (merge apply_member (as_obj target)
          (map_imap (patch_member MergePatch (as_obj target)) p)).
Proof. reflexivity. Qed.

Lemma lookup_MergePatch target p k :
  as_obj (MergePatch target (JObj p)) !! k =
  match p !! k with
  | None => as_obj target !! k
  | Some v =>
      if is_null v then None
      else Some (MergePatch (default JNull (as_obj target !! k)) v)
  end.
Proof.
  rewrite MergePatch_obj. cbn [as_obj].
  rewrite lookup_merge, map_lookup_imap.
  destruct (p !! k) as [v|] eqn:Hp; cbn.
  - unfold patch_member. destruct (as_obj target !! k), (is_null v); reflexivity.
  - destruct (as_obj target !! k); reflexivity.
Qed.

Lemma MergePatch_as_obj target p :
  MergePatch target (JObj p) = JObj (as_obj (MergePatch target (JObj p))).
Proof. reflexivity. Qed.

Lemma MergePatch_ext target p target' p' :
  (forall k, as_obj (MergePatch target (JObj p)) !! k =
             as_obj (MergePatch target' (JObj p')) !! k) ->
  MergePatch target (JObj p) = MergePatch target' (JObj p').
Proof.
  intros H. rewrite (MergePatch_as_obj target), (MergePatch_as_obj target').
  f_equal. apply map_eq, H.
Qed.

(** Applying the same patch a second time changes nothing. *)
Lemma MergePatch_idemp patch : forall target,
  MergePatch (MergePatch target patch) patch = MergePatch target patch.
Proof.
  induction patch as [patch IH] using json_size_ind. intros target.
  destruct patch as [| | | | |p]; try reflexivity.
  apply MergePatch_ext. intros k.
  rewrite (lookup_MergePatch (MergePatch target (JObj p))).
  destruct (p !! k) as [v|] eqn:Hp.
  - rewrite lookup_MergePatch, Hp.
    destruct (is_null v); [reflexivity|].
    cbn [from_option id]. rewrite IH; [reflexivity|].
    eapply json_size_lookup; eauto.
  - reflexivity.
Qed.

(** A member the patch does not mention keeps its value. *)
Lemma MergePatch_keeps target p k :
  p !! k = None ->
  as_obj (MergePatch target (JObj p)) !! k = as_obj target !! k.
Proof. intros Hp. rewrite lookup_MergePatch, Hp. reflexivity. Qed.



(** ** Lemmas on the struct encoding *)

Lemma lookup_obj_of_nil k : obj_of [] !! k = None.
Proof. apply lookup_empty. Qed.

Lemma lookup_obj_of_cons k k' o l :
  obj_of ((k', o) :: l) !! k =
  match o with
  | Some v => if decide (k' = k) then Some v else obj_of l !! k
  | None => obj_of l !! k
  end.
Proof.
  unfold obj_of at 1. cbn [foldr fst snd]. fold (obj_of l).
  destruct o as [v|]; [|reflexivity].
  rewrite lookup_insert. reflexivity.
Qed.

Lemma lookup_obj_of_cons_eq k o l :
  obj_of ((k, o) :: l) !! k =
  match o with
  | Some v => Some v
  | None => obj_of l !! k
  end.
Proof.
  rewrite lookup_obj_of_cons. destruct o; [|reflexivity].
  destruct (decide (k = k)); congruence.
Qed.

Lemma lookup_obj_of_cons_ne k k' o l :
  k' <> k -> obj_of ((k', o) :: l) !! k = obj_of l !! k.
Proof.
  intros Hne. rewrite lookup_obj_of_cons. destruct o; [|reflexivity].
  destruct (decide (k' = k)); congruence.
Qed.

Ltac obj_lookup :=
  repeat first [ rewrite lookup_obj_of_nil
               | rewrite lookup_obj_of_cons_eq
               | rewrite lookup_obj_of_cons_ne by congruence ].

Lemma dec_string_enc s : dec_string (Some (JStr s)) = Some s.
Proof. reflexivity. Qed.

Lemma dec_ptr_string_enc (p : option string) :
  dec_ptr dec_string (enc_ptr JStr p) = Some p.
Proof. destruct p; reflexivity. Qed.

Lemma dec_slice_string_enc (l : list string) :
  dec_slice dec_string (enc_slice_omitempty JStr l) = Some l.
Proof.
  destruct l as [|x l]; [reflexivity|].
  cbn [enc_slice_omitempty dec_slice].
  apply mapM_Some_2. apply Forall2_fmap_l, Forall_Forall2_diag.
  apply Forall_true. reflexivity.
Qed.

Lemma unmarshalResource_marshal r :
  unmarshalResource (Some (marshalResource r)) = Some r.
Proof.
  destruct r as [n p t]. unfold unmarshalResource, marshalResource.
  cbn [fields_of mbind option_bind ResourceName PatternType ResourceType].
  destruct n, p; obj_lookup; reflexivity.
Qed.

Lemma unmarshalAcl_marshal a : unmarshalAcl (Some (marshalAcl a)) = Some a.
Proof.
  destruct a as [h ops r]. unfold unmarshalAcl, marshalAcl.
  cbn [fields_of mbind option_bind Host Operations Resource].
  assert (Hops := dec_slice_string_enc ops).
  destruct h, (enc_slice_omitempty JStr ops) eqn:Henc; obj_lookup;
    cbn [enc_ptr fmap option_fmap option_map dec_ptr dec_string mbind option_bind];
    rewrite Hops; cbn [mbind option_bind];
    rewrite unmarshalResource_marshal; reflexivity.
Qed.

Lemma dec_slice_acls_marshal (l : list KafkaUserSpecAuthorizationAclsElem) :
  dec_slice unmarshalAcl (Some (JArr (marshalAcl <$> l))) = Some l.
Proof.
  cbn [dec_slice]. apply mapM_Some_2. apply Forall2_fmap_l, Forall_Forall2_diag.
  apply Forall_true. intros a. apply unmarshalAcl_marshal.
Qed.

Lemma unmarshalAuthentication_patch target a :
  unmarshalAuthentication (Some (MergePatch target (marshalAuthentication a))) = Some a.
Proof.
  destruct a as [t]. unfold unmarshalAuthentication, marshalAuthentication.
  rewrite MergePatch_as_obj. cbn [fields_of mbind option_bind].
  rewrite lookup_MergePatch. obj_lookup. reflexivity.
Qed.

Lemma unmarshalAuthorization_patch target a :
  unmarshalAuthorization (Some (MergePatch target (marshalAuthorization a))) = Some a.
Proof.
  destruct a as [acls t]. unfold unmarshalAuthorization, marshalAuthorization.
  rewrite MergePatch_as_obj. cbn [fields_of mbind option_bind].
  rewrite !lookup_MergePatch. obj_lookup.
  cbn [Acls AuthorizationType enc_string is_null MergePatch].
  rewrite dec_slice_acls_marshal. reflexivity.
Qed.

Lemma dec_ptr_MergePatch_obj {A} (dec : option json -> option A) target p :
  dec_ptr dec (Some (MergePatch target (JObj p)))
  = Some <$> dec (Some (MergePatch target (JObj p))).
Proof. reflexivity. Qed.

(** A desired user spec that sets authentication and authorization decides
    the merged spec, whatever the existing one holds. *)
Lemma unmarshalKafkaUserSpec_patch target authn authz :
  let desired := {| Authentication := Some authn; Authorization := Some authz |} in
  unmarshalKafkaUserSpec (Some (MergePatch target (marshalKafkaUserSpec desired)))
  = Some desired.
Proof.
  intros desired. unfold unmarshalKafkaUserSpec, marshalKafkaUserSpec, desired.
  rewrite MergePatch_as_obj. cbn [fields_of mbind option_bind].
  rewrite !lookup_MergePatch. obj_lookup.
  cbn [Authentication Authorization enc_ptr fmap option_fmap option_map].
  change (is_null (marshalAuthentication authn)) with false.
  change (is_null (marshalAuthorization authz)) with false.
  cbv iota.
  unfold marshalAuthentication at 1. rewrite dec_ptr_MergePatch_obj.
  fold (marshalAuthentication authn). rewrite unmarshalAuthentication_patch.
  unfold marshalAuthorization at 1. rewrite dec_ptr_MergePatch_obj.
  fold (marshalAuthorization authz). rewrite unmarshalAuthorization_patch.
  reflexivity.
Qed.

(** ** Merging metadata *)

Lemma omap_str_of_fmap (m : gmap string string) : omap str_of (JStr <$> m) = m.
Proof.
  apply map_eq. intros k. rewrite lookup_omap, lookup_fmap.
  destruct (m !! k); reflexivity.
Qed.

Lemma map_Forall_str_of_fmap (m : gmap string string) :
  map_Forall (fun (_ : string) v => is_Some (str_of v)) (JStr <$> m).
Proof.
  intros k v. rewrite lookup_fmap. destruct (m !! k); cbn; [|discriminate].
  intros [= <-]. eexists. reflexivity.
Qed.

Lemma dec_labels_obj (m : gmap string string) :
  dec_labels (Some (JObj (JStr <$> m))) = Some m.
Proof.
  cbn [dec_labels]. destruct (decide _) as [_|Hn].
  - rewrite omap_str_of_fmap. reflexivity.
  - destruct Hn. apply map_Forall_str_of_fmap.
Qed.

Lemma dec_labels_enc (m : gmap string string) : dec_labels (enc_labels m) = Some m.
Proof.
  unfold enc_labels. destruct (decide (m = ∅)) as [->|_]; [reflexivity|].
  apply dec_labels_obj.
Qed.

Lemma as_obj_enc_labels (m : gmap string string) :
  as_obj (default JNull (enc_labels m)) = JStr <$> m.
Proof.
  unfold enc_labels. destruct (decide (m = ∅)) as [->|_]; cbn.
  - rewrite fmap_empty. reflexivity.
  - reflexivity.
Qed.

Lemma MergePatch_labels target (ld le : gmap string string) :
  as_obj target = JStr <$> le ->
  MergePatch target (JObj (JStr <$> ld)) = JObj (JStr <$> (ld ∪ le)).
Proof.
  intros Ht. rewrite MergePatch_as_obj. f_equal. apply map_eq. intros k.
  rewrite lookup_MergePatch, Ht, !lookup_fmap, lookup_union.
  destruct (ld !! k) as [v|], (le !! k); reflexivity.
Qed.

Lemma lookup_MergePatch_member target p k :
  as_obj (MergePatch target (JObj p)) !! k = merged_member (as_obj target !! k) (p !! k).
Proof. apply lookup_MergePatch. Qed.

Lemma dec_string_merged (e d : string) :
  dec_string (merged_member (enc_string_omitempty e) (enc_string_omitempty d))
  = Some (if decide (d = "") then e else d).
Proof.
  unfold enc_string_omitempty, merged_member.
  destruct (decide (d = "")), (decide (e = "")); subst; reflexivity.
Qed.

Lemma dec_ptr_string_merged (e d : option string) :
  dec_ptr dec_string (merged_member (enc_ptr JStr e) (enc_ptr JStr d))
  = Some (match d with Some t => Some t | None => e end).
Proof. destruct d, e; reflexivity. Qed.

Lemma dec_labels_merged (le ld : gmap string string) :
  dec_labels (merged_member (enc_labels le) (enc_labels ld)) = Some (ld ∪ le).
Proof.
  unfold merged_member. set (e := enc_labels le). unfold enc_labels. subst e.
  destruct (decide (ld = ∅)) as [->|_].
  - rewrite (left_id_L ∅ (∪)). apply dec_labels_enc.
  - cbn [is_null]. rewrite (MergePatch_labels _ ld le) by apply as_obj_enc_labels.
    apply dec_labels_obj.
Qed.

Lemma lookup_marshalObjectMeta_name m :
  as_obj (marshalObjectMeta m) !! "name" = enc_string_omitempty (Name m).
Proof.
  unfold marshalObjectMeta. cbn [as_obj]. obj_lookup.
  destruct (enc_string_omitempty (Name m)); reflexivity.
Qed.

Lemma lookup_marshalObjectMeta_namespace m :
  as_obj (marshalObjectMeta m) !! "namespace" = enc_string_omitempty (Namespace m).
Proof.
  unfold marshalObjectMeta. cbn [as_obj]. obj_lookup.
  destruct (enc_string_omitempty (Namespace m)); reflexivity.
Qed.

Lemma lookup_marshalObjectMeta_labels m :
  as_obj (marshalObjectMeta m) !! "labels" = enc_labels (Labels m).
Proof.
  unfold marshalObjectMeta. cbn [as_obj]. obj_lookup.
  destruct (enc_labels (Labels m)); reflexivity.
Qed.

Lemma lookup_marshalObjectMeta_uid m :
  as_obj (marshalObjectMeta m) !! "uid" = enc_string_omitempty (UID m).
Proof.
  unfold marshalObjectMeta. cbn [as_obj]. obj_lookup.
  destruct (enc_string_omitempty (UID m)); reflexivity.
Qed.

Lemma lookup_marshalObjectMeta_deletionTimestamp m :
  as_obj (marshalObjectMeta m) !! "deletionTimestamp" = enc_ptr JStr (DeletionTimestamp m).
Proof.
  unfold marshalObjectMeta. cbn [as_obj]. obj_lookup.
  destruct (enc_ptr JStr (DeletionTimestamp m)); reflexivity.
Qed.

Lemma lookup_marshalObjectMeta_creationTimestamp m :
  as_obj (marshalObjectMeta m) !! "creationTimestamp" = enc_time (CreationTimestamp m).
Proof. unfold marshalObjectMeta. cbn [as_obj]. obj_lookup. reflexivity. Qed.

Lemma dec_time_merged (e d : option string) :
  dec_ptr dec_string (merged_member (enc_time e) (enc_time d)) = Some d.
Proof. destruct d, e; reflexivity. Qed.

Lemma marshalObjectMeta_obj m : marshalObjectMeta m = JObj (as_obj (marshalObjectMeta m)).
Proof. reflexivity. Qed.

Lemma unmarshalObjectMeta_merge existing desired :
  unmarshalObjectMeta
    (Some (MergePatch (marshalObjectMeta existing) (marshalObjectMeta desired)))
  = Some (mergeObjectMeta existing desired).
Proof.
  rewrite (marshalObjectMeta_obj desired), MergePatch_as_obj.
  unfold unmarshalObjectMeta. cbn [fields_of mbind option_bind].
  rewrite !lookup_MergePatch_member.
  rewrite !lookup_marshalObjectMeta_name, !lookup_marshalObjectMeta_namespace,
    !lookup_marshalObjectMeta_labels, !lookup_marshalObjectMeta_uid,
    !lookup_marshalObjectMeta_creationTimestamp,
    !lookup_marshalObjectMeta_deletionTimestamp.
  rewrite !dec_string_merged, dec_labels_merged, dec_time_merged, dec_ptr_string_merged.
  reflexivity.
Qed.

(** ** MergeObjects on a KafkaUser *)

Lemma merged_member_obj existing p :
  merged_member existing (Some (JObj p))
  = Some (MergePatch (default JNull existing) (JObj p)).
Proof. reflexivity. Qed.

Lemma lookup_marshalKafkaUser_metadata u :
  as_obj (marshalKafkaUser u) !! "metadata" = Some (marshalObjectMeta (UserMeta u)).
Proof. unfold marshalKafkaUser. cbn [as_obj]. obj_lookup. reflexivity. Qed.

Lemma lookup_marshalKafkaUser_spec u :
  as_obj (marshalKafkaUser u) !! "spec" = enc_ptr marshalKafkaUserSpec (UserSpec u).
Proof.
  unfold marshalKafkaUser. cbn [as_obj]. obj_lookup.
  destruct (enc_ptr _ _); reflexivity.
Qed.

(** Merging a desired user that sets its whole spec: the metadata are
    merged, the spec is the desired one. *)
Lemma MergeObjects_KafkaUser existing dmeta authn authz :
  let spec := {| Authentication := Some authn; Authorization := Some authz |} in
  MergeObjects existing {| UserMeta := dmeta; UserSpec := Some spec |}
  = Some {| UserMeta := mergeObjectMeta (UserMeta existing) dmeta;
            UserSpec := Some spec |}.
Proof.
  intros spec. unfold MergeObjects. cbn [marshal unmarshal KafkaUser_object].
  set (desired := {| UserMeta := dmeta; UserSpec := Some spec |}).
  change (marshalKafkaUser desired) with (JObj (as_obj (marshalKafkaUser desired))).
  rewrite MergePatch_as_obj. unfold unmarshalKafkaUser.
  cbn [fields_of mbind option_bind].
  rewrite !lookup_MergePatch_member, !lookup_marshalKafkaUser_metadata,
    !lookup_marshalKafkaUser_spec.
  subst desired. cbn [UserMeta UserSpec enc_ptr fmap option_fmap option_map].
  change (merged_member (Some ?e) (Some (marshalObjectMeta dmeta)))
    with (Some (MergePatch e (marshalObjectMeta dmeta))).
  rewrite unmarshalObjectMeta_merge. cbn [mbind option_bind].
  change (merged_member ?e (Some (marshalKafkaUserSpec spec)))
    with (Some (MergePatch (default JNull e) (marshalKafkaUserSpec spec))).
  change (dec_ptr ?dec (Some (MergePatch ?t (marshalKafkaUserSpec spec))))
    with (Some <$> dec (Some (MergePatch t (marshalKafkaUserSpec spec)))).
  unfold spec. rewrite unmarshalKafkaUserSpec_patch. reflexivity.
Qed.

(** ** MergeObjects on a KafkaTopic *)

Lemma unmarshalKafkaTopicSpec_patch target cm p r :
  unmarshalKafkaTopicSpec
    (Some (MergePatch target
             (marshalKafkaTopicSpec
                {| Config := Some (JObj cm); Partitions := Some p; Replicas := Some r |})))
  = Some {| Config := Some (MergePatch (default JNull (as_obj target !! "config")) (JObj cm));
            Partitions := Some p; Replicas := Some r |}.
Proof.
  unfold unmarshalKafkaTopicSpec, marshalKafkaTopicSpec.
  rewrite MergePatch_as_obj. cbn [fields_of mbind option_bind].
  rewrite !lookup_MergePatch. obj_lookup.
  reflexivity.
Qed.

Lemma lookup_marshalKafkaTopic_metadata t :
  as_obj (marshalKafkaTopic t) !! "metadata" = Some (marshalObjectMeta (TopicMeta t)).
Proof. unfold marshalKafkaTopic. cbn [as_obj]. obj_lookup. reflexivity. Qed.

Lemma lookup_marshalKafkaTopic_spec t :
  as_obj (marshalKafkaTopic t) !! "spec" = enc_ptr marshalKafkaTopicSpec (TopicSpec t).
Proof.
  unfold marshalKafkaTopic. cbn [as_obj]. obj_lookup.
  destruct (enc_ptr _ _); reflexivity.
Qed.

Lemma lookup_config_of_spec (s : option KafkaTopicSpec) :
  as_obj (default JNull (enc_ptr marshalKafkaTopicSpec s)) !! "config" = s ≫= Config.
Proof.
  destruct s as [s|]; [|reflexivity].
  cbn [enc_ptr fmap option_fmap option_map from_option id mbind option_bind].
  unfold marshalKafkaTopicSpec. cbn [as_obj]. obj_lookup.
  destruct (Config s); reflexivity.
Qed.

(** Merging a desired topic that sets partitions, replicas and a config
    object: the metadata are merged, partitions and replicas are the desired
    ones, the desired config is patched into the existing one. *)
Lemma MergeObjects_KafkaTopic existing dmeta cm p r :
  MergeObjects existing
    {| TopicMeta := dmeta;
       TopicSpec := Some {| Config := Some (JObj cm); Partitions := Some p;
                            Replicas := Some r |} |}
  = Some {| TopicMeta := mergeObjectMeta (TopicMeta existing) dmeta;
            TopicSpec := Some {| Config := Some (MergePatch (configOf existing) (JObj cm));
                                 Partitions := Some p; Replicas := Some r |} |}.
Proof.
  unfold MergeObjects. cbn [marshal unmarshal KafkaTopic_object].
  set (spec := {| Config := Some (JObj cm); Partitions := Some p; Replicas := Some r |}).
  set (desired := {| TopicMeta := dmeta; TopicSpec := Some spec |}).
  change (marshalKafkaTopic desired) with (JObj (as_obj (marshalKafkaTopic desired))).
  rewrite MergePatch_as_obj. unfold unmarshalKafkaTopic.
  cbn [fields_of mbind option_bind].
  rewrite !lookup_MergePatch_member, !lookup_marshalKafkaTopic_metadata,
    !lookup_marshalKafkaTopic_spec.
  subst desired. cbn [TopicMeta TopicSpec enc_ptr fmap option_fmap option_map].
  change (merged_member (Some ?e) (Some (marshalObjectMeta dmeta)))
    with (Some (MergePatch e (marshalObjectMeta dmeta))).
  rewrite unmarshalObjectMeta_merge. cbn [mbind option_bind].
  change (merged_member ?e (Some (marshalKafkaTopicSpec spec)))
    with (Some (MergePatch (default JNull e) (marshalKafkaTopicSpec spec))).
  change (dec_ptr ?dec (Some (MergePatch ?t (marshalKafkaTopicSpec spec))))
    with (Some <$> dec (Some (MergePatch t (marshalKafkaTopicSpec spec)))).
  unfold spec. rewrite unmarshalKafkaTopicSpec_patch.
  change (enc_ptr marshalKafkaTopicSpec (TopicSpec existing))
    with (marshalKafkaTopicSpec <$> TopicSpec existing).
  fold (enc_ptr marshalKafkaTopicSpec (TopicSpec existing)).
  rewrite lookup_config_of_spec. reflexivity.
Qed.

(** ** DeepDerivative of a value and itself *)

Lemma DeepDerivative_string_refl s : DeepDerivative_string s s = Done true.
Proof.
  unfold DeepDerivative_string. rewrite (bool_decide_eq_true_2 (s = s)) by reflexivity.
  rewrite orb_true_r. reflexivity.
Qed.

Lemma DeepDerivative_int_refl z : DeepDerivative_int z z = Done true.
Proof. unfold DeepDerivative_int. rewrite bool_decide_eq_true_2 by reflexivity. reflexivity. Qed.

Lemma DeepDerivative_raw_refl j : DeepDerivative_raw j j = Done true.
Proof. unfold DeepDerivative_raw. rewrite bool_decide_eq_true_2 by reflexivity. reflexivity. Qed.

Lemma DeepDerivative_ptr_refl {A} (f : A -> A -> outcome bool) :
  (forall x, f x x = Done true) -> forall p, DeepDerivative_ptr f p p = Done true.
Proof. intros Hf [x|]; cbn; auto. Qed.

Lemma DeepDerivative_elems_refl {A} (f : A -> A -> outcome bool) :
  (forall x, f x x = Done true) -> forall l, DeepDerivative_elems f l l = Done true.
Proof.
  intros Hf l. induction l as [|x l IH]; cbn; [reflexivity|]. rewrite Hf, IH. reflexivity.
Qed.

Lemma DeepDerivative_slice_refl {A} (f : A -> A -> outcome bool) :
  (forall x, f x x = Done true) -> forall l, DeepDerivative_slice f l l = Done true.
Proof.
  intros Hf l. unfold DeepDerivative_slice. destruct l as [|x l]; [reflexivity|].
  destruct (decide _) as [Hlt|_]; [lia|]. apply DeepDerivative_elems_refl, Hf.
Qed.

Lemma DeepDerivative_Resource_refl r : DeepDerivative_Resource r r = Done true.
Proof.
  unfold DeepDerivative_Resource.
  rewrite !(DeepDerivative_ptr_refl _ DeepDerivative_string_refl), DeepDerivative_string_refl.
  reflexivity.
Qed.

Lemma DeepDerivative_Acl_refl a : DeepDerivative_Acl a a = Done true.
Proof.
  unfold DeepDerivative_Acl.
  rewrite (DeepDerivative_ptr_refl _ DeepDerivative_string_refl),
    (DeepDerivative_slice_refl _ DeepDerivative_string_refl), DeepDerivative_Resource_refl.
  reflexivity.
Qed.

Lemma DeepDerivative_KafkaUserSpec_refl s : DeepDerivative_KafkaUserSpec s s = Done true.
Proof.
  unfold DeepDerivative_KafkaUserSpec.
  rewrite !DeepDerivative_ptr_refl; [reflexivity| |].
  - intros a. unfold DeepDerivative_Authorization.
    rewrite (DeepDerivative_slice_refl _ DeepDerivative_Acl_refl), DeepDerivative_string_refl.
    reflexivity.
  - intros a. apply DeepDerivative_string_refl.
Qed.

Lemma DeepDerivative_KafkaTopicSpec_refl s : DeepDerivative_KafkaTopicSpec s s = Done true.
Proof.
  unfold DeepDerivative_KafkaTopicSpec.
  rewrite (DeepDerivative_ptr_refl _ DeepDerivative_raw_refl),
    !(DeepDerivative_ptr_refl _ DeepDerivative_int_refl).
  reflexivity.
Qed.

(** ** The store *)

Lemma mergeObjectMeta_key (existing desired : ObjectMeta) ns name :
  (Namespace existing, Name existing) = (ns, name) ->
  (Namespace desired, Name desired) = (ns, name) ->
  (Namespace (mergeObjectMeta existing desired), Name (mergeObjectMeta existing desired))
  = (ns, name).
Proof.
  intros [= He1 He2] [= Hd1 Hd2]. unfold mergeObjectMeta. cbn [Namespace Name].
  repeat case_decide; congruence.
Qed.

Lemma Get_user_Some key obj c :
  kafkaUsers c !! key = Some obj -> Get key c = (Done (Found obj), c).
Proof. intros Hl. unfold Get. cbn [table KafkaUser_stored]. rewrite Hl. reflexivity. Qed.

Lemma Get_user_None key c :
  kafkaUsers c !! key = None -> Get (A:=KafkaUser) key c = (Done (Failed ErrNotFound), c).
Proof. intros Hl. unfold Get. cbn [table KafkaUser_stored]. rewrite Hl. reflexivity. Qed.

Lemma Get_topic_Some key obj c :
  kafkaTopics c !! key = Some obj -> Get key c = (Done (Found obj), c).
Proof. intros Hl. unfold Get. cbn [table KafkaTopic_stored]. rewrite Hl. reflexivity. Qed.

Lemma Get_topic_None key c :
  kafkaTopics c !! key = None -> Get (A:=KafkaTopic) key c = (Done (Failed ErrNotFound), c).
Proof. intros Hl. unfold Get. cbn [table KafkaTopic_stored]. rewrite Hl. reflexivity. Qed.

Lemma Create_user_absent (obj : KafkaUser) key c :
  ObjectKeyFromObject obj = key ->
  kafkaUsers c !! key = None ->
  Create obj c
  = (Done None,
     set_table (<[key := obj]> (kafkaUsers c))
       (log_request {| reqVerb := CreateVerb; reqKind := KafkaUserKind; reqKey := key |} c)).
Proof.
  intros Hk Habs. unfold Create. rewrite Hk. cbn [table KafkaUser_stored].
  rewrite Habs. reflexivity.
Qed.

Lemma Update_user_present (obj : KafkaUser) key c :
  ObjectKeyFromObject obj = key ->
  is_Some (kafkaUsers c !! key) ->
  Update obj c
  = (Done None,
     set_table (<[key := obj]> (kafkaUsers c))
       (log_request {| reqVerb := UpdateVerb; reqKind := KafkaUserKind; reqKey := key |} c)).
Proof.
  intros Hk [old Hold]. unfold Update. rewrite Hk. cbn [table KafkaUser_stored].
  rewrite Hold. reflexivity.
Qed.

Lemma Delete_user_present (obj : KafkaUser) key c :
  ObjectKeyFromObject obj = key ->
  is_Some (kafkaUsers c !! key) ->
  Delete obj c
  = (Done None,
     set_table (delete key (kafkaUsers c))
       (log_request {| reqVerb := DeleteVerb; reqKind := KafkaUserKind; reqKey := key |} c)).
Proof.
  intros Hk [old Hold]. unfold Delete. rewrite Hk. cbn [table KafkaUser_stored].
  rewrite Hold. reflexivity.
Qed.

Lemma Create_topic_absent (obj : KafkaTopic) key c :
  ObjectKeyFromObject obj = key ->
  kafkaTopics c !! key = None ->
  Create obj c
  = (Done None,
     set_table (<[key := obj]> (kafkaTopics c))
       (log_request {| reqVerb := CreateVerb; reqKind := KafkaTopicKind; reqKey := key |} c)).
Proof.
  intros Hk Habs. unfold Create. rewrite Hk. cbn [table KafkaTopic_stored].
  rewrite Habs. reflexivity.
Qed.

Lemma Update_topic_present (obj : KafkaTopic) key c :
  ObjectKeyFromObject obj = key ->
  is_Some (kafkaTopics c !! key) ->
  Update obj c
  = (Done None,
     set_table (<[key := obj]> (kafkaTopics c))
       (log_request {| reqVerb := UpdateVerb; reqKind := KafkaTopicKind; reqKey := key |} c)).
Proof.
  intros Hk [old Hold]. unfold Update. rewrite Hk. cbn [table KafkaTopic_stored].
  rewrite Hold. reflexivity.
Qed.

Lemma bind_Done {A B} (m : M A) (f : A -> M B) a c c' :
  m c = (Done a, c') -> bind m f c = f a c'.
Proof. intros Hm. unfold bind. rewrite Hm. reflexivity. Qed.

Lemma bind_Panic {A B} (m : M A) (f : A -> M B) c c' :
  m c = (Panic, c') -> bind m f c = (Panic, c').
Proof. intros Hm. unfold bind. rewrite Hm. reflexivity. Qed.

(** ** EnsureUser *)

Section EnsureUserProofs.

Context (cfg : PkgConfig) (k : strimziTransporter) (clusterName : string).

Let userName := GetKafkaUserName cfg clusterName.
Let desired := newKafkaUser cfg k userName KafkaUserSpecAuthenticationTypeTlsExternal
                 (simpleACLs cfg k clusterName).
Let key : NamespacedName := (kafkaClusterNamespace k, userName).

Lemma EnsureUser_absent c :
  kafkaUsers c !! key = None ->
  EnsureUser cfg k clusterName c
  = (Done (userName, None),
     set_table (<[key := desired]> (kafkaUsers c))
       (log_request {| reqVerb := CreateVerb; reqKind := KafkaUserKind; reqKey := key |} c)).
Proof.
  intros Habs. unfold EnsureUser. fold userName. fold key. fold desired.
  rewrite (bind_Done _ _ _ _ _ (Get_user_None key c Habs)).
  rewrite (bind_Done _ _ _ _ _ (Create_user_absent desired key c eq_refl Habs)).
  reflexivity.
Qed.

Lemma MergeObjects_desired_user existing :
  MergeObjects existing desired
  = Some {| UserMeta := mergeObjectMeta (UserMeta existing) (UserMeta desired);
            UserSpec := UserSpec desired |}.
Proof. apply MergeObjects_KafkaUser. Qed.

Lemma EnsureUser_settled c existing :
  kafkaUsers c !! key = Some existing ->
  DeepDerivative_ptr DeepDerivative_KafkaUserSpec (UserSpec desired) (UserSpec existing)
  = Done true ->
  EnsureUser cfg k clusterName c = (Done (userName, None), c).
Proof.
  intros Hex Hdd. unfold EnsureUser. fold userName. fold key. fold desired.
  rewrite (bind_Done _ _ _ _ _ (Get_user_Some key existing c Hex)).
  rewrite MergeObjects_desired_user. cbn [UserSpec]. fold desired.
  cbn [UserSpec desired newKafkaUser] in Hdd |- *.
  unfold bind, call. rewrite Hdd. reflexivity.
Qed.

Lemma EnsureUser_drifted c existing :
  wf_table (A:=KafkaUser) c ->
  kafkaUsers c !! key = Some existing ->
  DeepDerivative_ptr DeepDerivative_KafkaUserSpec (UserSpec desired) (UserSpec existing)
  = Done false ->
  EnsureUser cfg k clusterName c
  = (Done (userName, None),
     set_table
       (<[key := {| UserMeta := mergeObjectMeta (UserMeta existing) (UserMeta desired);
                    UserSpec := UserSpec desired |}]> (kafkaUsers c))
       (log_request {| reqVerb := UpdateVerb; reqKind := KafkaUserKind; reqKey := key |} c)).
Proof.
  intros Hwf Hex Hdd. unfold EnsureUser. fold userName. fold key. fold desired.
  rewrite (bind_Done _ _ _ _ _ (Get_user_Some key existing c Hex)).
  rewrite MergeObjects_desired_user. cbn [UserSpec].
  cbn [UserSpec desired newKafkaUser] in Hdd |- *.
  unfold bind at 1, call. rewrite Hdd. cbn [negb].
  erewrite bind_Done; cycle 1.
  { apply (Update_user_present _ key); [|eauto].
    unfold ObjectKeyFromObject. cbn [meta_of KafkaUser_stored UserMeta].
    apply mergeObjectMeta_key; [|reflexivity].
    apply (Hwf key existing Hex). }
  reflexivity.
Qed.

Lemma EnsureUser_panics c existing :
  kafkaUsers c !! key = Some existing ->
  DeepDerivative_ptr DeepDerivative_KafkaUserSpec (UserSpec desired) (UserSpec existing)
  = Panic ->
  EnsureUser cfg k clusterName c = (Panic, c).
Proof.
  intros Hex Hdd. unfold EnsureUser. fold userName. fold key. fold desired.
  rewrite (bind_Done _ _ _ _ _ (Get_user_Some key existing c Hex)).
  rewrite MergeObjects_desired_user. cbn [UserSpec]. fold desired.
  cbn [UserSpec desired newKafkaUser] in Hdd |- *.
  unfold bind, call. rewrite Hdd. reflexivity.
Qed.

End EnsureUserProofs.

(** After a call of EnsureUser that returned without error, a second call
    finds nothing to do. *)
Lemma EnsureUser_again cfg k clusterName c r c1 :
  wf_table (A:=KafkaUser) c ->
  EnsureUser cfg k clusterName c = (Done (r, None), c1) ->
  EnsureUser cfg k clusterName c1 = (Done (GetKafkaUserName cfg clusterName, None), c1).
Proof.
  intros Hwf Hrun.
  set (key := (kafkaClusterNamespace k, GetKafkaUserName cfg clusterName)).
  set (desired := desiredUserOf cfg k clusterName).
  assert (Hrefl : DeepDerivative_ptr DeepDerivative_KafkaUserSpec
                    (UserSpec desired) (UserSpec desired) = Done true).
  { apply DeepDerivative_ptr_refl, DeepDerivative_KafkaUserSpec_refl. }
  destruct (kafkaUsers c !! key) as [existing|] eqn:Hex.
  - destruct (DeepDerivative_ptr DeepDerivative_KafkaUserSpec
                (UserSpec desired) (UserSpec existing)) as [[|]|] eqn:Hdd.
    + rewrite (EnsureUser_settled cfg k clusterName c existing Hex Hdd) in Hrun.
      injection Hrun as _ <-. eapply EnsureUser_settled; eauto.
    + rewrite (EnsureUser_drifted cfg k clusterName c existing Hwf Hex Hdd) in Hrun.
      injection Hrun as _ <-.
      eapply EnsureUser_settled;
        [cbn [set_table KafkaUser_stored kafkaUsers]; apply lookup_insert_eq|exact Hrefl].
    + rewrite (EnsureUser_panics cfg k clusterName c existing Hex Hdd) in Hrun.
      discriminate Hrun.
  - rewrite (EnsureUser_absent cfg k clusterName c Hex) in Hrun. injection Hrun as _ <-.
    eapply EnsureUser_settled;
      [cbn [set_table KafkaUser_stored kafkaUsers]; apply lookup_insert_eq|exact Hrefl].
Qed.

(** ** Comparisons that return *)

Lemma returns_and_then (b1 b2 : outcome bool) :
  returns b1 -> returns b2 -> returns (and_then b1 b2).
Proof. intros [[|] ->] [b ->]; cbn [and_then]; eexists; reflexivity. Qed.

Lemma returns_string a1 a2 : returns (DeepDerivative_string a1 a2).
Proof. eexists. reflexivity. Qed.

Lemma returns_ptr {A} (f : A -> A -> outcome bool) a1 a2 :
  is_Some a2 -> (forall x y, a2 = Some y -> returns (f x y)) ->
  returns (DeepDerivative_ptr f a1 a2).
Proof.
  intros [y ->] Hf. destruct a1 as [x|]; cbn [DeepDerivative_ptr]; [apply Hf; reflexivity|].
  eexists. reflexivity.
Qed.

Lemma returns_elems {A} (f : A -> A -> outcome bool) (P : A -> Prop) :
  (forall x y, P y -> returns (f x y)) ->
  forall a1 a2, Forall P a2 -> returns (DeepDerivative_elems f a1 a2).
Proof.
  intros Hf a1. induction a1 as [|x a1 IH]; intros a2 Hall.
  - eexists. reflexivity.
  - destruct a2 as [|y a2]; [eexists; reflexivity|].
    cbn [DeepDerivative_elems]. apply Forall_cons in Hall as [Hy Hall].
    apply returns_and_then; [apply Hf, Hy|apply IH, Hall].
Qed.

Lemma returns_slice {A} (f : A -> A -> outcome bool) (P : A -> Prop) :
  (forall x y, P y -> returns (f x y)) ->
  forall a1 a2, Forall P a2 -> returns (DeepDerivative_slice f a1 a2).
Proof.
  intros Hf a1 a2 Hall. unfold DeepDerivative_slice. destruct a1 as [|x a1].
  - eexists. reflexivity.
  - destruct (decide _); [eexists; reflexivity|]. apply (returns_elems f P Hf), Hall.
Qed.

Lemma returns_Acl a1 a2 : aclSet a2 -> returns (DeepDerivative_Acl a1 a2).
Proof.
  intros (Hhost & Hname & Hpattern). unfold DeepDerivative_Acl, DeepDerivative_Resource.
  repeat apply returns_and_then.
  - apply returns_ptr; [exact Hhost|intros; apply returns_string].
  - apply (returns_slice _ (fun _ => True)); [intros; apply returns_string|].
    apply Forall_forall. auto.
  - apply returns_ptr; [exact Hname|intros; apply returns_string].
  - apply returns_ptr; [exact Hpattern|intros; apply returns_string].
  - apply returns_string.
Qed.

Lemma returns_KafkaUserSpec (a1 : option KafkaUserSpec) user :
  userSet user ->
  returns (DeepDerivative_ptr DeepDerivative_KafkaUserSpec a1 (UserSpec user)).
Proof.
  intros (spec & authn & authz & Hspec & Hauthn & Hauthz & Hacls).
  apply returns_ptr; [eauto|]. intros x y Hy. rewrite Hspec in Hy. injection Hy as <-.
  unfold DeepDerivative_KafkaUserSpec. apply returns_and_then.
  - apply returns_ptr; [eauto|]. intros; apply returns_string.
  - apply returns_ptr; [eauto|]. intros x' y' Hy'. rewrite Hauthz in Hy'. injection Hy' as <-.
    unfold DeepDerivative_Authorization. apply returns_and_then; [|apply returns_string].
    apply (returns_slice _ aclSet); [intros; apply returns_Acl; assumption|exact Hacls].
Qed.

(** On a store whose user, if there is one, has the pointers the desired
    user sets, EnsureUser returns without error. *)
Lemma EnsureUser_returns cfg k clusterName c :
  wf_table (A:=KafkaUser) c ->
  userIsSet cfg k clusterName c ->
  exists c1,
    EnsureUser cfg k clusterName c = (Done (GetKafkaUserName cfg clusterName, None), c1).
Proof.
  intros Hwf Hset.
  destruct (kafkaUsers c !! userKey cfg k clusterName) as [existing|] eqn:Hex.
  - destruct (returns_KafkaUserSpec (UserSpec (desiredUserOf cfg k clusterName)) existing
                (Hset existing Hex)) as [[|] Hdd].
    + eexists. eapply EnsureUser_settled; eauto.
    + eexists. eapply EnsureUser_drifted; eauto.
  - eexists. apply EnsureUser_absent. exact Hex.
Qed.

(** ** EnsureTopic *)

Section EnsureTopicProofs.

Context (cfg : PkgConfig) (k : strimziTransporter).

Lemma newKafkaTopic_spec topicName :
  newKafkaTopic cfg k topicName
  = {| TopicMeta := TopicMeta (newKafkaTopic cfg k topicName);
       TopicSpec := Some {| Config := Some compactConfig;
                            Partitions := Some DefaultPartition;
                            Replicas := Some (topicPartitionReplicas k) |} |}.
Proof. reflexivity. Qed.

Lemma MergeObjects_desired_topic topicName existing :
  MergeObjects existing (newKafkaTopic cfg k topicName)
  = Some {| TopicMeta := mergeObjectMeta (TopicMeta existing)
                           (TopicMeta (newKafkaTopic cfg k topicName));
            TopicSpec := Some {| Config := Some (MergePatch (configOf existing) compactConfig);
                                 Partitions := Some DefaultPartition;
                                 Replicas := Some (topicPartitionReplicas k) |} |}.
Proof. rewrite newKafkaTopic_spec at 1. apply MergeObjects_KafkaTopic. Qed.

Lemma ensureTopicNamed_absent topicName c :
  kafkaTopics c !! topicKey k topicName = None ->
  ensureTopicNamed cfg k topicName c
  = (Done None,
     set_table (<[topicKey k topicName := newKafkaTopic cfg k topicName]> (kafkaTopics c))
       (log_request {| reqVerb := CreateVerb; reqKind := KafkaTopicKind;
                       reqKey := topicKey k topicName |} c)).
Proof.
  intros Habs. unfold ensureTopicNamed.
  rewrite (bind_Done _ _ _ _ _ (Get_topic_None _ c Habs)).
  rewrite (bind_Done _ _ _ _ _
             (Create_topic_absent (newKafkaTopic cfg k topicName) _ c eq_refl Habs)).
  reflexivity.
Qed.

Lemma ensureTopicNamed_no_spec topicName c existing :
  kafkaTopics c !! topicKey k topicName = Some existing ->
  TopicSpec existing = None ->
  ensureTopicNamed cfg k topicName c = (Panic, c).
Proof.
  intros Hex Hns. unfold ensureTopicNamed.
  rewrite (bind_Done _ _ _ _ _ (Get_topic_Some _ existing c Hex)).
  rewrite MergeObjects_desired_topic. cbn [TopicSpec deref].
  rewrite Hns. reflexivity.
Qed.

Lemma ensureTopicNamed_settled topicName c :
  topicSettled cfg k topicName (kafkaTopics c !! topicKey k topicName) ->
  ensureTopicNamed cfg k topicName c = (Done None, c).
Proof.
  intros (existing & es & Hex & Hspec & Hdd). unfold ensureTopicNamed.
  rewrite (bind_Done _ _ _ _ _ (Get_topic_Some _ existing c Hex)).
  rewrite MergeObjects_desired_topic. cbn [TopicSpec TopicMeta deref].
  rewrite Hspec. cbn [deref]. unfold bind at 1 2. cbn [ret].
  unfold updatedTopicOf in Hdd. cbn [TopicSpec] in Hdd.
  unfold set_Replicas. cbn [Config Partitions Replicas].
  unfold bind, call. rewrite Hdd. reflexivity.
Qed.

Lemma ensureTopicNamed_drifted topicName c existing es :
  wf_table (A:=KafkaTopic) c ->
  kafkaTopics c !! topicKey k topicName = Some existing ->
  TopicSpec existing = Some es ->
  DeepDerivative_ptr DeepDerivative_KafkaTopicSpec
    (TopicSpec (updatedTopicOf cfg k topicName existing es)) (Some es) = Done false ->
  ensureTopicNamed cfg k topicName c
  = (Done None,
     set_table (<[topicKey k topicName := updatedTopicOf cfg k topicName existing es]>
                  (kafkaTopics c))
       (log_request {| reqVerb := UpdateVerb; reqKind := KafkaTopicKind;
                       reqKey := topicKey k topicName |} c)).
Proof.
  intros Hwf Hex Hspec Hdd. unfold ensureTopicNamed.
  rewrite (bind_Done _ _ _ _ _ (Get_topic_Some _ existing c Hex)).
  rewrite MergeObjects_desired_topic. cbn [TopicSpec TopicMeta deref].
  rewrite Hspec. cbn [deref]. unfold bind at 1 2. cbn [ret].
  unfold updatedTopicOf in Hdd. cbn [TopicSpec] in Hdd.
  unfold set_Replicas. cbn [Config Partitions Replicas].
  unfold bind at 1, call. rewrite Hdd. cbn [negb].
  apply (Update_topic_present _ (topicKey k topicName)); [|eauto].
  unfold ObjectKeyFromObject. cbn [meta_of KafkaTopic_stored TopicMeta].
  apply mergeObjectMeta_key; [|reflexivity].
  apply (Hwf _ existing Hex).
Qed.

Lemma ensureTopicNamed_panics topicName c existing es :
  kafkaTopics c !! topicKey k topicName = Some existing ->
  TopicSpec existing = Some es ->
  DeepDerivative_ptr DeepDerivative_KafkaTopicSpec
    (TopicSpec (updatedTopicOf cfg k topicName existing es)) (Some es) = Panic ->
  ensureTopicNamed cfg k topicName c = (Panic, c).
Proof.
  intros Hex Hspec Hdd. unfold ensureTopicNamed.
  rewrite (bind_Done _ _ _ _ _ (Get_topic_Some _ existing c Hex)).
  rewrite MergeObjects_desired_topic. cbn [TopicSpec TopicMeta deref].
  rewrite Hspec. cbn [deref]. unfold bind at 1 2. cbn [ret].
  unfold updatedTopicOf in Hdd. cbn [TopicSpec] in Hdd.
  unfold set_Replicas. cbn [Config Partitions Replicas].
  unfold bind, call. rewrite Hdd. reflexivity.
Qed.

End EnsureTopicProofs.

Section EnsureTopicsTwice.

Context (cfg : PkgConfig) (k : strimziTransporter).

Lemma MergePatch_compactConfig : MergePatch compactConfig compactConfig = compactConfig.
Proof. vm_compute. reflexivity. Qed.

Lemma compactConfig_obj : compactConfig = JObj (as_obj compactConfig).
Proof. reflexivity. Qed.

Lemma topicSettled_created topicName :
  topicSettled cfg k topicName (Some (newKafkaTopic cfg k topicName)).
Proof.
  eexists _, _. split; [reflexivity|]. split; [reflexivity|].
  unfold updatedTopicOf. cbn [TopicSpec Replicas].
  change (configOf (newKafkaTopic cfg k topicName)) with compactConfig.
  rewrite MergePatch_compactConfig.
  apply (DeepDerivative_ptr_refl _ DeepDerivative_KafkaTopicSpec_refl).
Qed.

Lemma topicSettled_updated topicName existing es :
  topicSettled cfg k topicName (Some (updatedTopicOf cfg k topicName existing es)).
Proof.
  eexists _, _. split; [reflexivity|]. split; [reflexivity|].
  unfold updatedTopicOf at 1. cbn [TopicSpec Replicas].
  change (configOf (updatedTopicOf cfg k topicName existing es))
    with (MergePatch (configOf existing) compactConfig).
  rewrite MergePatch_idemp.
  apply (DeepDerivative_ptr_refl _ DeepDerivative_KafkaTopicSpec_refl).
Qed.

Lemma wf_table_insert_topic (c c0 : Cluster) key (obj : KafkaTopic) :
  wf_table (A:=KafkaTopic) c ->
  ObjectKeyFromObject obj = key ->
  wf_table (A:=KafkaTopic) (set_table (<[key := obj]> (kafkaTopics c)) c0).
Proof.
  intros Hwf Hk key' obj'. cbn [table set_table KafkaTopic_stored kafkaTopics].
  rewrite lookup_insert. case_decide.
  - intros [= <-]. congruence.
  - apply Hwf.
Qed.

Lemma replicasKept_refl c : replicasKept c c.
Proof. intros key existing es Hex Hes. eauto. Qed.

Lemma replicasKept_trans c c1 c2 :
  replicasKept c c1 -> replicasKept c1 c2 -> replicasKept c c2.
Proof.
  intros H1 H2 key existing es Hex Hes.
  destruct (H1 key existing es Hex Hes) as (t & s & Ht & Hs & Hr).
  destruct (H2 key t s Ht Hs) as (t' & s' & Ht' & Hs' & Hr').
  exists t', s'. repeat split; congruence.
Qed.

Lemma replicasKept_insert (c c0 : Cluster) key (obj : KafkaTopic) :
  (forall existing es,
     kafkaTopics c !! key = Some existing -> TopicSpec existing = Some es ->
     exists spec, TopicSpec obj = Some spec /\ Replicas spec = Replicas es) ->
  replicasKept c (set_table (<[key := obj]> (kafkaTopics c)) c0).
Proof.
  intros Hobj key' existing es Hex Hes.
  cbn [set_table KafkaTopic_stored kafkaTopics].
  destruct (decide (key = key')) as [<-|Hne].
  - destruct (Hobj existing es Hex Hes) as (spec & Hs & Hr).
    exists obj, spec. rewrite lookup_insert_eq. auto.
  - exists existing, es. rewrite lookup_insert_ne by exact Hne. auto.
Qed.

(** One pass over one topic name: it ends without error, leaves the topic
    settled, touches no other topic and keeps settled topics settled. *)
Lemma topicSettled_set topicName o existing :
  topicSettled cfg k topicName o -> o = Some existing -> topicSet existing.
Proof.
  intros (e & es & -> & Hes & Hdd) [= <-]. exists es. split; [exact Hes|].
  unfold updatedTopicOf in Hdd. cbn [TopicSpec DeepDerivative_ptr] in Hdd.
  unfold DeepDerivative_KafkaTopicSpec in Hdd. cbn [Config Partitions Replicas] in Hdd.
  destruct (Config es) as [config|]; [|discriminate Hdd].
  cbn [DeepDerivative_ptr] in Hdd.
  destruct (DeepDerivative_raw _ config) as [[|]|]; try discriminate Hdd.
  cbn [and_then] in Hdd.
  destruct (Partitions es) as [partitions|]; [|discriminate Hdd]. eauto.
Qed.

Lemma topicKey_inj topicName topicName' :
  topicKey k topicName = topicKey k topicName' -> topicName = topicName'.
Proof. intros [= H]. exact H. Qed.

(** The comparison of EnsureTopic returns on a stored topic that has its
    config and partitions. *)
Lemma returns_KafkaTopicSpec topicName existing es :
  TopicSpec existing = Some es ->
  is_Some (Config es) -> is_Some (Partitions es) ->
  returns (DeepDerivative_ptr DeepDerivative_KafkaTopicSpec
             (TopicSpec (updatedTopicOf cfg k topicName existing es)) (Some es)).
Proof.
  intros Hes Hconfig Hpartitions. unfold updatedTopicOf. cbn [TopicSpec DeepDerivative_ptr].
  unfold DeepDerivative_KafkaTopicSpec. cbn [Config Partitions Replicas].
  repeat apply returns_and_then.
  - apply returns_ptr; [exact Hconfig|]. intros; eexists; reflexivity.
  - apply returns_ptr; [exact Hpartitions|]. intros; eexists; reflexivity.
  - rewrite (DeepDerivative_ptr_refl _ DeepDerivative_int_refl). eexists. reflexivity.
Qed.

(** One round of the loop of EnsureTopic, whatever its outcome. *)
Lemma ensureTopicNamed_outcome topicName c :
  wf_table (A:=KafkaTopic) c ->
  exists r c1,
    ensureTopicNamed cfg k topicName c = (r, c1)
    /\ (r = Done None \/ r = Panic /\ c1 = c)
    /\ wf_table (A:=KafkaTopic) c1
    /\ (forall key, key <> topicKey k topicName ->
                    kafkaTopics c1 !! key = kafkaTopics c !! key)
    /\ replicasKept c c1
    /\ (r = Done None ->
        topicSettled cfg k topicName (kafkaTopics c1 !! topicKey k topicName))
    /\ (topicSettled cfg k topicName (kafkaTopics c !! topicKey k topicName) ->
        r = Done None /\ c1 = c)
    /\ ((forall existing, kafkaTopics c !! topicKey k topicName = Some existing ->
                          topicSet existing) -> r = Done None).
Proof.
  intros Hwf.
  destruct (kafkaTopics c !! topicKey k topicName) as [existing|] eqn:Hex.
  - destruct (TopicSpec existing) as [es|] eqn:Hes.
    + destruct (DeepDerivative_ptr DeepDerivative_KafkaTopicSpec
                  (TopicSpec (updatedTopicOf cfg k topicName existing es)) (Some es))
        as [[|]|] eqn:Hdd.
      * assert (Hset : topicSettled cfg k topicName
                         (kafkaTopics c !! topicKey k topicName)).
        { rewrite Hex. eexists _, _. eauto. }
        exists (Done None), c.
        split; [apply ensureTopicNamed_settled; exact Hset|].
        split; [left; reflexivity|]. split; [exact Hwf|]. split; [reflexivity|].
        split; [apply replicasKept_refl|]. split; [intros _; exact Hset|]. auto.
      * eexists (Done None), _.
        split; [eapply ensureTopicNamed_drifted; eauto|].
        split; [left; reflexivity|]. split.
        { apply wf_table_insert_topic; [exact Hwf|].
          unfold ObjectKeyFromObject.
          cbn [meta_of KafkaTopic_stored TopicMeta updatedTopicOf].
          apply mergeObjectMeta_key; [|reflexivity]. apply (Hwf _ existing Hex). }
        split.
        { intros key Hne. cbn [set_table KafkaTopic_stored kafkaTopics].
          apply lookup_insert_ne. congruence. }
        split.
        { apply replicasKept_insert. intros e' es' He' Hes'.
          pose proof (eq_trans (eq_sym He') Hex) as Heq. injection Heq as ->.
          rewrite Hes in Hes'. injection Hes' as <-.
          eexists. split; reflexivity. }
        split.
        { intros _. cbn [set_table KafkaTopic_stored kafkaTopics].
          rewrite lookup_insert_eq. apply topicSettled_updated. }
        split; [|auto].
        intros (e' & es' & Heq & Hes' & Hdd'). injection Heq as <-.
        rewrite Hes in Hes'. injection Hes' as <-. rewrite Hdd in Hdd'. discriminate Hdd'.
      * exists Panic, c.
        split; [eapply ensureTopicNamed_panics; eauto|].
        split; [right; auto|]. split; [exact Hwf|]. split; [reflexivity|].
        split; [apply replicasKept_refl|]. split; [discriminate|]. split.
        { intros (e' & es' & Heq & Hes' & Hdd'). injection Heq as <-.
          rewrite Hes in Hes'. injection Hes' as <-. rewrite Hdd in Hdd'.
          discriminate Hdd'. }
        intros Hset. destruct (Hset existing eq_refl) as (spec & Hspec & Hc & Hp).
        rewrite Hes in Hspec. injection Hspec as <-.
        destruct (returns_KafkaTopicSpec topicName existing es Hes Hc Hp) as [b Hb].
        rewrite Hdd in Hb. discriminate Hb.
    + exists Panic, c.
      split; [eapply ensureTopicNamed_no_spec; eauto|].
      split; [right; auto|]. split; [exact Hwf|]. split; [reflexivity|].
      split; [apply replicasKept_refl|]. split; [discriminate|]. split.
      { intros (e' & es' & Heq & Hes' & _). injection Heq as <-.
        rewrite Hes in Hes'. discriminate Hes'. }
      intros Hset. destruct (Hset existing eq_refl) as (spec & Hspec & _).
      rewrite Hes in Hspec. discriminate Hspec.
  - eexists (Done None), _.
    split; [apply ensureTopicNamed_absent; exact Hex|].
    split; [left; reflexivity|].
    split; [apply wf_table_insert_topic; [exact Hwf|reflexivity]|].
    split.
    { intros key Hne. cbn [set_table KafkaTopic_stored kafkaTopics].
      apply lookup_insert_ne. congruence. }
    split.
    { apply replicasKept_insert. intros e' es' He'.
      pose proof (eq_trans (eq_sym He') Hex) as Heq. discriminate. }
    split.
    { intros _. cbn [set_table KafkaTopic_stored kafkaTopics].
      rewrite lookup_insert_eq. apply topicSettled_created. }
    split; [|auto]. intros (e' & es' & Heq & _). discriminate Heq.
Qed.

(** The loop of EnsureTopic, whatever its outcome. *)
Lemma ensureTopics_outcome topicNames : forall c,
  wf_table (A:=KafkaTopic) c ->
  exists r c1,
    ensureTopics cfg k topicNames c = (r, c1)
    /\ (r = Done None \/ r = Panic)
    /\ wf_table (A:=KafkaTopic) c1
    /\ (forall key, (forall topicName, topicName ∈ topicNames ->
                                       key <> topicKey k topicName) ->
                    kafkaTopics c1 !! key = kafkaTopics c !! key)
    /\ replicasKept c c1
    /\ (r = Done None ->
        forall topicName, topicName ∈ topicNames ->
          topicSettled cfg k topicName (kafkaTopics c1 !! topicKey k topicName))
    /\ (forall topicName,
          topicSettled cfg k topicName (kafkaTopics c !! topicKey k topicName) ->
          topicSettled cfg k topicName (kafkaTopics c1 !! topicKey k topicName))
    /\ (topicsAreSet k topicNames c -> r = Done None).
Proof.
  induction topicNames as [|n rest IH]; intros c Hwf.
  - exists (Done None), c. split; [reflexivity|]. split; [left; reflexivity|].
    split; [exact Hwf|]. split; [reflexivity|]. split; [apply replicasKept_refl|].
    split; [intros _ topicName Hin; inversion Hin|]. auto.
  - destruct (ensureTopicNamed_outcome n c Hwf)
      as (ra & ca & Hrun & Hra & Hwfa & Hframe & Hrep & Hset & Hstable & Hreturns).
    assert (Hkeep : forall topicName,
               topicSettled cfg k topicName (kafkaTopics c !! topicKey k topicName) ->
               topicSettled cfg k topicName (kafkaTopics ca !! topicKey k topicName)).
    { intros topicName Hs. destruct (decide (topicName = n)) as [->|Hne].
      - destruct (Hstable Hs) as [_ ->]. exact Hs.
      - rewrite Hframe; [exact Hs|]. intros Heq. apply Hne. eapply topicKey_inj, Heq. }
    destruct Hra as [->|[-> ->]].
    + destruct (IH ca Hwfa)
        as (rb & cb & Hrunb & Hrb & Hwfb & Hframeb & Hrepb & Hsetb & Hkeepb & Hreturnsb).
      exists rb, cb. split.
      { cbn [ensureTopics]. rewrite (bind_Done _ _ _ _ _ Hrun). exact Hrunb. }
      split; [exact Hrb|]. split; [exact Hwfb|]. split.
      { intros key Hkey. rewrite Hframeb, Hframe; [reflexivity| |].
        - apply Hkey. left.
        - intros topicName Hin. apply Hkey. right. exact Hin. }
      split; [eapply replicasKept_trans; eauto|]. split.
      { intros Hr topicName Hin. apply elem_of_cons in Hin as [->|Hin].
        - apply Hkeepb, Hset. reflexivity.
        - apply Hsetb; assumption. }
      split; [intros topicName Hs; apply Hkeepb, Hkeep, Hs|].
      intros Hall. apply Hreturnsb. intros topicName existing Hin Hex.
      destruct (decide (topicName = n)) as [->|Hne].
      * eapply topicSettled_set; [apply Hset; reflexivity|exact Hex].
      * rewrite Hframe in Hex.
        -- apply (Hall topicName existing); [right; exact Hin|exact Hex].
        -- intros Heq. apply Hne. eapply topicKey_inj, Heq.
    + exists Panic, c. split.
      { cbn [ensureTopics]. rewrite (bind_Panic _ _ _ _ Hrun). reflexivity. }
      split; [right; reflexivity|]. split; [exact Hwf|]. split; [reflexivity|].
      split; [apply replicasKept_refl|]. split; [discriminate|]. split; [auto|].
      intros Hall. apply Hreturns. intros existing Hex.
      apply (Hall n existing); [left|exact Hex].
Qed.

Lemma ensureTopics_settled topicNames c :
  (forall topicName, topicName ∈ topicNames ->
     topicSettled cfg k topicName (kafkaTopics c !! topicKey k topicName)) ->
  ensureTopics cfg k topicNames c = (Done None, c).
Proof.
  induction topicNames as [|n rest IH]; intros Hs; [reflexivity|].
  cbn [ensureTopics].
  rewrite (bind_Done _ _ _ _ _ (ensureTopicNamed_settled cfg k n c (Hs n ltac:(left)))).
  apply IH. intros topicName Hin. apply Hs. right. exact Hin.
Qed.

(** EnsureTopic in terms of its loop. *)
Lemma EnsureTopic_loop clusterName c r c1 :
  ensureTopics cfg k [GetSpecTopic cfg; GetStatusTopic cfg clusterName] c = (r, c1) ->
  r = Done None \/ r = Panic ->
  EnsureTopic cfg k clusterName c
  = (match r with
     | Done _ => Done (Some (getClusterTopic cfg k clusterName), None)
     | Panic => Panic
     end, c1).
Proof.
  intros Hrun [->| ->]; unfold EnsureTopic; cbn [SpecTopic StatusTopic getClusterTopic].
  - rewrite (bind_Done _ _ _ _ _ Hrun). reflexivity.
  - rewrite (bind_Panic _ _ _ _ Hrun). reflexivity.
Qed.

(** After a call of EnsureTopic that returned without error, a second call
    finds nothing to do. *)
Lemma EnsureTopic_again clusterName c t c1 :
  wf_table (A:=KafkaTopic) c ->
  EnsureTopic cfg k clusterName c = (Done (t, None), c1) ->
  EnsureTopic cfg k clusterName c1
  = (Done (Some (getClusterTopic cfg k clusterName), None), c1).
Proof.
  intros Hwf Hfirst.
  destruct (ensureTopics_outcome [GetSpecTopic cfg; GetStatusTopic cfg clusterName] c Hwf)
    as (r & c1' & Hrun & Hr & _ & _ & _ & Hset & _ & _).
  rewrite (EnsureTopic_loop clusterName c r c1' Hrun Hr) in Hfirst.
  destruct Hr as [->| ->]; [|discriminate Hfirst]. injection Hfirst as _ <-.
  rewrite (EnsureTopic_loop clusterName c1' (Done None) c1'); [reflexivity| |left; reflexivity].
  apply ensureTopics_settled, Hset. reflexivity.
Qed.

(** On a store whose two topics, if there, have config and partitions,
    EnsureTopic returns without error. *)
Lemma EnsureTopic_returns clusterName c :
  wf_table (A:=KafkaTopic) c ->
  topicsAreSet k [GetSpecTopic cfg; GetStatusTopic cfg clusterName] c ->
  exists c1,
    EnsureTopic cfg k clusterName c
    = (Done (Some (getClusterTopic cfg k clusterName), None), c1)
    /\ replicasKept c c1.
Proof.
  intros Hwf Hall.
  destruct (ensureTopics_outcome [GetSpecTopic cfg; GetStatusTopic cfg clusterName] c Hwf)
    as (r & c1 & Hrun & Hr & _ & _ & Hrep & _ & _ & Hreturns).
  exists c1. rewrite (EnsureTopic_loop clusterName c r c1 Hrun Hr).
  rewrite (Hreturns Hall). split; [reflexivity|exact Hrep].
Qed.

End EnsureTopicsTwice.

(** Whatever its outcome, EnsureTopic leaves every topic that has a spec in
    the store with its replication factor. *)
Lemma EnsureTopic_replicasKept cfg k clusterName c r c1 :
  wf_table (A:=KafkaTopic) c ->
  EnsureTopic cfg k clusterName c = (r, c1) -> replicasKept c c1.
Proof.
  intros Hwf Hrun.
  destruct (ensureTopics_outcome cfg k [GetSpecTopic cfg; GetStatusTopic cfg clusterName]
              c Hwf) as (r' & c1' & Hloop & Hr & _ & _ & Hrep & _).
  rewrite (EnsureTopic_loop cfg k clusterName c r' c1' Hloop Hr) in Hrun.
  injection Hrun as _ <-. exact Hrep.
Qed.

(** The loop panics when one of its topics is stored without spec. *)
Lemma ensureTopics_no_spec cfg k topicNames : forall c topicName existing,
  wf_table (A:=KafkaTopic) c ->
  topicName ∈ topicNames ->
  kafkaTopics c !! topicKey k topicName = Some existing ->
  TopicSpec existing = None ->
  exists c1, ensureTopics cfg k topicNames c = (Panic, c1).
Proof.
  induction topicNames as [|n rest IH]; intros c topicName existing Hwf Hin Hex Hnil.
  - inversion Hin.
  - destruct (ensureTopicNamed_outcome cfg k n c Hwf)
      as (ra & ca & Hrun & Hra & Hwfa & Hframe & _).
    cbn [ensureTopics]. destruct Hra as [->|[-> ->]].
    + rewrite (bind_Done _ _ _ _ _ Hrun).
      destruct (decide (topicName = n)) as [->|Hne].
      * rewrite (ensureTopicNamed_no_spec cfg k n c existing Hex Hnil) in Hrun.
        discriminate Hrun.
      * apply elem_of_cons in Hin as [Heq|Hin]; [contradiction|].
        apply (IH ca topicName existing Hwfa Hin); [|exact Hnil].
        rewrite Hframe; [exact Hex|]. intros Heq. apply Hne. eapply topicKey_inj, Heq.
    + exists c. rewrite (bind_Panic _ _ _ _ Hrun). reflexivity.
Qed.

Lemma EnsureTopic_no_spec cfg k clusterName c topicName existing :
  wf_table (A:=KafkaTopic) c ->
  topicName ∈ [GetSpecTopic cfg; GetStatusTopic cfg clusterName] ->
  kafkaTopics c !! topicKey k topicName = Some existing ->
  TopicSpec existing = None ->
  exists c1, EnsureTopic cfg k clusterName c = (Panic, c1).
Proof.
  intros Hwf Hin Hex Hnil.
  destruct (ensureTopics_no_spec cfg k _ c topicName existing Hwf Hin Hex Hnil)
    as [c1 Hrun].
  exists c1. apply (EnsureTopic_loop cfg k clusterName c Panic c1 Hrun). right. reflexivity.
Qed.


(** ** The claims *)

Lemma wf_liveCluster_users : wf_table (A:=KafkaUser) liveCluster.
Proof.
  intros key obj. cbn [table KafkaUser_stored liveCluster kafkaUsers].
  intros [<- <-]%lookup_singleton_Some. reflexivity.
Qed.

Lemma wf_tenantCluster_users : wf_table (A:=KafkaUser) tenantCluster.
Proof.
  intros key obj. cbn [table KafkaUser_stored tenantCluster kafkaUsers].
  intros [<- <-]%lookup_singleton_Some. reflexivity.
Qed.

Lemma wf_tenantCluster_topics : wf_table (A:=KafkaTopic) tenantCluster.
Proof.
  intros key obj. cbn [table KafkaTopic_stored tenantCluster kafkaTopics].
  intros [<- <-]%lookup_singleton_Some. reflexivity.
Qed.

Lemma tenantCluster_userIsSet :
  userIsSet exampleConfig exampleTransporter "cluster-a" tenantCluster.
Proof.
  intros existing. cbn [tenantCluster kafkaUsers].
  intros [_ <-]%lookup_singleton_Some. eexists _, _, _.
  split; [reflexivity|]. split; [reflexivity|]. split; [reflexivity|].
  cbn [Acls]. repeat constructor; cbn; eauto.
Qed.

Lemma liveSpecTopic_topicSet : topicSet liveSpecTopic.
Proof. eexists. split; [reflexivity|]. cbn [Config Partitions]. eauto. Qed.

Lemma tenantCluster_topicsAreSet topicNames :
  topicsAreSet exampleTransporter topicNames tenantCluster.
Proof.
  intros topicName existing _. cbn [tenantCluster kafkaTopics].
  intros [_ <-]%lookup_singleton_Some. exact liveSpecTopic_topicSet.
Qed.

(** C1. Idempotence of the ensure primitive. Merging the same desired
    document into the result of a merge gives that result again. On every
    store, when a call of EnsureUser (EnsureTopic) has returned without
    error, having created the object, updated it or found nothing to do, a
    second call with the same tenant returns without error as well and
    leaves the store and its log of write requests as they are: the
    semantic-equality check holds and nothing is written. The first call
    does return without error when the stored user (the stored topics), if
    there, carry the pointers the comparison follows. *)
Theorem C1_ensure_idempotent cfg k clusterName c :
  wf_table (A:=KafkaUser) c ->
  wf_table (A:=KafkaTopic) c ->
  (forall existing desired merged : json,
     MergeObjects existing desired = Some merged ->
     MergeObjects merged desired = Some merged)
  /\ (forall r c1,
        EnsureUser cfg k clusterName c = (Done (r, None), c1) ->
        EnsureUser cfg k clusterName c1
        = (Done (GetKafkaUserName cfg clusterName, None), c1))
  /\ (forall t c1,
        EnsureTopic cfg k clusterName c = (Done (t, None), c1) ->
        EnsureTopic cfg k clusterName c1
        = (Done (Some (getClusterTopic cfg k clusterName), None), c1))
  /\ (userIsSet cfg k clusterName c ->
      exists c1,
        EnsureUser cfg k clusterName c
        = (Done (GetKafkaUserName cfg clusterName, None), c1))
  /\ (topicsAreSet k [GetSpecTopic cfg; GetStatusTopic cfg clusterName] c ->
      exists c1,
        EnsureTopic cfg k clusterName c
        = (Done (Some (getClusterTopic cfg k clusterName), None), c1)).
Proof.
  intros Hwfu Hwft. split; [|split; [|split; [|split]]].
  - intros existing desired merged. unfold MergeObjects.
    cbn [marshal unmarshal Unstructured_object]. intros [= <-].
    rewrite MergePatch_idemp. reflexivity.
  - intros r c1. apply EnsureUser_again, Hwfu.
  - intros t c1. apply EnsureTopic_again, Hwft.
  - apply EnsureUser_returns, Hwfu.
  - intros Hset. destruct (EnsureTopic_returns cfg k clusterName c Hwft Hset) as (c1 & Hrun & _).
    exists c1. exact Hrun.
Qed.

Lemma C1_ensure_idempotent_witness :
  (exists c1,
     EnsureUser exampleConfig exampleTransporter "cluster-a" tenantCluster
     = (Done ("cluster-a-kafka-user", None), c1)
     /\ c1 <> tenantCluster
     /\ EnsureUser exampleConfig exampleTransporter "cluster-a" c1
        = (Done ("cluster-a-kafka-user", None), c1))
  /\ (exists c1,
        EnsureTopic exampleConfig exampleTransporter "cluster-a" tenantCluster
        = (Done (Some {| SpecTopic := "spec"; StatusTopic := "status.cluster-a" |}, None), c1)
        /\ c1 <> tenantCluster
        /\ EnsureTopic exampleConfig exampleTransporter "cluster-a" c1
           = (Done (Some {| SpecTopic := "spec"; StatusTopic := "status.cluster-a" |}, None),
              c1)).
Proof.
  destruct (C1_ensure_idempotent exampleConfig exampleTransporter "cluster-a" tenantCluster
              wf_tenantCluster_users wf_tenantCluster_topics)
    as (_ & Hu & Ht & Hru & Hrt).
  split.
  - destruct (Hru tenantCluster_userIsSet) as [c1 Hrun]. exists c1.
    split; [exact Hrun|]. split; [|exact (Hu _ _ Hrun)].
    intros ->. revert Hrun. vm_compute. intros Hrun. discriminate Hrun.
  - destruct (Hrt (tenantCluster_topicsAreSet _)) as [c1 Hrun]. exists c1.
    split; [exact Hrun|]. split; [|exact (Ht _ _ Hrun)].
    intros ->. revert Hrun. vm_compute. intros Hrun. discriminate Hrun.
Defined.




(** C8. Replica-factor stability, and where it stops. Whatever replication
    factor the transporter asks for and whatever the outcome of EnsureTopic,
    every topic that was in the store with a spec is in it afterwards with
    the replication factor it had: a write carries the live factor. When
    the stored topics under the tenant's two names have a spec with config
    and partitions, EnsureTopic returns the topic names without error. When
    one of them is stored without spec, EnsureTopic panics on reading the
    live factor and produces no merged object for it. *)
Theorem C8_live_replicas_or_panic cfg k clusterName c :
  wf_table (A:=KafkaTopic) c ->
  (forall r c1, EnsureTopic cfg k clusterName c = (r, c1) -> replicasKept c c1)
  /\ (topicsAreSet k [GetSpecTopic cfg; GetStatusTopic cfg clusterName] c ->
      exists c1,
        EnsureTopic cfg k clusterName c
        = (Done (Some (getClusterTopic cfg k clusterName), None), c1))
  /\ (forall topicName existing,
        topicName ∈ [GetSpecTopic cfg; GetStatusTopic cfg clusterName] ->
        kafkaTopics c !! topicKey k topicName = Some existing ->
        TopicSpec existing = None ->
        exists c1, EnsureTopic cfg k clusterName c = (Panic, c1)).
Proof.
  intros Hwf. split; [|split].
  - intros r c1. apply EnsureTopic_replicasKept, Hwf.
  - intros Hset. destruct (EnsureTopic_returns cfg k clusterName c Hwf Hset) as (c1 & Hrun & _).
    exists c1. exact Hrun.
  - intros topicName existing. apply EnsureTopic_no_spec, Hwf.
Qed.

Lemma wf_clusterWithBareStatusTopic : wf_table (A:=KafkaTopic) clusterWithBareStatusTopic.
Proof.
  intros key obj. cbn [table KafkaTopic_stored clusterWithBareStatusTopic kafkaTopics].
  intros Hl. apply lookup_insert_Some in Hl as [[<- <-]|[_ Hl]]; [reflexivity|].
  apply lookup_singleton_Some in Hl as [<- <-]. reflexivity.
Qed.

Lemma C8_live_replicas_or_panic_witness :
  exists c1 topic spec,
    EnsureTopic exampleConfig exampleTransporter "cluster-a" clusterWithBareStatusTopic
    = (Panic, c1)
    /\ topicPartitionReplicas exampleTransporter = 3%Z
    /\ writes c1 = [{| reqVerb := UpdateVerb; reqKind := KafkaTopicKind;
                       reqKey := ("multicluster-global-hub", "spec") |}]
    /\ kafkaTopics c1 !! ("multicluster-global-hub", "spec") = Some topic
    /\ TopicSpec topic = Some spec
    /\ Replicas spec = Some 2%Z
    /\ kafkaTopics c1 !! ("multicluster-global-hub", "status.cluster-a")
       = Some bareStatusTopic.
Proof.
  destruct (C8_live_replicas_or_panic exampleConfig exampleTransporter "cluster-a"
              clusterWithBareStatusTopic wf_clusterWithBareStatusTopic)
    as (Hkept & _ & Hpanic).
  destruct (Hpanic "status.cluster-a" bareStatusTopic) as [c1 Hrun].
  - right. left.
  - vm_compute. reflexivity.
  - reflexivity.
  - destruct (Hkept _ _ Hrun ("multicluster-global-hub", "spec") liveSpecTopic _
                ltac:(vm_compute; reflexivity) eq_refl)
      as (topic & spec & Htopic & Hspec & Hreplicas).
    exists c1, topic, spec. split; [exact Hrun|]. split; [reflexivity|].
    split; [|split; [exact Htopic|split; [exact Hspec|split; [exact Hreplicas|]]]].
    + revert Hrun. vm_compute. intros [= <-]. reflexivity.
    + revert Hrun. vm_compute. intros [= <-]. reflexivity.
Defined.

(** C2 (as stated, refuted). With the template "status.*" and tenant
    "cluster-a" the third rule, the write rule on the status topic, has
    pattern type literal and names "status.cluster-a": its pattern type is
    not prefix and the marker is not stripped from the name. *)
Lemma C2_status_rule_not_prefix :
  strings_Contains (GetRawStatusTopic exampleConfig) "*"%char = true
  /\ exists rule,
       simpleACLs exampleConfig exampleTransporter "cluster-a" !! 2%nat = Some rule
       /\ PatternType (Resource rule)
          = Some KafkaUserSpecAuthorizationAclsElemResourcePatternTypeLiteral
       /\ PatternType (Resource rule)
          <> Some KafkaUserSpecAuthorizationAclsElemResourcePatternTypePrefix
       /\ ResourceName (Resource rule) = Some "status.cluster-a"
       /\ ResourceName (Resource rule) <> Some "status.".
Proof.
  split; [reflexivity|]. eexists. split; [reflexivity|].
  repeat split; try reflexivity; discriminate.
Qed.

(** C2 (amended). For every tenant the user EnsureUser asks for carries
    exactly three rules, in this order: read for the consumer group "*",
    describe and read on the spec topic, write on the tenant's status topic;
    all three with pattern type literal, the status topic being the template
    with the marker replaced by the tenant. EnsureUser stores that user when
    there is none. For "cluster-a" and "status.*" the topics are "spec" and
    "status.cluster-a". *)
Theorem C2_access_policy cfg k clusterName :
  (UserSpec (desiredUserOf cfg k clusterName) ≫= Authorization)
  = Some {|
      AuthorizationType := "simple";
      Acls := [
        {| Host := Some "*"; Operations := ["Read"];
           Resource := {| ResourceType := "group"; ResourceName := Some "*";
                          PatternType := Some "literal" |} |};
        {| Host := Some "*"; Operations := ["Describe"; "Read"];
           Resource := {| ResourceType := "topic";
                          ResourceName := Some (GetSpecTopic cfg);
                          PatternType := Some "literal" |} |};
        {| Host := Some "*"; Operations := ["Write"];
           Resource := {| ResourceType := "topic";
                          ResourceName :=
                            Some (strings_Replace (GetRawStatusTopic cfg) "*"%char clusterName);
                          PatternType := Some "literal" |} |} ] |}
  /\ (forall c,
        kafkaUsers c !! userKey cfg k clusterName = None ->
        exists c1,
          EnsureUser cfg k clusterName c = (Done (GetKafkaUserName cfg clusterName, None), c1)
          /\ kafkaUsers c1 !! userKey cfg k clusterName
             = Some (desiredUserOf cfg k clusterName))
  /\ getClusterTopic exampleConfig k "cluster-a"
     = {| SpecTopic := "spec"; StatusTopic := "status.cluster-a" |}.
Proof.
  split; [reflexivity|]. split; [|reflexivity].
  intros c Habs. eexists. split.
  - apply EnsureUser_absent. exact Habs.
  - cbn [set_table KafkaUser_stored kafkaUsers]. apply lookup_insert_eq.
Qed.

(** ** Prune *)

Lemma wf_table_delete_user (c c0 : Cluster) key :
  wf_table (A:=KafkaUser) c ->
  wf_table (A:=KafkaUser) (set_table (delete key (kafkaUsers c)) c0).
Proof.
  intros Hwf key' obj. cbn [table set_table KafkaUser_stored kafkaUsers].
  intros [_ H]%lookup_delete_Some. apply Hwf, H.
Qed.

(** C9. Prune. On a store whose users are filed under their own names,
    Prune ends without error; afterwards the tenant's user is not in the
    store; the topics are exactly what they were; when the user was absent
    nothing at all happened, and when it was present the one write request
    issued is the deletion of that user. *)
Theorem C9_prune cfg k clusterName c :
  wf_table (A:=KafkaUser) c ->
  exists c1,
    Prune cfg k clusterName c = (Done None, c1)
    /\ kafkaUsers c1 !! userKey cfg k clusterName = None
    /\ kafkaTopics c1 = kafkaTopics c
    /\ (kafkaUsers c !! userKey cfg k clusterName = None -> c1 = c)
    /\ (is_Some (kafkaUsers c !! userKey cfg k clusterName) ->
        kafkaUsers c1 = delete (userKey cfg k clusterName) (kafkaUsers c)
        /\ writes c1 = (writes c ++ [{| reqVerb := DeleteVerb; reqKind := KafkaUserKind;
                                        reqKey := userKey cfg k clusterName |}])%list).
Proof.
  intros Hwf. unfold Prune, ObjectKeyFromObject. cbn [meta_of KafkaUser_stored UserMeta Namespace Name].
  fold (userKey cfg k clusterName).
  destruct (kafkaUsers c !! userKey cfg k clusterName) as [existing|] eqn:Hex.
  - eexists. split; [|split; [|split; [|split]]].
    + erewrite bind_Done; cycle 1.
      { apply Get_user_Some. exact Hex. }
      cbv beta iota. erewrite bind_Done; cycle 1.
      { apply (Delete_user_present _ (userKey cfg k clusterName)); [|eauto].
        apply (Hwf _ existing Hex). }
      reflexivity.
    + cbn [set_table KafkaUser_stored kafkaUsers]. apply lookup_delete_eq.
    + reflexivity.
    + discriminate.
    + intros _. split; reflexivity.
  - exists c. split; [|split; [|split; [|split]]]; auto.
    + erewrite bind_Done; cycle 1.
      { apply Get_user_None. exact Hex. }
      reflexivity.
    + intros [x Hx]. discriminate.
Qed.

Lemma C9_prune_witness :
  exists c1,
    Prune exampleConfig exampleTransporter "cluster-a" liveCluster = (Done None, c1)
    /\ kafkaUsers c1 !! userKey exampleConfig exampleTransporter "cluster-a" = None
    /\ kafkaTopics c1 = kafkaTopics liveCluster
    /\ (kafkaUsers liveCluster !! userKey exampleConfig exampleTransporter "cluster-a" = None
        -> c1 = liveCluster)
    /\ (is_Some (kafkaUsers liveCluster !! userKey exampleConfig exampleTransporter "cluster-a") ->
        kafkaUsers c1
        = delete (userKey exampleConfig exampleTransporter "cluster-a") (kafkaUsers liveCluster)
        /\ writes c1
           = (writes liveCluster
               ++ [{| reqVerb := DeleteVerb; reqKind := KafkaUserKind;
                      reqKey := userKey exampleConfig exampleTransporter "cluster-a" |}])%list).
Proof.
  apply (C9_prune exampleConfig exampleTransporter "cluster-a" liveCluster).
  exact wf_liveCluster_users.
Defined.

(** ** The pipeline keeps the replica count of the transporter *)




Section PipelineProofs.

Context (cfg : PkgConfig).
Context (deploy : KafkaManifestValues -> MulticlusterGlobalHub -> M (option error)).
Context (CreateUpdateKafkaCluster :
           strimziTransporter -> MulticlusterGlobalHub -> M (option error * bool)).
Context (GetKafkaResourceReady : M bool).
Context (SetClientCA : string -> string -> M (option error)).
Context (world : nat -> Cluster -> Cluster).




End PipelineProofs.



(** ** The subscription *)

Lemma Get_subscription_Some key obj c :
  subscriptions c !! key = Some obj -> Get key c = (Done (Found obj), c).
Proof. intros Hl. unfold Get. cbn [table Subscription_stored]. rewrite Hl. reflexivity. Qed.

Lemma Update_subscription_present (obj : Subscription) key c :
  ObjectKeyFromObject obj = key ->
  is_Some (subscriptions c !! key) ->
  Update obj c
  = (Done None,
     set_table (<[key := obj]> (subscriptions c))
       (log_request {| reqVerb := UpdateVerb; reqKind := SubscriptionKind; reqKey := key |} c)).
Proof.
  intros Hk [old Hold]. unfold Update. rewrite Hk. cbn [table Subscription_stored].
  rewrite Hold. reflexivity.
Qed.

(** C6 (the code at the failing input, in general). When the subscription
    in the store already has the desired spec, ensureSubscription still sends
    an Update: the store's log of write requests grows by one Update of the
    subscription, whose content is the one that was there. *)
Theorem C6_subscription_updated_without_drift cfg k hub c existingSub :
  wf_table (A:=Subscription) c ->
  subscriptions c !! subscriptionKey k hub = Some existingSub ->
  SubSpec existingSub = SubSpec (newSubscription cfg k hub) ->
  exists c1,
    ensureSubscription cfg k hub c = (Done None, c1)
    /\ subscriptions c1 = subscriptions c
    /\ writes c1 = (writes c ++ [{| reqVerb := UpdateVerb; reqKind := SubscriptionKind;
                                    reqKey := subscriptionKey k hub |}])%list.
Proof.
  intros Hwf Hex Hspec. unfold ensureSubscription.
  fold (subscriptionKey k hub).
  eexists. split.
  - erewrite bind_Done; cycle 1.
    { apply Get_subscription_Some. exact Hex. }
    cbv beta iota. rewrite Hspec.
    cbn [newSubscription SubSpec deref]. unfold bind at 1 2 3. cbn [ret].
    cbn [Channel StartingCSV].
    destruct (decide (subChannel k <> subChannel k)) as [Hne|_]; [congruence|].
    unfold Semantic_DeepEqual. rewrite bool_decide_eq_true_2 by reflexivity.
    cbn [negb deref ret]. unfold set_StartingCSV.
    cbn [CatalogSource CatalogSourceNamespace Package Channel InstallPlanApproval SubConfig].
    apply (Update_subscription_present _ (subscriptionKey k hub)); [|eauto].
    apply (Hwf _ existingSub Hex).
  - cbn [set_table Subscription_stored subscriptions writes log_request].
    split; [|reflexivity].
    apply insert_id. rewrite Hex. f_equal.
    destruct existingSub as [meta spec]. cbn [SubMeta SubSpec] in *.
    rewrite Hspec. reflexivity.
Qed.

Lemma wf_subscribedCluster : wf_table (A:=Subscription) subscribedCluster.
Proof.
  intros key obj. cbn [table Subscription_stored subscribedCluster subscriptions].
  intros [<- <-]%lookup_singleton_Some. reflexivity.
Qed.

Lemma C6_subscription_updated_without_drift_witness :
  exists c1,
    ensureSubscription exampleConfig exampleTransporter (exampleMgh HAHigh None)
      subscribedCluster = (Done None, c1)
    /\ subscriptions c1 = subscriptions subscribedCluster
    /\ writes c1 = [{| reqVerb := UpdateVerb; reqKind := SubscriptionKind;
                       reqKey := ("multicluster-global-hub", "strimzi-kafka-operator") |}].
Proof.
  apply (C6_subscription_updated_without_drift exampleConfig exampleTransporter
           (exampleMgh HAHigh None) subscribedCluster
           (newSubscription exampleConfig exampleTransporter (exampleMgh HAHigh None))).
  - exact wf_subscribedCluster.
  - vm_compute. reflexivity.
  - reflexivity.
Defined.

(** ** The credential *)


Lemma Get_kafka_Some key obj c :
  kafkas c !! key = Some obj -> Get key c = (Done (Found obj), c).
Proof. intros Hl. unfold Get. cbn [table Kafka_stored]. rewrite Hl. reflexivity. Qed.

Lemma Get_mgh_Some key obj c :
  mghs c !! key = Some obj -> Get key c = (Done (Found obj), c).
Proof. intros Hl. unfold Get. cbn [table Mgh_stored]. rewrite Hl. reflexivity. Qed.

Lemma readyCredential_ready_no_data enc kafka status rest c :
  ~ listenerData status ->
  readyCredential enc kafka status (readyCondition :: rest) c = (Panic, c).
Proof.
  intros Hno. cbn [readyCredential readyCondition ConditionType ConditionStatus deref].
  unfold bind at 1. cbn [ret].
  destruct (decide ("Ready" = "Ready")) as [_|Hne]; [|congruence].
  unfold bind at 1 2. cbn [ret].
  rewrite bool_decide_eq_true_2 by reflexivity.
  unfold index, bind, deref, ret.
  destruct (Listeners status !! 1%nat) as [listener|] eqn:Hl; [|reflexivity].
  destruct (BootstrapServers listener) as [server|] eqn:Hb; [|reflexivity].
  destruct (Certificates listener !! 0%nat) as [certificate|] eqn:Hc; [|reflexivity].
  destruct Hno. exists listener, server, certificate. auto.
Qed.

(** C5 (the code at the failing inputs, in general). A cluster object whose
    first condition is Ready with status True, but whose status has no second
    listener, or a second listener without bootstrap address or without
    certificate: GetConnCredential does not return an error, it panics on
    the unguarded index or dereference. *)
Theorem C5_listener_access_unguarded enc cfg k clusterName c kafka status rest :
  kafkas c !! kafkaKey k = Some kafka ->
  Status kafka = Some status ->
  Conditions status = Some (readyCondition :: rest) ->
  ~ listenerData status ->
  GetConnCredential cfg enc k clusterName c = (Panic, c).
Proof.
  intros Hex Hst Hcond Hno. unfold GetConnCredential, getConnCredentailByCluster.
  fold (kafkaKey k).
  erewrite bind_Panic; [reflexivity|].
  erewrite bind_Done; cycle 1.
  { apply Get_kafka_Some. exact Hex. }
  cbv beta iota. rewrite Hst, Hcond.
  erewrite bind_Panic; [reflexivity|].
  apply readyCredential_ready_no_data. exact Hno.
Qed.

Lemma C5_listener_access_unguarded_witness :
  GetConnCredential exampleConfig (fun s => s) exampleTransporter "cluster-a"
    (clusterWithKafka readyWithoutListeners)
  = (Panic, clusterWithKafka readyWithoutListeners).
Proof.
  apply (C5_listener_access_unguarded (fun s => s) exampleConfig exampleTransporter
           "cluster-a" (clusterWithKafka readyWithoutListeners) readyWithoutListeners
           {| ClusterId := Some "cluster-id"; Conditions := Some [readyCondition];
              Listeners := [] |} []).
  - vm_compute. reflexivity.
  - reflexivity.
  - reflexivity.
  - intros (listener & server & certificate & Hl & _). discriminate Hl.
Defined.

(** ** Readiness gating of the credential *)

Lemma readyCredential_notReady enc kafka status conditions c :
  notReady conditions ->
  readyCredential enc kafka status conditions c = (Done None, c).
Proof.
  induction 1 as [|condition rest (type & Htype & Hstatus) _ IH]; [reflexivity|].
  cbn [readyCredential]. rewrite Htype. cbn [deref]. unfold bind at 1. cbn [ret].
  destruct (decide (type = "Ready")) as [Hready|Hother].
  - destruct (Hstatus Hready) as (conditionStatus & Hs & Hne). rewrite Hs.
    cbn [deref]. unfold bind at 1 2. cbn [ret].
    rewrite bool_decide_eq_false_2 by exact Hne. exact IH.
  - unfold bind at 1. cbn [ret]. exact IH.
Qed.

(** A cluster object that is not there, has no status, has no conditions
    or has no Ready condition with status True (every condition carrying the
    pointers the loop reads): GetConnCredential returns an error and the
    store is as it was. *)
Lemma GetConnCredential_not_ready enc cfg k clusterName c :
  match kafkas c !! kafkaKey k with
  | None => True
  | Some kafka =>
      match Status kafka with
      | None => True
      | Some status =>
          match Conditions status with
          | None => True
          | Some conditions => notReady conditions
          end
      end
  end ->
  exists err, GetConnCredential cfg enc k clusterName c = (Done (None, Some err), c).
Proof.
  intros Hnot. unfold GetConnCredential, getConnCredentailByCluster, Get.
  fold (kafkaKey k). cbn [table Kafka_stored]. unfold bind at 1 2. 
  destruct (kafkas c !! kafkaKey k) as [kafka|]; [|eexists; reflexivity].
  destruct (Status kafka) as [status|]; [|eexists; reflexivity].
  destruct (Conditions status) as [conditions|]; [|eexists; reflexivity].
  unfold bind. rewrite (readyCredential_notReady _ _ _ _ _ Hnot).
  eexists. reflexivity.
Qed.

(** C4 (the code at the failing input). A cluster object whose only status
    condition carries no type has no Ready condition, yet GetConnCredential
    does not return an error on it: the dereference of the condition's type
    panics. *)
Theorem C4_condition_without_type_panics :
  GetConnCredential exampleConfig (fun s => s) exampleTransporter "cluster-a"
    (clusterWithKafka conditionWithoutType)
  = (Panic, clusterWithKafka conditionWithoutType).
Proof. vm_compute. reflexivity. Qed.

(** ** Waiting for the cluster *)


Lemma kafkaClusterReadyCondition_deleting cfg k c m :
  mghs c !! GetMGHNamespacedName cfg = Some m ->
  is_Some (DeletionTimestamp (MghMeta m)) ->
  kafkaClusterReadyCondition cfg k c
  = (Done (set_mgh m k, false, Some (deletingError (set_mgh m k))), c).
Proof.
  intros Hm [t Ht]. unfold kafkaClusterReadyCondition.
  erewrite bind_Done; cycle 1.
  { apply Get_mgh_Some. exact Hm. }
  cbv beta iota. cbn [set_mgh mgh]. rewrite Ht. reflexivity.
Qed.

Lemma PollUntilContextTimeout_error world attempts n condition k c k1 b err c1 :
  condition k c = (Done (k1, b, Some err), c1) ->
  PollUntilContextTimeout world (S attempts) n condition k c
  = (Done (k1, Some err, S n), c1).
Proof.
  intros Hcond. cbn [PollUntilContextTimeout].
  rewrite (bind_Done _ _ _ _ _ Hcond). destruct b; reflexivity.
Qed.

Lemma PollUntilContextTimeout_not_yet world attempts n condition k c k1 c1 :
  condition k c = (Done (k1, false, None), c1) ->
  PollUntilContextTimeout world (S attempts) n condition k c
  = PollUntilContextTimeout world attempts (S n) condition k1 (world n c1).
Proof.
  intros Hcond. cbn [PollUntilContextTimeout].
  rewrite (bind_Done _ _ _ _ _ Hcond). reflexivity.
Qed.

Lemma waits_le cfg world n k c n' k' c' :
  waits cfg world n k c n' k' c' -> n <= n'.
Proof. induction 1; lia. Qed.

Lemma waits_poll cfg world n k c n' k' c' :
  waits cfg world n k c n' k' c' ->
  forall attempts,
    kafkaClusterReadyFrom cfg world (n' - n + attempts) n k c
    = kafkaClusterReadyFrom cfg world attempts n' k' c'.
Proof.
  induction 1 as [n k c|n k c k1 c1 n' k' c' Hcond Hw IH]; intros attempts.
  - replace (n - n + attempts) with attempts by lia. reflexivity.
  - pose proof (waits_le _ _ _ _ _ _ _ _ Hw) as Hle.
    replace (n' - n + attempts) with (S (n' - S n + attempts)) by lia.
    unfold kafkaClusterReadyFrom in *.
    rewrite (PollUntilContextTimeout_not_yet _ _ _ _ _ _ _ _ Hcond). apply IH.
Qed.

(** C7. Abort on owner deletion. If, after any number [n] of evaluations
    that answered "not yet" (fewer than fit into the ten minutes), the hub is
    in the store with its deletion timestamp set, the wait ends at that very
    evaluation, the (n+1)-th, with the error "deleting the mgh", which is not
    the timeout error; the store is as that evaluation found it. And from any
    point of a wait, with any budget left, an evaluation that finds the hub
    marked for deletion ends the wait with that error. *)
Theorem C7_abort_on_deletion cfg world k0 c0 n k c m :
  waits cfg world 0 k0 c0 n k c ->
  n < attempts_within 5 600 ->
  mghs c !! GetMGHNamespacedName cfg = Some m ->
  is_Some (DeletionTimestamp (MghMeta m)) ->
  kafkaClusterReady cfg world k0 c0
  = (Done (set_mgh m k, Some (deletingError (set_mgh m k)), S n), c)
  /\ deletingError (set_mgh m k) <> DeadlineExceeded
  /\ (forall attempts n1 k1,
        kafkaClusterReadyFrom cfg world (S attempts) n1 k1 c
        = (Done (set_mgh m k1, Some (deletingError (set_mgh m k1)), S n1), c)).
Proof.
  intros Hw Hlt Hm Hdel. split; [|split].
  - unfold kafkaClusterReady.
    replace (attempts_within 5 600) with (n - 0 + S (attempts_within 5 600 - S n)) by lia.
    rewrite (waits_poll _ _ _ _ _ _ _ _ Hw). unfold kafkaClusterReadyFrom.
    apply PollUntilContextTimeout_error with (b := false).
    apply kafkaClusterReadyCondition_deleting; assumption.
  - unfold deletingError, DeadlineExceeded. intros [= H].
  - intros attempts n1 k1. unfold kafkaClusterReadyFrom.
    apply PollUntilContextTimeout_error with (b := false).
    apply kafkaClusterReadyCondition_deleting; assumption.
Qed.

Lemma C7_abort_on_deletion_witness :
  kafkaClusterReady exampleConfig deletionWorld exampleTransporter waitingCluster
  = (Done (set_mgh (exampleMgh HAHigh (Some "2024-05-01T00:00:00Z")) exampleTransporter,
           Some (deletingError
                   (set_mgh (exampleMgh HAHigh (Some "2024-05-01T00:00:00Z"))
                      exampleTransporter)), 3),
     deletingCluster)
  /\ deletingError (set_mgh (exampleMgh HAHigh (Some "2024-05-01T00:00:00Z"))
                      exampleTransporter) <> DeadlineExceeded
  /\ (forall attempts n1 k1,
        kafkaClusterReadyFrom exampleConfig deletionWorld (S attempts) n1 k1 deletingCluster
        = (Done (set_mgh (exampleMgh HAHigh (Some "2024-05-01T00:00:00Z")) k1,
                 Some (deletingError
                         (set_mgh (exampleMgh HAHigh (Some "2024-05-01T00:00:00Z")) k1)),
                 S n1), deletingCluster)).
Proof.
  apply (C7_abort_on_deletion exampleConfig deletionWorld exampleTransporter waitingCluster
           2 exampleTransporter deletingCluster
           (exampleMgh HAHigh (Some "2024-05-01T00:00:00Z"))).
  - eapply waits_on; [vm_compute; reflexivity|].
    eapply waits_on; [vm_compute; reflexivity|].
    apply waits_here.
  - vm_compute. lia.
  - vm_compute. reflexivity.
  - eexists. reflexivity.
Defined.

(** * Further properties of the transporter *)

Lemma readyCredential_first_ready enc kafka status before rest c listener server certificate :
  notReady before ->
  Listeners status !! 1%nat = Some listener ->
  BootstrapServers listener = Some server ->
  Certificates listener !! 0%nat = Some certificate ->
  readyCredential enc kafka status (before ++ readyCondition :: rest) c
  = (Done (Some {| ClusterID := default (UID (KafkaMeta kafka)) (ClusterId status);
                   BootstrapServer := server;
                   CACert := enc certificate;
                   CASecretName := ""; ClientSecretName := "";
                   CredStatusTopic := ""; CredSpecTopic := "" |}), c).
Proof.
  intros Hnot Hl Hb Hc.
  induction Hnot as [|condition before' (type & Htype & Hstatus) _ IH].
  - cbn [app readyCredential readyCondition ConditionType ConditionStatus deref].
    unfold bind at 1. cbn [ret].
    destruct (decide ("Ready" = "Ready")) as [_|Hne]; [|congruence].
    unfold bind at 1 2. cbn [ret].
    rewrite bool_decide_eq_true_2 by reflexivity.
    unfold index. rewrite Hl. cbn [deref]. unfold bind at 1. cbn [ret].
    rewrite Hb. cbn [deref]. unfold bind at 1. cbn [ret].
    unfold bind at 1. cbn [ret]. rewrite Hc. cbn [deref]. unfold bind at 1. cbn [ret].
    destruct (ClusterId status); reflexivity.
  - cbn [app readyCredential]. rewrite Htype. cbn [deref]. unfold bind at 1. cbn [ret].
    destruct (decide (type = "Ready")) as [Hready|Hother].
    + destruct (Hstatus Hready) as (conditionStatus & Hs & Hne). rewrite Hs.
      cbn [deref]. unfold bind at 1 2. cbn [ret].
      rewrite bool_decide_eq_false_2 by exact Hne. exact IH.
    + unfold bind at 1. cbn [ret]. exact IH.
Qed.

(** X1. GetConnCredential on a cluster whose first Ready condition is "True":
    the credential carries the cluster id of the status (the UID of the object
    when the status has none), the bootstrap servers of the second listener,
    the encoded first certificate of that listener, the CA secret of the
    cluster, the agent's client secret and the two topics of the tenant; no
    error is returned, the store is not touched, and the conditions after the
    Ready one are not read. *)
Theorem X1_credential_of_ready_cluster cfg enc k clusterName c kafka status
    listener server certificate :
  kafkas c !! kafkaKey k = Some kafka ->
  Status kafka = Some status ->
  (exists conditions, Conditions status = Some conditions /\ isFirstReady conditions) ->
  Listeners status !! 1%nat = Some listener ->
  BootstrapServers listener = Some server ->
  Certificates listener !! 0%nat = Some certificate ->
  GetConnCredential cfg enc k clusterName c
  = (Done (Some {| ClusterID := default (UID (KafkaMeta kafka)) (ClusterId status);
                   BootstrapServer := server;
                   CACert := enc certificate;
                   CASecretName := kafkaClusterName k +:+ "-cluster-ca-cert";
                   ClientSecretName := AgentCertificateSecretName cfg;
                   CredStatusTopic := GetStatusTopic cfg clusterName;
                   CredSpecTopic := GetSpecTopic cfg |}, None), c).
Proof.
  intros Hex Hst (conditions & Hcond & before & rest & -> & Hnot) Hl Hb Hc.
  unfold GetConnCredential, getConnCredentailByCluster. fold (kafkaKey k).
  erewrite bind_Done; cycle 1.
  { erewrite bind_Done; cycle 1.
    { apply Get_kafka_Some. exact Hex. }
    cbv beta iota. rewrite Hst, Hcond.
    erewrite bind_Done; cycle 1.
    { eapply readyCredential_first_ready; eauto. }
    reflexivity. }
  reflexivity.
Qed.

Lemma X1_credential_of_ready_cluster_witness :
  GetConnCredential exampleConfig (fun s => "base64:" +:+ s) exampleTransporter "cluster-a"
    readyCluster
  = (Done (Some {| ClusterID := "kafka-uid";
                   BootstrapServer := "kafka-route:443";
                   CACert := "base64:tls-certificate";
                   CASecretName := "kafka-cluster-ca-cert";
                   ClientSecretName := "agent-certs";
                   CredStatusTopic := "status.cluster-a";
                   CredSpecTopic := "spec" |}, None), readyCluster).
Proof.
  apply (X1_credential_of_ready_cluster exampleConfig (fun s => "base64:" +:+ s)
           exampleTransporter "cluster-a" readyCluster readyKafka readyStatus
           {| BootstrapServers := Some "kafka-route:443";
              Certificates := ["tls-certificate"; "older-certificate"] |}
           "kafka-route:443" "tls-certificate").
  - vm_compute. reflexivity.
  - reflexivity.
  - eexists. split; [reflexivity|].
    exists [{| ConditionStatus := Some "True"; ConditionType := Some "Warning" |}],
      [{| ConditionStatus := None; ConditionType := None |}].
    split; [reflexivity|].
    constructor; [|constructor].
    exists "Warning". split; [reflexivity|]. intros H. discriminate H.
  - reflexivity.
  - reflexivity.
  - reflexivity.
Defined.

(** ** Waiting for the cluster *)

Lemma anyReady_first_ready before rest c :
  notReady before ->
  anyReady (before ++ readyCondition :: rest) c = (Done true, c).
Proof.
  intros Hnot.
  induction Hnot as [|condition before' (type & Htype & Hstatus) _ IH].
  - cbn [app anyReady readyCondition ConditionType ConditionStatus deref].
    unfold bind at 1. cbn [ret].
    destruct (decide ("Ready" = "Ready")) as [_|Hne]; [|congruence].
    unfold bind at 1 2. cbn [ret].
    rewrite bool_decide_eq_true_2 by reflexivity. reflexivity.
  - cbn [app anyReady]. rewrite Htype. cbn [deref]. unfold bind at 1. cbn [ret].
    destruct (decide (type = "Ready")) as [Hready|Hother].
    + destruct (Hstatus Hready) as (conditionStatus & Hs & Hne). rewrite Hs.
      cbn [deref]. unfold bind at 1 2. cbn [ret].
      rewrite bool_decide_eq_false_2 by exact Hne. exact IH.
    + unfold bind at 1. cbn [ret]. exact IH.
Qed.

Lemma anyReady_inv conditions c r c1 :
  anyReady conditions c = (r, c1) ->
  c1 = c /\ (r = Done true -> hasReady conditions).
Proof.
  revert r c1. induction conditions as [|condition rest IH]; intros r c1.
  - cbn [anyReady]. unfold ret. intros [= <- <-]. split; [reflexivity|]. discriminate.
  - cbn [anyReady]. destruct (ConditionType condition) as [type|] eqn:Htype; cbn [deref].
    2:{ unfold bind, panic. intros [= <- <-]. split; [reflexivity|]. discriminate. }
    unfold bind at 1. cbn [ret].
    destruct (decide (type = "Ready")) as [->|Hother].
    + destruct (ConditionStatus condition) as [conditionStatus|] eqn:Hs; cbn [deref].
      2:{ unfold bind, panic. intros [= <- <-]. split; [reflexivity|]. discriminate. }
      unfold bind at 1 2. cbn [ret].
      destruct (bool_decide (conditionStatus = "True")) eqn:Htrue.
      * apply bool_decide_eq_true_1 in Htrue as ->.
        intros [= <- <-]. split; [reflexivity|]. intros _.
        apply Exists_cons_hd. split; assumption.
      * intros Hrest. destruct (IH _ _ Hrest) as [-> Hready].
        split; [reflexivity|]. intros Hr. apply Exists_cons_tl, Hready, Hr.
    + unfold bind at 1. cbn [ret].
      intros Hrest. destruct (IH _ _ Hrest) as [-> Hready].
      split; [reflexivity|]. intros Hr. apply Exists_cons_tl, Hready, Hr.
Qed.

Lemma Get_kafka_None key c :
  kafkas c !! key = None -> Get (A:=Kafka) key c = (Done (Failed ErrNotFound), c).
Proof. intros Hl. unfold Get. cbn [table Kafka_stored]. rewrite Hl. reflexivity. Qed.

Lemma Get_mgh_None key c :
  mghs c !! key = None
  -> Get (A:=MulticlusterGlobalHub) key c = (Done (Failed ErrNotFound), c).
Proof. intros Hl. unfold Get. cbn [table Mgh_stored]. rewrite Hl. reflexivity. Qed.

Ltac answered :=
  let Hrun := fresh "Hrun" in
  let Heq := fresh "Heq" in
  unfold ret; intros Hrun; inversion Hrun; subst; clear Hrun;
  split; [reflexivity|];
  try (intros ? ? ? Heq; inversion Heq; subst; clear Heq;
       split; [reflexivity|discriminate]);
  try discriminate.

Lemma kafkaClusterReadyCondition_inv cfg k c r c1 :
  kafkaClusterReadyCondition cfg k c = (r, c1) ->
  c1 = c
  /\ forall k1 b e, r = Done (k1, b, e) ->
       kafkaKey k1 = kafkaKey k
       /\ (b = true -> e = None /\ clusterSeenReady cfg k c).
Proof.
  unfold kafkaClusterReadyCondition.
  destruct (mghs c !! GetMGHNamespacedName cfg) as [hub|] eqn:Hhub.
  2:{ rewrite (bind_Done _ _ _ _ _ (Get_mgh_None _ _ Hhub)). answered. }
  rewrite (bind_Done _ _ _ _ _ (Get_mgh_Some _ _ _ Hhub)).
  cbn [set_mgh mgh].
  destruct (DeletionTimestamp (MghMeta hub)) as [t|] eqn:Hdel.
  { answered. }
  change (kafkaClusterNamespace (set_mgh hub k), kafkaClusterName (set_mgh hub k))
    with (kafkaKey k).
  destruct (kafkas c !! kafkaKey k) as [kafka|] eqn:Hkafka.
  2:{ rewrite (bind_Done _ _ _ _ _ (Get_kafka_None _ _ Hkafka)). answered. }
  rewrite (bind_Done _ _ _ _ _ (Get_kafka_Some _ _ _ Hkafka)).
  destruct (Status kafka) as [status|] eqn:Hstatus; [|answered].
  destruct (Conditions status) as [conditions|] eqn:Hcond; [|answered].
  unfold bind.
  destruct (anyReady conditions c) as [ready c2] eqn:Hready.
  destruct (anyReady_inv _ _ _ _ Hready) as [-> Hhas].
  destruct ready as [ready|]; [|answered].
  unfold ret. intros Hrun; inversion Hrun; subst; clear Hrun. split; [reflexivity|].
  intros k1 b e Heq; inversion Heq; subst; clear Heq. split.
  - destruct (Spec kafka) as [spec|]; [|reflexivity].
    destruct (SpecListeners (SpecKafka spec)); reflexivity.
  - intros ->. split; [reflexivity|].
    exists hub, kafka, status, conditions. repeat split; auto.
Qed.

Lemma set_enableTLS_same k : set_enableTLS (enableTLS k) k = k.
Proof. destruct k; reflexivity. Qed.

Lemma kafkaClusterReadyCondition_ready cfg k c hub kafka status before rest :
  mghs c !! GetMGHNamespacedName cfg = Some hub ->
  DeletionTimestamp (MghMeta hub) = None ->
  kafkas c !! kafkaKey k = Some kafka ->
  Status kafka = Some status ->
  Conditions status = Some (before ++ readyCondition :: rest)%list ->
  notReady before ->
  kafkaClusterReadyCondition cfg k c
  = (Done (set_enableTLS (observedTLS kafka k) (set_mgh hub k), true, None), c).
Proof.
  intros Hhub Hdel Hkafka Hstatus Hcond Hnot. unfold kafkaClusterReadyCondition.
  rewrite (bind_Done _ _ _ _ _ (Get_mgh_Some _ _ _ Hhub)).
  cbn [set_mgh mgh]. rewrite Hdel.
  change (kafkaClusterNamespace (set_mgh hub k), kafkaClusterName (set_mgh hub k))
    with (kafkaKey k).
  rewrite (bind_Done _ _ _ _ _ (Get_kafka_Some _ _ _ Hkafka)).
  rewrite Hstatus, Hcond.
  rewrite (bind_Done _ _ _ _ _ (anyReady_first_ready _ _ _ Hnot)).
  unfold observedTLS. destruct (Spec kafka) as [spec|].
  - destruct (SpecListeners (SpecKafka spec)); [reflexivity|].
    change (enableTLS k) with (enableTLS (set_mgh hub k)).
    rewrite set_enableTLS_same. reflexivity.
  - change (enableTLS k) with (enableTLS (set_mgh hub k)).
    rewrite set_enableTLS_same. reflexivity.
Qed.

Lemma PollUntilContextTimeout_done world attempts n condition k c k1 c1 :
  condition k c = (Done (k1, true, None), c1) ->
  PollUntilContextTimeout world (S attempts) n condition k c
  = (Done (k1, None, S n), c1).
Proof.
  intros Hcond. cbn [PollUntilContextTimeout].
  rewrite (bind_Done _ _ _ _ _ Hcond). reflexivity.
Qed.

Lemma waits_kafkaKey cfg world n k c n' k' c' :
  waits cfg world n k c n' k' c' -> kafkaKey k' = kafkaKey k.
Proof.
  induction 1 as [|n k c k1 c1 n' k' c' Hcond _ IH]; [reflexivity|].
  destruct (kafkaClusterReadyCondition_inv _ _ _ _ _ Hcond) as [_ Hk].
  destruct (Hk _ _ _ eq_refl) as [Hkey _]. congruence.
Qed.

(** X2. kafkaClusterReady returns nil at the first evaluation that finds the
    hub not being deleted and a Ready condition of status "True" on the
    cluster object, whatever conditions follow it: after [n] evaluations that
    answered "not yet" this is evaluation n+1. The transporter then holds the
    hub as read, and enableTLS tells whether a listener of the cluster's spec
    has tls (it keeps its value when the spec lists no listeners). *)
Theorem X2_ready_ends_wait cfg world k0 c0 n k c hub kafka status before rest :
  waits cfg world 0 k0 c0 n k c ->
  n < attempts_within 5 600 ->
  mghs c !! GetMGHNamespacedName cfg = Some hub ->
  DeletionTimestamp (MghMeta hub) = None ->
  kafkas c !! kafkaKey k0 = Some kafka ->
  Status kafka = Some status ->
  Conditions status = Some (before ++ readyCondition :: rest)%list ->
  notReady before ->
  kafkaClusterReady cfg world k0 c0
  = (Done (set_enableTLS (observedTLS kafka k) (set_mgh hub k), None, S n), c).
Proof.
  intros Hw Hlt Hhub Hdel Hkafka Hstatus Hcond Hnot.
  unfold kafkaClusterReady.
  replace (attempts_within 5 600) with (n - 0 + S (attempts_within 5 600 - S n)) by lia.
  rewrite (waits_poll _ _ _ _ _ _ _ _ Hw). unfold kafkaClusterReadyFrom.
  apply PollUntilContextTimeout_done.
  rewrite <- (waits_kafkaKey _ _ _ _ _ _ _ _ Hw) in Hkafka.
  eapply kafkaClusterReadyCondition_ready; eassumption.
Qed.

Lemma X2_ready_ends_wait_witness :
  kafkaClusterReady exampleConfig readinessWorld exampleTransporter waitingCluster
  = (Done (exampleTransporter, None, 3), readyCluster).
Proof.
  apply (X2_ready_ends_wait exampleConfig readinessWorld exampleTransporter waitingCluster
           2 exampleTransporter readyCluster (exampleMgh HAHigh None) readyKafka readyStatus
           [{| ConditionStatus := Some "True"; ConditionType := Some "Warning" |}]
           [{| ConditionStatus := None; ConditionType := None |}]).
  - eapply waits_on; [vm_compute; reflexivity|].
    eapply waits_on; [vm_compute; reflexivity|].
    apply waits_here.
  - vm_compute. lia.
  - vm_compute. reflexivity.
  - reflexivity.
  - vm_compute. reflexivity.
  - reflexivity.
  - reflexivity.
  - constructor; [|constructor].
    exists "Warning". split; [reflexivity|]. intros H. discriminate H.
Defined.

Lemma kafkaClusterReadyFrom_nil_inv cfg world attempts :
  forall n k c k' n' c',
    kafkaClusterReadyFrom cfg world attempts n k c = (Done (k', None, n'), c') ->
    clusterSeenReady cfg k c' /\ kafkaKey k' = kafkaKey k /\ n < n' <= n + attempts.
Proof.
  unfold kafkaClusterReadyFrom.
  induction attempts as [|attempts IH]; intros n k c k' n' c'.
  - cbn [PollUntilContextTimeout]. unfold ret. intros Hrun. inversion Hrun.
  - cbn [PollUntilContextTimeout]. unfold bind at 1.
    destruct (kafkaClusterReadyCondition cfg k c) as [r c1] eqn:Hcond.
    destruct (kafkaClusterReadyCondition_inv _ _ _ _ _ Hcond) as [-> Hk].
    destruct r as [[[k1 b] e]|]; [|intros Hrun; inversion Hrun].
    destruct (Hk _ _ _ eq_refl) as [Hkey Hready].
    destruct b, e as [err|]; try (unfold ret; intros Hrun; inversion Hrun; fail).
    + unfold ret. intros Hrun. inversion Hrun; subst.
      destruct (Hready eq_refl) as [_ Hseen]. split; [exact Hseen|]. split; [exact Hkey|lia].
    + intros Hrun. apply IH in Hrun as ((hub & kafka & status & conditions & H) & Hkey' & Hn).
      split; [|split; [congruence|lia]].
      exists hub, kafka, status, conditions. rewrite <- Hkey. exact H.
Qed.

(** X3. kafkaClusterReady returns nil only if its last evaluation found, in
    the store it leaves, the hub without deletion timestamp and the cluster
    object with a Ready condition of status "True"; between 1 and 120
    evaluations were made, and the transporter still names the same cluster. *)
Theorem X3_nil_only_when_ready cfg world k c k' n c' :
  kafkaClusterReady cfg world k c = (Done (k', None, n), c') ->
  clusterSeenReady cfg k c' /\ kafkaKey k' = kafkaKey k /\ 1 <= n <= 120.
Proof.
  intros Hrun. apply kafkaClusterReadyFrom_nil_inv in Hrun as (Hseen & Hkey & Hn).
  split; [exact Hseen|]. split; [exact Hkey|].
  change (attempts_within 5 600) with 120 in Hn. lia.
Qed.

Lemma X3_nil_only_when_ready_witness :
  clusterSeenReady exampleConfig exampleTransporter readyCluster
  /\ kafkaKey exampleTransporter = kafkaKey exampleTransporter /\ 1 <= 3 <= 120.
Proof.
  apply (X3_nil_only_when_ready exampleConfig readinessWorld exampleTransporter
           waitingCluster exampleTransporter 3 readyCluster).
  vm_compute. reflexivity.
Defined.

(** X4. When every evaluation that fits into the ten minutes answers "not
    yet", kafkaClusterReady ends with the error "context deadline exceeded"
    after the last of them, with the transporter and the store as the wait
    left them. *)
Theorem X4_wait_times_out cfg world k0 c0 k c :
  waits cfg world 0 k0 c0 (attempts_within 5 600) k c ->
  kafkaClusterReady cfg world k0 c0
  = (Done (k, Some DeadlineExceeded, attempts_within 5 600), c).
Proof.
  intros Hw. unfold kafkaClusterReady.
  replace (attempts_within 5 600) with (attempts_within 5 600 - 0 + 0) at 1 by lia.
  rewrite (waits_poll _ _ _ _ _ _ _ _ Hw). reflexivity.
Qed.

Lemma waits_quiet cfg k c :
  kafkaClusterReadyCondition cfg k c = (Done (k, false, None), c) ->
  forall steps n, waits cfg quietWorld n k c (steps + n) k c.
Proof.
  intros Hcond. induction steps as [|steps IH]; intros n.
  - apply waits_here.
  - eapply waits_on; [exact Hcond|].
    replace (S steps + n) with (steps + S n) by lia. apply IH.
Qed.

Lemma X4_wait_times_out_witness :
  kafkaClusterReady exampleConfig quietWorld exampleTransporter waitingCluster
  = (Done (exampleTransporter, Some DeadlineExceeded, attempts_within 5 600),
     waitingCluster).
Proof.
  apply (X4_wait_times_out exampleConfig quietWorld exampleTransporter waitingCluster
           exampleTransporter waitingCluster).
  apply (waits_quiet exampleConfig exampleTransporter waitingCluster eq_refl
           (attempts_within 5 600) 0).
Defined.

(** X5. An evaluation that does not find the hub in the store ends the wait
    at once with the error of the Get, "not found": kafkaClusterReady does
    not go on waiting for a cluster whose hub is gone. *)
Theorem X5_missing_hub_ends_wait cfg world k0 c0 n k c :
  waits cfg world 0 k0 c0 n k c ->
  n < attempts_within 5 600 ->
  mghs c !! GetMGHNamespacedName cfg = None ->
  kafkaClusterReady cfg world k0 c0 = (Done (k, Some ErrNotFound, S n), c).
Proof.
  intros Hw Hlt Hhub. unfold kafkaClusterReady.
  replace (attempts_within 5 600) with (n - 0 + S (attempts_within 5 600 - S n)) by lia.
  rewrite (waits_poll _ _ _ _ _ _ _ _ Hw). unfold kafkaClusterReadyFrom.
  apply PollUntilContextTimeout_error with (b := false).
  unfold kafkaClusterReadyCondition.
  rewrite (bind_Done _ _ _ _ _ (Get_mgh_None _ _ Hhub)). reflexivity.
Qed.

Lemma X5_missing_hub_ends_wait_witness :
  kafkaClusterReady exampleConfig hubRemovedWorld exampleTransporter waitingCluster
  = (Done (exampleTransporter, Some ErrNotFound, 3), clusterWithKafka (kafkaWithStatus None)).
Proof.
  apply (X5_missing_hub_ends_wait exampleConfig hubRemovedWorld exampleTransporter
           waitingCluster 2 exampleTransporter (clusterWithKafka (kafkaWithStatus None))).
  - eapply waits_on; [vm_compute; reflexivity|].
    eapply waits_on; [vm_compute; reflexivity|].
    apply waits_here.
  - vm_compute. lia.
  - vm_compute. reflexivity.
Defined.

(** ** The subscription *)

Lemma Create_subscription_absent (obj : Subscription) key c :
  ObjectKeyFromObject obj = key ->
  subscriptions c !! key = None ->
  Create obj c
  = (Done None,
     set_table (<[key := obj]> (subscriptions c))
       (log_request {| reqVerb := CreateVerb; reqKind := SubscriptionKind; reqKey := key |} c)).
Proof.
  intros Hk Habs. unfold Create. rewrite Hk. cbn [table Subscription_stored].
  rewrite Habs. reflexivity.
Qed.

Lemma Get_subscription_None key c :
  subscriptions c !! key = None
  -> Get (A:=Subscription) key c = (Done (Failed ErrNotFound), c).
Proof. intros Hl. unfold Get. cbn [table Subscription_stored]. rewrite Hl. reflexivity. Qed.

(** X6. After ensureSubscription the store holds, under the subscription's
    key, a subscription with exactly the expected spec (the starting CSV
    empty); one that was there keeps its metadata - its labels are not
    reconciled - and one that was missing is created with the expected
    metadata. No error is returned, no other subscription changes and exactly
    one write request is sent. *)
Theorem X6_subscription_reconciled cfg k hub c :
  wf_table (A:=Subscription) c ->
  (forall existing, subscriptions c !! subscriptionKey k hub = Some existing ->
                    is_Some (SubSpec existing)) ->
  exists c1 sub,
    ensureSubscription cfg k hub c = (Done None, c1)
    /\ subscriptions c1 = <[subscriptionKey k hub := sub]> (subscriptions c)
    /\ SubSpec sub = SubSpec (newSubscription cfg k hub)
    /\ SubMeta sub = match subscriptions c !! subscriptionKey k hub with
                     | Some existing => SubMeta existing
                     | None => SubMeta (newSubscription cfg k hub)
                     end
    /\ length (writes c1) = S (length (writes c)).
Proof.
  intros Hwf Hspec. unfold ensureSubscription. fold (subscriptionKey k hub).
  destruct (subscriptions c !! subscriptionKey k hub) as [existing|] eqn:Hex.
  - destruct (Hspec _ eq_refl) as [existingSpec Hs].
    rewrite (bind_Done _ _ _ _ _ (Get_subscription_Some _ _ _ Hex)).
    rewrite Hs. cbn [deref]. unfold bind at 1 2. cbn [ret].
    set (spec := if negb (Semantic_DeepEqual _ _) then _ else _).
    assert (Hchoice : spec = SubSpec (newSubscription cfg k hub)).
    { subst spec. unfold Semantic_DeepEqual.
      destruct (bool_decide _) eqn:Heq; cbn [negb]; [|reflexivity].
      apply bool_decide_eq_true_1 in Heq. exact Heq. }
    rewrite Hchoice. clear spec Hchoice.
    cbn [newSubscription SubSpec deref]. unfold bind at 1. cbn [ret StartingCSV Channel].
    eexists _, _. split.
    { apply (Update_subscription_present _ (subscriptionKey k hub)); [|eauto].
      apply (Hwf _ existing Hex). }
    cbn [set_table Subscription_stored subscriptions writes log_request SubSpec SubMeta].
    split; [reflexivity|]. split.
    { unfold set_StartingCSV.
      cbn [CatalogSource CatalogSourceNamespace Package Channel InstallPlanApproval SubConfig].
      destruct (decide _); reflexivity. }
    split; [reflexivity|]. rewrite length_app. cbn [length]. lia.
  - rewrite (bind_Done _ _ _ _ _ (Get_subscription_None _ _ Hex)).
    eexists _, _. split.
    { apply (Create_subscription_absent _ (subscriptionKey k hub)); [reflexivity|exact Hex]. }
    cbn [set_table Subscription_stored subscriptions writes log_request].
    split; [reflexivity|]. split; [reflexivity|]. split; [reflexivity|].
    rewrite length_app. cbn [length]. lia.
Qed.

Lemma wf_clusterWithSubscription sub :
  ObjectKeyFromObject sub = ("multicluster-global-hub", DefaultKafkaSubName) ->
  wf_table (A:=Subscription) (clusterWithSubscription sub).
Proof.
  intros Hkey key obj. cbn [table Subscription_stored clusterWithSubscription subscriptions].
  intros [<- <-]%lookup_singleton_Some. exact Hkey.
Qed.

Lemma X6_subscription_reconciled_witness :
  exists c1 sub,
    ensureSubscription exampleConfig exampleTransporter (exampleMgh HAHigh None)
      (clusterWithSubscription driftedSubscription) = (Done None, c1)
    /\ subscriptions c1
       = <[subscriptionKey exampleTransporter (exampleMgh HAHigh None) := sub]>
           (subscriptions (clusterWithSubscription driftedSubscription))
    /\ SubSpec sub
       = SubSpec (newSubscription exampleConfig exampleTransporter (exampleMgh HAHigh None))
    /\ SubMeta sub
       = match subscriptions (clusterWithSubscription driftedSubscription)
               !! subscriptionKey exampleTransporter (exampleMgh HAHigh None) with
         | Some existing => SubMeta existing
         | None => SubMeta (newSubscription exampleConfig exampleTransporter
                              (exampleMgh HAHigh None))
         end
    /\ length (writes c1)
       = S (length (writes (clusterWithSubscription driftedSubscription))).
Proof.
  apply (X6_subscription_reconciled exampleConfig exampleTransporter (exampleMgh HAHigh None)
           (clusterWithSubscription driftedSubscription)).
  - apply wf_clusterWithSubscription. reflexivity.
  - intros existing Hex. vm_compute in Hex. injection Hex as <-. eexists. reflexivity.
Defined.

(** X7. ensureSubscription reads the channel of the subscription it found
    without a nil check: on a stored subscription without spec it panics,
    before any write request is sent. *)
Theorem X7_subscription_without_spec_panics cfg k hub c existing :
  subscriptions c !! subscriptionKey k hub = Some existing ->
  SubSpec existing = None ->
  ensureSubscription cfg k hub c = (Panic, c).
Proof.
  intros Hex Hnil. unfold ensureSubscription. fold (subscriptionKey k hub).
  rewrite (bind_Done _ _ _ _ _ (Get_subscription_Some _ _ _ Hex)).
  rewrite Hnil. reflexivity.
Qed.

Lemma X7_subscription_without_spec_panics_witness :
  ensureSubscription exampleConfig exampleTransporter (exampleMgh HAHigh None)
    (clusterWithSubscription bareSubscription)
  = (Panic, clusterWithSubscription bareSubscription).
Proof.
  apply (X7_subscription_without_spec_panics exampleConfig exampleTransporter
           (exampleMgh HAHigh None) (clusterWithSubscription bareSubscription)
           bareSubscription).
  - vm_compute. reflexivity.
  - reflexivity.
Defined.

(** ** The pipeline of ensureKafka *)

Lemma PollUntilContextTimeout_never world condition :
  (forall k c, exists c1, condition k c = (Done (k, false, None), c1)) ->
  forall attempts n k c,
    exists c', PollUntilContextTimeout world attempts n condition k c
               = (Done (k, Some DeadlineExceeded, n + attempts), c').
Proof.
  intros Hnever. induction attempts as [|attempts IH]; intros n k c.
  - exists c. cbn [PollUntilContextTimeout]. unfold ret.
    replace (n + 0) with n by lia. reflexivity.
  - destruct (Hnever k c) as [c1 Hcond].
    rewrite (PollUntilContextTimeout_not_yet _ _ _ _ _ _ _ _ Hcond).
    destruct (IH (S n) k (world n c1)) as [c' Hrest]. exists c'. rewrite Hrest.
    replace (S n + attempts) with (n + S attempts) by lia. reflexivity.
Qed.

(** X8. When the Kafka CRDs are not ready, ensureKafka gives up at the first
    evaluation of its condition with the error "the kafka crds is not ready":
    it does not retry for the thirty seconds, and neither the cluster object
    nor the manifests are applied - the result is the same whatever those
    two steps would do. *)
Theorem X8_crds_not_ready cfg deploy CreateUpdateKafkaCluster GetKafkaResourceReady
    world k hub c c1 c2 :
  ensureSubscription cfg k hub c = (Done None, c1) ->
  GetKafkaResourceReady c1 = (Done false, c2) ->
  ensureKafka cfg deploy CreateUpdateKafkaCluster GetKafkaResourceReady world k hub c
  = (Done (k, Some (ErrMsg "the kafka crds is not ready")), c2).
Proof.
  intros Hsub Hready. unfold ensureKafka.
  rewrite (bind_Done _ _ _ _ _ Hsub). cbv beta iota.
  erewrite bind_Done; cycle 1.
  { change (attempts_within 2 30) with 15.
    apply PollUntilContextTimeout_error with (b := false).
    unfold ensureKafkaCondition. rewrite (bind_Done _ _ _ _ _ Hready). reflexivity. }
  reflexivity.
Qed.

Lemma X8_crds_not_ready_witness :
  ensureKafka exampleConfig deployOk createUpdateOk crdsMissing quietWorld
    exampleTransporter (exampleMgh HAHigh None) emptyCluster
  = (Done (exampleTransporter, Some (ErrMsg "the kafka crds is not ready")),
     (ensureSubscription exampleConfig exampleTransporter (exampleMgh HAHigh None)
        emptyCluster).2).
Proof.
  apply (X8_crds_not_ready exampleConfig deployOk createUpdateOk crdsMissing quietWorld
           exampleTransporter (exampleMgh HAHigh None) emptyCluster
           (ensureSubscription exampleConfig exampleTransporter (exampleMgh HAHigh None)
              emptyCluster).2).
  - vm_compute. reflexivity.
  - reflexivity.
Defined.

(** X9. The errors of CreateUpdateKafkaCluster and of the deployment of the
    manifests are not returned by ensureKafka: while the CRDs are ready, if at
    every evaluation one of the two steps fails, the condition answers "not
    yet" each time and ensureKafka ends with "context deadline exceeded". *)
Theorem X9_apply_errors_become_timeout cfg deploy CreateUpdateKafkaCluster
    GetKafkaResourceReady world k hub c c1 :
  ensureSubscription cfg k hub c = (Done None, c1) ->
  (forall c, exists c', GetKafkaResourceReady c = (Done true, c')) ->
  (forall k c, exists r c',
      CreateUpdateKafkaCluster k hub c = (Done r, c')
      /\ (is_Some r.1
          \/ exists err c'', deploy (kafkaManifestValues cfg k hub) hub c'
                             = (Done (Some err), c''))) ->
  exists c2,
    ensureKafka cfg deploy CreateUpdateKafkaCluster GetKafkaResourceReady world k hub c
    = (Done (k, Some DeadlineExceeded), c2).
Proof.
  intros Hsub Hready Hfail. unfold ensureKafka.
  rewrite (bind_Done _ _ _ _ _ Hsub). cbv beta iota.
  destruct (PollUntilContextTimeout_never world
              (ensureKafkaCondition cfg deploy CreateUpdateKafkaCluster
                 GetKafkaResourceReady hub)) with (attempts := attempts_within 2 30)
    (n := 0) (k := k) (c := c1) as [c2 Hpoll].
  { intros k' c'. unfold ensureKafkaCondition.
    destruct (Hready c') as [c3 Hr]. rewrite (bind_Done _ _ _ _ _ Hr). cbn [negb].
    destruct (Hfail k' c3) as (r & c4 & Hcreate & Hwhy).
    rewrite (bind_Done _ _ _ _ _ Hcreate).
    destruct Hwhy as [[err Herr]|(err & c5 & Hdeploy)].
    - rewrite Herr. eexists. reflexivity.
    - destruct r.1; [eexists; reflexivity|].
      unfold renderKafkaResources. rewrite (bind_Done _ _ _ _ _ Hdeploy).
      eexists. reflexivity. }
  exists c2. rewrite (bind_Done _ _ _ _ _ Hpoll). reflexivity.
Qed.

Lemma X9_apply_errors_become_timeout_witness :
  exists c2,
    ensureKafka exampleConfig deployOk createUpdateFails crdsReady quietWorld
      exampleTransporter (exampleMgh HAHigh None) emptyCluster
    = (Done (exampleTransporter, Some DeadlineExceeded), c2).
Proof.
  apply (X9_apply_errors_become_timeout exampleConfig deployOk createUpdateFails crdsReady
           quietWorld exampleTransporter (exampleMgh HAHigh None) emptyCluster
           (ensureSubscription exampleConfig exampleTransporter (exampleMgh HAHigh None)
              emptyCluster).2).
  - vm_compute. reflexivity.
  - intros c. exists c. reflexivity.
  - intros k c. eexists _, c. split; [reflexivity|]. left. eexists. reflexivity.
Defined.

(** X10. With waitReady switched off, ensureKafka returns nil as soon as the
    subscription, the cluster object and the manifests have been applied: the
    status of the Kafka cluster is not looked at, so the result does not
    depend on what the store says about it. *)
Theorem X10_no_wait_when_switched_off cfg deploy CreateUpdateKafkaCluster
    GetKafkaResourceReady world k hub c c1 c2 c3 c4 changed :
  waitReady k = false ->
  ensureSubscription cfg k hub c = (Done None, c1) ->
  GetKafkaResourceReady c1 = (Done true, c2) ->
  CreateUpdateKafkaCluster k hub c2 = (Done (None, changed), c3) ->
  deploy (kafkaManifestValues cfg k hub) hub c3 = (Done None, c4) ->
  ensureKafka cfg deploy CreateUpdateKafkaCluster GetKafkaResourceReady world k hub c
  = (Done (k, None), c4).
Proof.
  intros Hoff Hsub Hready Hcreate Hdeploy. unfold ensureKafka.
  rewrite (bind_Done _ _ _ _ _ Hsub). cbv beta iota.
  erewrite bind_Done; cycle 1.
  { change (attempts_within 2 30) with 15.
    apply PollUntilContextTimeout_done.
    unfold ensureKafkaCondition. rewrite (bind_Done _ _ _ _ _ Hready). cbn [negb].
    rewrite (bind_Done _ _ _ _ _ Hcreate). cbn [fst].
    unfold renderKafkaResources. rewrite (bind_Done _ _ _ _ _ Hdeploy). reflexivity. }
  cbv beta iota. rewrite Hoff. reflexivity.
Qed.

Lemma X10_no_wait_when_switched_off_witness :
  ensureKafka exampleConfig deployOk createUpdateOk crdsReady quietWorld
    (WithWaitReady false exampleTransporter) (exampleMgh HAHigh None) emptyCluster
  = (Done (WithWaitReady false exampleTransporter, None),
     (ensureSubscription exampleConfig exampleTransporter (exampleMgh HAHigh None)
        emptyCluster).2).
Proof.
  apply (X10_no_wait_when_switched_off exampleConfig deployOk createUpdateOk crdsReady
           quietWorld (WithWaitReady false exampleTransporter) (exampleMgh HAHigh None)
           emptyCluster
           (ensureSubscription exampleConfig exampleTransporter (exampleMgh HAHigh None)
              emptyCluster).2
           (ensureSubscription exampleConfig exampleTransporter (exampleMgh HAHigh None)
              emptyCluster).2
           (ensureSubscription exampleConfig exampleTransporter (exampleMgh HAHigh None)
              emptyCluster).2
           (ensureSubscription exampleConfig exampleTransporter (exampleMgh HAHigh None)
              emptyCluster).2 false).
  - reflexivity.
  - vm_compute. reflexivity.
  - reflexivity.
  - reflexivity.
  - reflexivity.
Defined.

(** ** The values of the manifests *)

Lemma append_cons ch (s t : string) : String ch s +:+ t = String ch (s +:+ t).
Proof. reflexivity. Qed.

Lemma append_assoc (s t u : string) : (s +:+ t) +:+ u = s +:+ (t +:+ u).
Proof.
  induction s as [|ch s IH]; [reflexivity|]. rewrite !append_cons, IH. reflexivity.
Qed.

Lemma append_empty (s : string) : s +:+ "" = s.
Proof.
  induction s as [|ch s IH]; [reflexivity|]. rewrite append_cons, IH. reflexivity.
Qed.

Lemma strings_Contains_app s t old :
  strings_Contains (s +:+ t) old = strings_Contains s old || strings_Contains t old.
Proof.
  induction s as [|ch s IH]; [reflexivity|].
  rewrite append_cons. cbn [strings_Contains]. destruct (Ascii.eqb ch old); [reflexivity|exact IH].
Qed.

Lemma strings_Replace_app s t old new :
  strings_Replace (s +:+ t) old new
  = strings_Replace s old new +:+ strings_Replace t old new.
Proof.
  induction s as [|ch s IH]; [reflexivity|].
  rewrite append_cons. cbn [strings_Replace]. destruct (Ascii.eqb ch old).
  - rewrite IH. symmetry. apply append_assoc.
  - rewrite IH. reflexivity.
Qed.

Lemma strings_Replace_absent s old new :
  strings_Contains s old = false -> strings_Replace s old new = s.
Proof.
  induction s as [|ch s IH]; [reflexivity|].
  cbn [strings_Contains strings_Replace]. destruct (Ascii.eqb ch old); [discriminate|].
  intros Habs. rewrite (IH Habs). reflexivity.
Qed.

Lemma strings_Contains_Replace s old new :
  strings_Contains new old = false ->
  strings_Contains (strings_Replace s old new) old = false.
Proof.
  intros Hnew. induction s as [|ch s IH]; [reflexivity|].
  cbn [strings_Replace]. destruct (Ascii.eqb ch old) eqn:Hch.
  - rewrite strings_Contains_app, Hnew, IH. reflexivity.
  - cbn [strings_Contains]. rewrite Hch. exact IH.
Qed.

Lemma prefix_app s t : String.prefix s (s +:+ t) = true.
Proof.
  induction s as [|ch s IH]; [destruct t; reflexivity|].
  rewrite append_cons. cbn [String.prefix]. destruct (ascii_dec ch ch); [exact IH|congruence].
Qed.

(** X11. The status topic handed to the manifests never contains the
    wildcard, neither does the placeholder topic; the pattern type is
    "prefix" exactly when the configured status topic contains the wildcard,
    and "literal" otherwise, in which case both topics are the configured
    one. *)
Theorem X11_manifest_status_topic cfg k hub :
  let values := kafkaManifestValues cfg k hub in
  strings_Contains (ValStatusTopic values) "*" = false
  /\ strings_Contains (ValStatusPlaceholderTopic values) "*" = false
  /\ (ValStatusTopicParttern values
        = KafkaUserSpecAuthorizationAclsElemResourcePatternTypePrefix
      <-> strings_Contains (GetRawStatusTopic cfg) "*" = true)
  /\ (strings_Contains (GetRawStatusTopic cfg) "*" = false ->
      ValStatusTopicParttern values
        = KafkaUserSpecAuthorizationAclsElemResourcePatternTypeLiteral
      /\ ValStatusTopic values = GetRawStatusTopic cfg
      /\ ValStatusPlaceholderTopic values = GetRawStatusTopic cfg).
Proof.
  unfold kafkaManifestValues.
  cbn [ValStatusTopic ValStatusPlaceholderTopic ValStatusTopicParttern].
  destruct (strings_Contains (GetRawStatusTopic cfg) "*") eqn:Hwild.
  - split; [apply strings_Contains_Replace; reflexivity|].
    split; [apply strings_Contains_Replace; reflexivity|].
    split; [split; reflexivity|]. discriminate.
  - split; [exact Hwild|]. split; [exact Hwild|].
    split; [split; discriminate|]. intros _. repeat split.
Qed.

(** X12. When the configured status topic is a prefix followed by the
    wildcard, the manifests get that prefix as status topic with pattern type
    "prefix", and the status topic of every managed hub starts with it: the
    prefix rule of the global hub's user covers all of them. *)
Theorem X12_prefix_covers_every_hub cfg k hub topicPrefix clusterName :
  GetRawStatusTopic cfg = topicPrefix +:+ "*" ->
  strings_Contains topicPrefix "*" = false ->
  let values := kafkaManifestValues cfg k hub in
  ValStatusTopic values = topicPrefix
  /\ ValStatusTopicParttern values
     = KafkaUserSpecAuthorizationAclsElemResourcePatternTypePrefix
  /\ ValStatusPlaceholderTopic values = topicPrefix +:+ "global-hub"
  /\ GetStatusTopic cfg clusterName = topicPrefix +:+ clusterName
  /\ String.prefix (ValStatusTopic values) (GetStatusTopic cfg clusterName) = true.
Proof.
  intros Hraw Hprefix. unfold kafkaManifestValues, GetStatusTopic.
  cbn [ValStatusTopic ValStatusPlaceholderTopic ValStatusTopicParttern].
  rewrite Hraw, strings_Contains_app, Hprefix.
  change (strings_Contains "*" "*") with true. cbn [orb].
  rewrite !strings_Replace_app, !(strings_Replace_absent _ _ _ Hprefix).
  change (strings_Replace "*" "*" "") with "".
  change (strings_Replace "*" "*" "global-hub") with "global-hub".
  replace (strings_Replace "*" "*" clusterName) with clusterName
    by (cbn [strings_Replace]; change (Ascii.eqb "*" "*") with true; cbv iota;
        symmetry; apply append_empty).
  rewrite append_empty.
  split; [reflexivity|]. split; [reflexivity|]. split; [reflexivity|].
  split; [reflexivity|]. apply prefix_app.
Qed.

Lemma X12_prefix_covers_every_hub_witness :
  let values := kafkaManifestValues exampleConfig exampleTransporter (exampleMgh HAHigh None) in
  ValStatusTopic values = "status."
  /\ ValStatusTopicParttern values
     = KafkaUserSpecAuthorizationAclsElemResourcePatternTypePrefix
  /\ ValStatusPlaceholderTopic values = "status." +:+ "global-hub"
  /\ GetStatusTopic exampleConfig "cluster-a" = "status." +:+ "cluster-a"
  /\ String.prefix (ValStatusTopic values) (GetStatusTopic exampleConfig "cluster-a") = true.
Proof.
  apply (X12_prefix_covers_every_hub exampleConfig exampleTransporter
           (exampleMgh HAHigh None) "status." "cluster-a"); reflexivity.
Defined.

(** ** More on EnsureUser *)

Lemma DeepDerivative_elems_app {A} (f : A -> A -> outcome bool) :
  (forall x, f x x = Done true) ->
  forall l extra, DeepDerivative_elems f l (l ++ extra)%list = Done true.
Proof.
  intros Hf l extra. induction l as [|x l IH]; [reflexivity|].
  cbn [app DeepDerivative_elems]. rewrite Hf, IH. reflexivity.
Qed.

Lemma DeepDerivative_slice_app {A} (f : A -> A -> outcome bool) :
  (forall x, f x x = Done true) ->
  forall l extra, DeepDerivative_slice f l (l ++ extra)%list = Done true.
Proof.
  intros Hf l extra. unfold DeepDerivative_slice. destruct l as [|x l]; [reflexivity|].
  destruct (decide _) as [Hlt|_].
  - rewrite length_app in Hlt. lia.
  - apply DeepDerivative_elems_app, Hf.
Qed.

(** X13. EnsureUser compares only what the desired user sets: on a stored
    user that has the desired authentication and the desired rules followed
    by any further rules, whatever its labels, it writes nothing - rules
    appended to a user by hand stay, and missing labels are not restored. *)
Theorem X13_appended_rules_stay cfg k clusterName c existing extra :
  kafkaUsers c !! userKey cfg k clusterName = Some existing ->
  UserSpec existing
  = Some {| Authentication :=
              Some {| AuthenticationType := KafkaUserSpecAuthenticationTypeTlsExternal |};
            Authorization :=
              Some {| AuthorizationType := KafkaUserSpecAuthorizationTypeSimple;
                      Acls := (simpleACLs cfg k clusterName ++ extra)%list |} |} ->
  EnsureUser cfg k clusterName c = (Done (GetKafkaUserName cfg clusterName, None), c).
Proof.
  intros Hex Hspec. apply (EnsureUser_settled cfg k clusterName c existing Hex).
  rewrite Hspec. cbn [newKafkaUser UserSpec DeepDerivative_ptr].
  unfold DeepDerivative_KafkaUserSpec.
  cbn [Authentication Authorization DeepDerivative_ptr].
  unfold DeepDerivative_Authentication, DeepDerivative_Authorization.
  cbn [AuthenticationType AuthorizationType Acls].
  rewrite !DeepDerivative_string_refl.
  rewrite (DeepDerivative_slice_app _ DeepDerivative_Acl_refl). reflexivity.
Qed.

Lemma X13_appended_rules_stay_witness :
  EnsureUser exampleConfig exampleTransporter "cluster-a" (clusterWithUser extendedUser)
  = (Done ("cluster-a-kafka-user", None), clusterWithUser extendedUser).
Proof.
  apply (X13_appended_rules_stay exampleConfig exampleTransporter "cluster-a"
           (clusterWithUser extendedUser) extendedUser [WriteTopicACL "audit"]).
  - vm_compute. reflexivity.
  - reflexivity.
Defined.

Lemma sentOnly_nil n objects keys : sentOnly n objects keys [].
Proof. split; [cbn; lia|constructor]. Qed.

Lemma sentOnly_one n objects key keys v :
  v <> DeleteVerb -> key ∈ keys ->
  sentOnly (S n) objects keys [{| reqVerb := v; reqKind := objects; reqKey := key |}].
Proof.
  intros Hv Hin. split; [cbn; lia|].
  constructor; [|constructor]. cbn [reqKind reqKey reqVerb]. auto.
Qed.

(** X14. Whatever its outcome, EnsureUser touches nothing but the
    tenant's user: the other users, the topics, the Kafka clusters, the
    subscriptions and the hubs are as before, and it sends at most one write
    request, a Create or an Update of that user. When the stored user, if
    there is one, has a spec with authentication and authorization and in
    every rule the host and the name and pattern type of the resource,
    EnsureUser ends without error; and whenever it ends without error the
    user is in the store, under its key, with the desired spec a derivative
    of the stored one (equal in all that the desired one sets). *)
Theorem X14_ensure_user_frame cfg k clusterName c :
  wf_table (A:=KafkaUser) c ->
  exists r c1 sent,
    EnsureUser cfg k clusterName c = (r, c1)
    /\ (userIsSet cfg k clusterName c ->
        r = Done (GetKafkaUserName cfg clusterName, None))
    /\ (forall name, r = Done (name, None) ->
        exists user,
          kafkaUsers c1 !! userKey cfg k clusterName = Some user
          /\ DeepDerivative_ptr DeepDerivative_KafkaUserSpec
               (UserSpec (desiredUserOf cfg k clusterName)) (UserSpec user) = Done true)
    /\ (forall key, key <> userKey cfg k clusterName ->
                    kafkaUsers c1 !! key = kafkaUsers c !! key)
    /\ kafkaTopics c1 = kafkaTopics c /\ kafkas c1 = kafkas c
    /\ subscriptions c1 = subscriptions c /\ mghs c1 = mghs c
    /\ writes c1 = (writes c ++ sent)%list
    /\ sentOnly 1 KafkaUserKind [userKey cfg k clusterName] sent.
Proof.
  intros Hwf.
  set (key := userKey cfg k clusterName).
  set (desired := desiredUserOf cfg k clusterName).
  assert (Hrefl : DeepDerivative_ptr DeepDerivative_KafkaUserSpec
                    (UserSpec desired) (UserSpec desired) = Done true).
  { apply DeepDerivative_ptr_refl, DeepDerivative_KafkaUserSpec_refl. }
  destruct (kafkaUsers c !! key) as [existing|] eqn:Hex.
  - destruct (DeepDerivative_ptr DeepDerivative_KafkaUserSpec
                (UserSpec desired) (UserSpec existing)) as [[|]|] eqn:Hdd.
    + exists (Done (GetKafkaUserName cfg clusterName, None)), c, [].
      split; [eapply EnsureUser_settled; eauto|]. split; [reflexivity|].
      split; [intros _ _; exists existing; split; [exact Hex|exact Hdd]|].
      split; [reflexivity|].
      repeat (split; [reflexivity|]). split; [symmetry; apply app_nil_r|].
      apply sentOnly_nil.
    + eexists (Done (GetKafkaUserName cfg clusterName, None)), _, _.
      split; [apply EnsureUser_drifted; eauto|].
      cbn [set_table KafkaUser_stored kafkaUsers kafkaTopics kafkas subscriptions mghs
             writes log_request].
      split; [reflexivity|].
      split; [intros _ _; eexists; split; [apply lookup_insert_eq|exact Hrefl]|].
      split; [intros key' Hne; apply lookup_insert_ne; intros Heq; apply Hne; symmetry; exact Heq|].
      repeat (split; [reflexivity|]).
      apply sentOnly_one; solve [left | intros Hv; discriminate Hv].
    + exists Panic, c, []. split; [eapply EnsureUser_panics; eauto|].
      split.
      { intros Hset.
        destruct (returns_KafkaUserSpec (UserSpec desired) existing (Hset existing Hex))
          as [b Hb].
        fold desired in Hdd. rewrite Hdd in Hb. discriminate Hb. }
      split; [intros name Hr; discriminate Hr|]. split; [reflexivity|].
      repeat (split; [reflexivity|]). split; [symmetry; apply app_nil_r|].
      apply sentOnly_nil.
  - eexists (Done (GetKafkaUserName cfg clusterName, None)), _, _.
    split; [apply EnsureUser_absent; exact Hex|].
    cbn [set_table KafkaUser_stored kafkaUsers kafkaTopics kafkas subscriptions mghs
           writes log_request].
    split; [reflexivity|].
    split; [intros _ _; eexists; split; [apply lookup_insert_eq|exact Hrefl]|].
    split; [intros key' Hne; apply lookup_insert_ne; intros Heq; apply Hne; symmetry; exact Heq|].
    repeat (split; [reflexivity|]).
    apply sentOnly_one; solve [left | intros Hv; discriminate Hv].
Qed.

Lemma X14_ensure_user_frame_witness :
  exists c1 user sent,
    EnsureUser exampleConfig exampleTransporter "cluster-a" tenantCluster
    = (Done ("cluster-a-kafka-user", None), c1)
    /\ kafkaUsers c1 !! userKey exampleConfig exampleTransporter "cluster-a" = Some user
    /\ DeepDerivative_ptr DeepDerivative_KafkaUserSpec
         (UserSpec (desiredUserOf exampleConfig exampleTransporter "cluster-a"))
         (UserSpec user) = Done true
    /\ (forall key, key <> userKey exampleConfig exampleTransporter "cluster-a" ->
                    kafkaUsers c1 !! key = kafkaUsers tenantCluster !! key)
    /\ kafkaTopics c1 = kafkaTopics tenantCluster /\ kafkas c1 = kafkas tenantCluster
    /\ subscriptions c1 = subscriptions tenantCluster /\ mghs c1 = mghs tenantCluster
    /\ writes c1 = (writes tenantCluster ++ sent)%list
    /\ sentOnly 1 KafkaUserKind [userKey exampleConfig exampleTransporter "cluster-a"] sent.
Proof.
  destruct (X14_ensure_user_frame exampleConfig exampleTransporter "cluster-a" tenantCluster
              wf_tenantCluster_users)
    as (r & c1 & sent & Hrun & Hreturns & Hstored & Hframe).
  pose proof (Hreturns tenantCluster_userIsSet) as Hr.
  destruct (Hstored _ Hr) as (user & Huser & Hdd). subst r.
  exists c1, user, sent. split; [exact Hrun|]. split; [exact Huser|].
  split; [exact Hdd|exact Hframe].
Defined.

(** ** More on EnsureTopic *)

Lemma topicSettled_compacted cfg k topicName o :
  topicSettled cfg k topicName o -> topicCompacted o.
Proof.
  intros (existing & es & -> & Hes & Hdd).
  unfold updatedTopicOf in Hdd. cbn [TopicSpec DeepDerivative_ptr] in Hdd.
  unfold DeepDerivative_KafkaTopicSpec in Hdd. cbn [Config Partitions Replicas] in Hdd.
  destruct (Config es) as [config|] eqn:Hc; [|discriminate Hdd].
  cbn [DeepDerivative_ptr] in Hdd. unfold DeepDerivative_raw in Hdd.
  destruct (bool_decide _) eqn:Hconfig in Hdd; [|discriminate Hdd].
  cbn [and_then] in Hdd.
  destruct (Partitions es) as [partitions|] eqn:Hp; [|discriminate Hdd].
  cbn [DeepDerivative_ptr] in Hdd. unfold DeepDerivative_int at 1 in Hdd.
  destruct (bool_decide _) eqn:Hpartitions in Hdd; [|discriminate Hdd].
  apply bool_decide_eq_true_1 in Hconfig. apply bool_decide_eq_true_1 in Hpartitions.
  exists existing, es, config. split; [reflexivity|]. split; [exact Hes|].
  split; [congruence|]. split; [exact Hc|].
  rewrite <- Hconfig. unfold compactConfig. rewrite lookup_MergePatch, lookup_singleton_eq.
  reflexivity.
Qed.

Lemma sentOnly_app n m objects keys sent sent' :
  sentOnly n objects keys sent -> sentOnly m objects keys sent' ->
  sentOnly (n + m) objects keys (sent ++ sent')%list.
Proof.
  intros [Hn Hs] [Hm Hs']. split.
  - rewrite length_app. lia.
  - apply Forall_app. split; assumption.
Qed.

Lemma sentOnly_keys n objects key keys sent :
  sentOnly n objects [key] sent -> key ∈ keys -> sentOnly n objects keys sent.
Proof.
  intros [Hn Hs] Hin. split; [exact Hn|].
  eapply Forall_impl; [exact Hs|]. intros r (Hkind & Hkey & Hverb).
  apply list_elem_of_singleton in Hkey. rewrite Hkey. auto.
Qed.

(** One round of the loop of EnsureTopic, whatever its outcome. *)
Lemma ensureTopicNamed_step cfg k topicName c :
  wf_table (A:=KafkaTopic) c ->
  exists r c1 sent,
    ensureTopicNamed cfg k topicName c = (r, c1)
    /\ (r = Done None \/ r = Panic)
    /\ ((forall existing, kafkaTopics c !! topicKey k topicName = Some existing ->
                          topicSet existing) -> r = Done None)
    /\ (r = Done None ->
        topicSettled cfg k topicName (kafkaTopics c1 !! topicKey k topicName))
    /\ (forall topicName',
          topicSettled cfg k topicName' (kafkaTopics c !! topicKey k topicName') ->
          topicSettled cfg k topicName' (kafkaTopics c1 !! topicKey k topicName'))
    /\ wf_table (A:=KafkaTopic) c1
    /\ (forall key, key <> topicKey k topicName ->
                    kafkaTopics c1 !! key = kafkaTopics c !! key)
    /\ kafkaUsers c1 = kafkaUsers c /\ kafkas c1 = kafkas c
    /\ subscriptions c1 = subscriptions c /\ mghs c1 = mghs c
    /\ writes c1 = (writes c ++ sent)%list
    /\ sentOnly 1 KafkaTopicKind [topicKey k topicName] sent.
Proof.
  intros Hwf.
  assert (Hstay : forall r,
             ensureTopicNamed cfg k topicName c = (r, c) ->
             (r = Done None \/ r = Panic) ->
             ((forall existing, kafkaTopics c !! topicKey k topicName = Some existing ->
                                topicSet existing) -> r = Done None) ->
             (r = Done None ->
              topicSettled cfg k topicName (kafkaTopics c !! topicKey k topicName)) ->
             exists r c1 sent,
               ensureTopicNamed cfg k topicName c = (r, c1)
               /\ (r = Done None \/ r = Panic)
               /\ ((forall existing, kafkaTopics c !! topicKey k topicName = Some existing ->
                                     topicSet existing) -> r = Done None)
               /\ (r = Done None ->
                   topicSettled cfg k topicName (kafkaTopics c1 !! topicKey k topicName))
               /\ (forall topicName',
                     topicSettled cfg k topicName' (kafkaTopics c !! topicKey k topicName') ->
                     topicSettled cfg k topicName' (kafkaTopics c1 !! topicKey k topicName'))
               /\ wf_table (A:=KafkaTopic) c1
               /\ (forall key, key <> topicKey k topicName ->
                               kafkaTopics c1 !! key = kafkaTopics c !! key)
               /\ kafkaUsers c1 = kafkaUsers c /\ kafkas c1 = kafkas c
               /\ subscriptions c1 = subscriptions c /\ mghs c1 = mghs c
               /\ writes c1 = (writes c ++ sent)%list
               /\ sentOnly 1 KafkaTopicKind [topicKey k topicName] sent).
  { intros r Hrun Hr Hreturns Hset. exists r, c, [].
    split; [exact Hrun|]. split; [exact Hr|]. split; [exact Hreturns|].
    split; [exact Hset|]. split; [auto|]. split; [exact Hwf|]. split; [reflexivity|].
    repeat (split; [reflexivity|]). split; [symmetry; apply app_nil_r|].
    apply sentOnly_nil. }
  assert (Hwrite : forall v topic,
             v <> DeleteVerb ->
             ObjectKeyFromObject topic = topicKey k topicName ->
             topicSettled cfg k topicName (Some topic) ->
             ~ topicSettled cfg k topicName (kafkaTopics c !! topicKey k topicName) ->
             ensureTopicNamed cfg k topicName c
             = (Done None,
                set_table (<[topicKey k topicName := topic]> (kafkaTopics c))
                  (log_request {| reqVerb := v; reqKind := KafkaTopicKind;
                                  reqKey := topicKey k topicName |} c)) ->
             exists r c1 sent,
               ensureTopicNamed cfg k topicName c = (r, c1)
               /\ (r = Done None \/ r = Panic)
               /\ ((forall existing, kafkaTopics c !! topicKey k topicName = Some existing ->
                                     topicSet existing) -> r = Done None)
               /\ (r = Done None ->
                   topicSettled cfg k topicName (kafkaTopics c1 !! topicKey k topicName))
               /\ (forall topicName',
                     topicSettled cfg k topicName' (kafkaTopics c !! topicKey k topicName') ->
                     topicSettled cfg k topicName' (kafkaTopics c1 !! topicKey k topicName'))
               /\ wf_table (A:=KafkaTopic) c1
               /\ (forall key, key <> topicKey k topicName ->
                               kafkaTopics c1 !! key = kafkaTopics c !! key)
               /\ kafkaUsers c1 = kafkaUsers c /\ kafkas c1 = kafkas c
               /\ subscriptions c1 = subscriptions c /\ mghs c1 = mghs c
               /\ writes c1 = (writes c ++ sent)%list
               /\ sentOnly 1 KafkaTopicKind [topicKey k topicName] sent).
  { intros v topic Hv Hkey Hsettled Hnot Hrun. eexists (Done None), _, _.
    split; [exact Hrun|]. split; [left; reflexivity|]. split; [reflexivity|].
    cbn [set_table KafkaTopic_stored kafkaUsers kafkaTopics kafkas subscriptions mghs
           writes log_request].
    split; [intros _; rewrite lookup_insert_eq; exact Hsettled|].
    split.
    { intros topicName' Hs. destruct (decide (topicName' = topicName)) as [->|Hne].
      - contradiction.
      - rewrite lookup_insert_ne; [exact Hs|].
        intros Heq. apply Hne. symmetry. eapply topicKey_inj, Heq. }
    split.
    { apply (wf_table_insert_topic c
               (log_request {| reqVerb := v; reqKind := KafkaTopicKind;
                               reqKey := topicKey k topicName |} c));
        [exact Hwf|exact Hkey]. }
    split; [intros key Hne; apply lookup_insert_ne; intros Heq; apply Hne; symmetry;
            exact Heq|].
    repeat (split; [reflexivity|]).
    apply (sentOnly_one 0); [exact Hv|left]. }
  destruct (kafkaTopics c !! topicKey k topicName) as [existing|] eqn:Hex.
  - destruct (TopicSpec existing) as [es|] eqn:Hes.
    + destruct (DeepDerivative_ptr DeepDerivative_KafkaTopicSpec
                  (TopicSpec (updatedTopicOf cfg k topicName existing es)) (Some es))
        as [[|]|] eqn:Hdd.
      * assert (Hset : topicSettled cfg k topicName (Some existing))
          by (eexists _, _; eauto).
        apply (Hstay (Done None)); [|left; reflexivity|reflexivity|intros _; exact Hset].
        apply ensureTopicNamed_settled. rewrite Hex. exact Hset.
      * apply (Hwrite UpdateVerb (updatedTopicOf cfg k topicName existing es)).
        -- intros Hv; discriminate Hv.
        -- unfold ObjectKeyFromObject.
           cbn [meta_of KafkaTopic_stored TopicMeta updatedTopicOf].
           apply mergeObjectMeta_key; [|reflexivity]. apply (Hwf _ existing Hex).
        -- apply topicSettled_updated.
        -- intros (e' & es' & Heq & Hes' & Hdd'). injection Heq as <-.
           rewrite Hes in Hes'. injection Hes' as <-. rewrite Hdd in Hdd'.
           discriminate Hdd'.
        -- eapply ensureTopicNamed_drifted; eauto.
      * apply (Hstay Panic); [eapply ensureTopicNamed_panics; eauto|right; reflexivity|
                              |intros Hr; discriminate Hr].
        intros Hset. destruct (Hset existing eq_refl) as (spec & Hspec & Hc & Hp).
        rewrite Hes in Hspec. injection Hspec as <-.
        destruct (returns_KafkaTopicSpec cfg k topicName existing es Hes Hc Hp) as [b Hb].
        rewrite Hdd in Hb. discriminate Hb.
    + apply (Hstay Panic); [eapply ensureTopicNamed_no_spec; eauto|right; reflexivity|
                            |intros Hr; discriminate Hr].
      intros Hset. destruct (Hset existing eq_refl) as (spec & Hspec & _).
      rewrite Hes in Hspec. discriminate Hspec.
  - apply (Hwrite CreateVerb (newKafkaTopic cfg k topicName)).
    + intros Hv; discriminate Hv.
    + reflexivity.
    + apply topicSettled_created.
    + intros (e' & es' & Heq & _). discriminate Heq.
    + apply ensureTopicNamed_absent. exact Hex.
Qed.

(** X15. Whatever its outcome, EnsureTopic touches nothing but the
    tenant's spec and status topic: every other topic, and the users, Kafka
    clusters, subscriptions and hubs are as before, and at most two write
    requests are sent, Creates or Updates of these two topics. When the two
    topics, if stored, have a spec with config and partitions, EnsureTopic
    returns the pair of topic names without error; and whenever it returns
    without error both topics are stored with one partition and the policy
    "compact" under "cleanup.policy" in their config. *)
Theorem X15_ensure_topic_frame cfg k clusterName c :
  wf_table (A:=KafkaTopic) c ->
  exists r c1 sent,
    EnsureTopic cfg k clusterName c = (r, c1)
    /\ (topicsAreSet k [GetSpecTopic cfg; GetStatusTopic cfg clusterName] c ->
        r = Done (Some {| SpecTopic := GetSpecTopic cfg;
                          StatusTopic := GetStatusTopic cfg clusterName |}, None))
    /\ (forall names, r = Done (names, None) ->
        topicCompacted (kafkaTopics c1 !! topicKey k (GetSpecTopic cfg))
        /\ topicCompacted (kafkaTopics c1 !! topicKey k (GetStatusTopic cfg clusterName)))
    /\ (forall key, key <> topicKey k (GetSpecTopic cfg) ->
                    key <> topicKey k (GetStatusTopic cfg clusterName) ->
                    kafkaTopics c1 !! key = kafkaTopics c !! key)
    /\ kafkaUsers c1 = kafkaUsers c /\ kafkas c1 = kafkas c
    /\ subscriptions c1 = subscriptions c /\ mghs c1 = mghs c
    /\ writes c1 = (writes c ++ sent)%list
    /\ sentOnly 2 KafkaTopicKind
         [topicKey k (GetSpecTopic cfg); topicKey k (GetStatusTopic cfg clusterName)] sent.
Proof.
  intros Hwf.
  set (specTopic := GetSpecTopic cfg). set (statusTopic := GetStatusTopic cfg clusterName).
  destruct (ensureTopicNamed_step cfg k specTopic c Hwf)
    as (ra & ca & senta & Hruna & Hra & Hreturnsa & Hseta & Hkeepa & Hwfa & Hframea
        & Hua & Hka & Hsa & Hma & Hwa & Hsenta).
  destruct Hra as [->| ->].
  - destruct (ensureTopicNamed_step cfg k statusTopic ca Hwfa)
      as (rb & cb & sentb & Hrunb & Hrb & Hreturnsb & Hsetb & Hkeepb & Hwfb & Hframeb
          & Hub & Hkb & Hsb & Hmb & Hwb & Hsentb).
    exists (match rb with
            | Done _ => Done (Some (getClusterTopic cfg k clusterName), None)
            | Panic => Panic
            end), cb, (senta ++ sentb)%list.
    split.
    { apply EnsureTopic_loop; [|exact Hrb]. fold specTopic statusTopic.
      cbn [ensureTopics]. rewrite (bind_Done _ _ _ _ _ Hruna).
      destruct Hrb as [->| ->].
      - rewrite (bind_Done _ _ _ _ _ Hrunb). reflexivity.
      - rewrite (bind_Panic _ _ _ _ Hrunb). reflexivity. }
    split.
    { intros Hall. rewrite Hreturnsb; [reflexivity|]. intros existing Hex.
      destruct (decide (statusTopic = specTopic)) as [Heq|Hne].
      - rewrite Heq in Hex. eapply topicSettled_set; [apply Hseta; reflexivity|exact Hex].
      - rewrite Hframea in Hex by (intros Hk; apply Hne, (topicKey_inj k), Hk).
        apply (Hall statusTopic existing); [right; left|exact Hex]. }
    split.
    { intros names Hr. destruct Hrb as [->| ->]; [|discriminate Hr]. split.
      - eapply topicSettled_compacted, Hkeepb, Hseta. reflexivity.
      - eapply topicSettled_compacted, Hsetb. reflexivity. }
    split; [intros key Hne1 Hne2; rewrite Hframeb, Hframea by assumption; reflexivity|].
    split; [congruence|]. split; [congruence|]. split; [congruence|]. split; [congruence|].
    split; [rewrite Hwb, Hwa; symmetry; apply app_assoc|].
    change 2 with (1 + 1). apply sentOnly_app.
    + eapply sentOnly_keys; [exact Hsenta|left].
    + eapply sentOnly_keys; [exact Hsentb|right; left].
  - exists Panic, ca, senta. split.
    { apply (EnsureTopic_loop cfg k clusterName c Panic ca); [|right; reflexivity].
      fold specTopic statusTopic. cbn [ensureTopics].
      rewrite (bind_Panic _ _ _ _ Hruna). reflexivity. }
    split.
    { intros Hall. assert (Hr : @Panic (option error) = Done None); [|discriminate Hr].
      apply Hreturnsa. intros existing Hex.
      apply (Hall specTopic existing); [left|exact Hex]. }
    split; [intros names Hr; discriminate Hr|].
    split; [intros key Hne1 Hne2; apply Hframea; assumption|].
    repeat (split; [assumption|]).
    destruct Hsenta as [Hn Hs]. split; [lia|].
    eapply Forall_impl; [exact Hs|]. intros req (Hkind & Hkey & Hverb).
    apply list_elem_of_singleton in Hkey. rewrite Hkey.
    split; [exact Hkind|]. split; [left|exact Hverb].
Qed.

Lemma X15_ensure_topic_frame_witness :
  exists c1 sent,
    EnsureTopic exampleConfig exampleTransporter "cluster-a" tenantCluster
    = (Done (Some {| SpecTopic := GetSpecTopic exampleConfig;
                     StatusTopic := GetStatusTopic exampleConfig "cluster-a" |}, None), c1)
    /\ topicCompacted (kafkaTopics c1 !! topicKey exampleTransporter (GetSpecTopic exampleConfig))
    /\ topicCompacted
         (kafkaTopics c1 !! topicKey exampleTransporter (GetStatusTopic exampleConfig "cluster-a"))
    /\ (forall key, key <> topicKey exampleTransporter (GetSpecTopic exampleConfig) ->
                    key <> topicKey exampleTransporter
                             (GetStatusTopic exampleConfig "cluster-a") ->
                    kafkaTopics c1 !! key = kafkaTopics tenantCluster !! key)
    /\ kafkaUsers c1 = kafkaUsers tenantCluster /\ kafkas c1 = kafkas tenantCluster
    /\ subscriptions c1 = subscriptions tenantCluster /\ mghs c1 = mghs tenantCluster
    /\ writes c1 = (writes tenantCluster ++ sent)%list
    /\ sentOnly 2 KafkaTopicKind
         [topicKey exampleTransporter (GetSpecTopic exampleConfig);
          topicKey exampleTransporter (GetStatusTopic exampleConfig "cluster-a")] sent.
Proof.
  destruct (X15_ensure_topic_frame exampleConfig exampleTransporter "cluster-a" tenantCluster
              wf_tenantCluster_topics)
    as (r & c1 & sent & Hrun & Hreturns & Hstored & Hframe).
  pose proof (Hreturns (tenantCluster_topicsAreSet _)) as Hr.
  destruct (Hstored _ Hr) as [Hspec Hstatus]. subst r.
  exists c1, sent. split; [exact Hrun|]. split; [exact Hspec|].
  split; [exact Hstatus|exact Hframe].
Defined.

(** X16. EnsureTopic copies the replicas of the stored topic without a nil
    check: when the spec topic is in the store without spec, it panics
    before anything is written. *)
Theorem X16_topic_without_spec_panics cfg k clusterName c existing :
  kafkaTopics c !! topicKey k (GetSpecTopic cfg) = Some existing ->
  TopicSpec existing = None ->
  EnsureTopic cfg k clusterName c = (Panic, c).
Proof.
  intros Hex Hnil. unfold EnsureTopic, getClusterTopic. cbn [SpecTopic StatusTopic ensureTopics].
  unfold bind at 1. unfold bind at 1.
  rewrite (ensureTopicNamed_no_spec cfg k _ c existing Hex Hnil). reflexivity.
Qed.

Lemma X16_topic_without_spec_panics_witness :
  EnsureTopic exampleConfig exampleTransporter "cluster-a" (clusterWithTopic bareTopic)
  = (Panic, clusterWithTopic bareTopic).
Proof.
  apply (X16_topic_without_spec_panics exampleConfig exampleTransporter "cluster-a"
           (clusterWithTopic bareTopic) bareTopic).
  - vm_compute. reflexivity.
  - reflexivity.
Defined.
#[local] Set Warnings "-clear-no-such-hyp".

(** * Properties of the helpers of operator/pkg/utils *)

Lemma Remove_foldl (items : list string) (s : string) : forall result,
  foldl (fun result v => if decide (v <> s) then (result ++ [v])%list else result) result items
  = (result ++ filter (fun v => v <> s) items)%list.
Proof.
  induction items as [|v rest IH]; intros result.
  - cbn [foldl]. rewrite filter_nil, app_nil_r. reflexivity.
  - cbn [foldl]. rewrite IH. destruct (decide (v <> s)) as [Hne|Heq].
    + rewrite filter_cons_True by exact Hne. rewrite <- app_assoc. reflexivity.
    + rewrite filter_cons_False by exact Heq. reflexivity.
Qed.

Lemma Remove_filter (items : list string) (s : string) :
  Remove items s = filter (fun v => v <> s) items.
Proof. unfold Remove. rewrite Remove_foldl. reflexivity. Qed.

Lemma Contains_elem_of (items : list string) (s : string) :
  Contains items s = true <-> s ∈ items.
Proof.
  induction items as [|v rest IH]; cbn [Contains].
  - split; [discriminate|]. intros Hin. inversion Hin.
  - destruct (decide (v = s)) as [->|Hne].
    + split; [intros _; left|reflexivity].
    + rewrite IH. split; [intros Hin; right; exact Hin|].
      intros Hin. apply elem_of_cons in Hin as [Heq|Hin]; [congruence|exact Hin].
Qed.

Lemma Contains_false (items : list string) (s : string) :
  Contains items s = false <-> s ∉ items.
Proof.
  rewrite <- Contains_elem_of. destruct (Contains items s).
  - split; [discriminate|]. intros Hn. destruct Hn. reflexivity.
  - split; [intros _; discriminate|reflexivity].
Qed.

(** X17. Remove and Contains. After Remove the string is no longer
    contained, every other string is contained exactly if it was before, and
    the strings that stay keep their order; a list that does not contain the
    string comes back as it is, so removing twice is removing once. *)
Theorem X17_remove_then_contains (items : list string) (s : string) :
  Contains (Remove items s) s = false
  /\ (forall t, t <> s -> Contains (Remove items s) t = Contains items t)
  /\ sublist (Remove items s) items
  /\ (Contains items s = false -> Remove items s = items)
  /\ Remove (Remove items s) s = Remove items s.
Proof.
  assert (Hkeep : forall l, Contains l s = false -> Remove l s = l).
  { intros l Habs. apply Contains_false in Habs. rewrite Remove_filter.
    induction l as [|v rest IH]; [reflexivity|].
    apply not_elem_of_cons in Habs as [Hne Hrest].
    rewrite filter_cons_True by congruence. rewrite IH by exact Hrest. reflexivity. }
  assert (Hgone : Contains (Remove items s) s = false).
  { apply Contains_false. rewrite Remove_filter. intros Hin.
    apply list_elem_of_filter in Hin as [Hne _]. congruence. }
  split; [exact Hgone|]. split; [|split; [|split]].
  - intros t Hne. rewrite Remove_filter.
    destruct (Contains items t) eqn:Hc.
    + apply Contains_elem_of. apply list_elem_of_filter. split; [exact Hne|].
      apply Contains_elem_of. exact Hc.
    + apply Contains_false. apply Contains_false in Hc. intros Hin.
      apply list_elem_of_filter in Hin as [_ Hin]. contradiction.
  - rewrite Remove_filter. apply sublist_filter.
  - apply Hkeep.
  - apply Hkeep. exact Hgone.
Qed.

Lemma RemoveDuplicates_foldl (elements : list string) : forall encountered result,
  foldl (fun (state : gset string * list string) (v : string) =>
           let '(encountered, result) := state in
           if decide (v ∈ encountered) then state
           else ({[v]} ∪ encountered, (result ++ [v])%list))
    (encountered, result) elements
  = (list_to_set elements ∪ encountered,
     (result ++ firstOccurrences encountered elements)%list).
Proof.
  induction elements as [|v rest IH]; intros encountered result.
  - cbn [foldl list_to_set firstOccurrences]. rewrite app_nil_r.
    f_equal. set_solver.
  - cbn [foldl list_to_set firstOccurrences].
    destruct (decide (v ∈ encountered)) as [Hin|Hout].
    + rewrite IH. f_equal. set_solver.
    + rewrite IH. rewrite <- app_assoc. f_equal. set_solver.
Qed.

Lemma RemoveDuplicates_firstOccurrences elements :
  RemoveDuplicates elements = firstOccurrences ∅ elements.
Proof. unfold RemoveDuplicates. rewrite RemoveDuplicates_foldl. reflexivity. Qed.

Lemma firstOccurrences_elem_of elements : forall encountered x,
  x ∈ firstOccurrences encountered elements <-> x ∈ elements /\ x ∉ encountered.
Proof.
  induction elements as [|v rest IH]; intros encountered x; cbn [firstOccurrences].
  - split; [intros Hin; inversion Hin|intros [Hin _]; inversion Hin].
  - destruct (decide (v ∈ encountered)) as [Hin|Hout].
    + rewrite IH. rewrite elem_of_cons. split; [tauto|].
      intros [[->|Hr] Hx]; [contradiction|tauto].
    + rewrite !elem_of_cons, IH. split.
      * intros [->|[Hr Hx]]; [tauto|]. split; [tauto|]. set_solver.
      * intros [[->|Hr] Hx]; [tauto|].
        destruct (decide (x = v)) as [->|Hne]; [tauto|]. right. split; [exact Hr|].
        set_solver.
Qed.

Lemma firstOccurrences_NoDup elements : forall encountered,
  NoDup (firstOccurrences encountered elements).
Proof.
  induction elements as [|v rest IH]; intros encountered; cbn [firstOccurrences].
  - constructor.
  - destruct (decide (v ∈ encountered)); [apply IH|].
    constructor; [|apply IH]. rewrite firstOccurrences_elem_of. set_solver.
Qed.

Lemma firstOccurrences_sublist elements : forall encountered,
  sublist (firstOccurrences encountered elements) elements.
Proof.
  induction elements as [|v rest IH]; intros encountered; cbn [firstOccurrences].
  - constructor.
  - destruct (decide (v ∈ encountered)).
    + apply sublist_cons, IH.
    + apply sublist_skip, IH.
Qed.

Lemma firstOccurrences_NoDup_id elements : forall encountered,
  NoDup elements -> (forall x, x ∈ elements -> x ∉ encountered) ->
  firstOccurrences encountered elements = elements.
Proof.
  induction elements as [|v rest IH]; intros encountered Hnd Hdisj; [reflexivity|].
  cbn [firstOccurrences]. apply NoDup_cons in Hnd as [Hv Hnd].
  destruct (decide (v ∈ encountered)) as [Hin|_].
  - destruct (Hdisj v); [left|exact Hin].
  - f_equal. apply IH; [exact Hnd|]. intros x Hx.
    assert (x <> v) by (intros ->; contradiction).
    specialize (Hdisj x ltac:(right; exact Hx)). set_solver.
Qed.

(** X18. RemoveDuplicates returns a list without duplicates that has
    exactly the members of its argument, in the order of their first
    occurrences; a list without duplicates comes back unchanged, so the
    function is idempotent. *)
Theorem X18_remove_duplicates elements :
  NoDup (RemoveDuplicates elements)
  /\ (forall x, x ∈ RemoveDuplicates elements <-> x ∈ elements)
  /\ sublist (RemoveDuplicates elements) elements
  /\ head (RemoveDuplicates elements) = head elements
  /\ (NoDup elements -> RemoveDuplicates elements = elements)
  /\ RemoveDuplicates (RemoveDuplicates elements) = RemoveDuplicates elements.
Proof.
  rewrite !RemoveDuplicates_firstOccurrences.
  split; [apply firstOccurrences_NoDup|].
  split; [intros x; rewrite firstOccurrences_elem_of; set_solver|].
  split; [apply firstOccurrences_sublist|].
  split; [destruct elements as [|v rest]; [reflexivity|];
          cbn [firstOccurrences]; destruct (decide (v ∈ ∅)); [set_solver|reflexivity]|].
  split; [intros Hnd; apply firstOccurrences_NoDup_id; [exact Hnd|set_solver]|].
  apply firstOccurrences_NoDup_id; [apply firstOccurrences_NoDup|set_solver].
Qed.

Lemma CopyMap_fold (originalMap : gmap string string) : forall newMap,
  map_fold (fun key value newMap => <[key := value]> newMap) newMap originalMap
  = originalMap ∪ newMap.
Proof.
  induction originalMap as [|key value m Hkey IH] using map_ind; intros newMap.
  - rewrite map_fold_empty, (left_id_L ∅ (∪)). reflexivity.
  - rewrite map_fold_insert_L; [|intros; apply insert_insert_ne; congruence|exact Hkey].
    rewrite IH. apply insert_union_l.
Qed.

(** X19. CopyMap leaves in the new map every entry of the original map,
    with the original's value where both have the key, and the new map's own
    entries under the other keys - whatever the order in which the original
    is ranged over. Copying from a nil or empty map changes nothing, also for
    a nil new map; copying an entry into a nil map panics. *)
Theorem X19_copy_map (newMap originalMap : gmap string string) :
  CopyMap (Some newMap) (Some originalMap) = Done (Some (originalMap ∪ newMap))
  /\ (forall key,
        (originalMap ∪ newMap) !! key
        = match originalMap !! key with
          | Some value => Some value
          | None => newMap !! key
          end)
  /\ CopyMap (Some newMap) None = Done (Some newMap)
  /\ CopyMap None None = Done None
  /\ CopyMap None (Some ∅) = Done None
  /\ (originalMap <> ∅ -> CopyMap None (Some originalMap) = Panic).
Proof.
  split; [|split; [|split; [|split; [|split]]]].
  - unfold CopyMap. cbn [default from_option id].
    destruct (decide (originalMap = ∅)) as [->|Hne].
    + rewrite (left_id_L ∅ (∪)). reflexivity.
    + rewrite CopyMap_fold. reflexivity.
  - intros key. rewrite lookup_union. destruct (originalMap !! key), (newMap !! key); reflexivity.
  - reflexivity.
  - reflexivity.
  - reflexivity.
  - intros Hne. unfold CopyMap. cbn [default from_option id].
    destruct (decide (originalMap = ∅)); [contradiction|reflexivity].
Qed.

Section AlertProofs.

Context (yaml_Unmarshal : string -> result (gmap string json)).

Lemma alertCount_insert key key' v (o1 : gmap string json) :
  alertCount key (<[key' := v]> o1)
  = if decide (key = key') then arrayLength v else alertCount key o1.
Proof.
  unfold alertCount. destruct (decide (key = key')) as [->|Hne].
  - rewrite lookup_insert_eq. reflexivity.
  - rewrite lookup_insert_ne by congruence. reflexivity.
Qed.

Lemma GetAlertGPCcount_parsed a o1 :
  a <> "" ->
  yaml_Unmarshal a = Found o1 ->
  GetAlertGPCcount yaml_Unmarshal a
  = (alertCount "groups" o1, alertCount "policies" o1, alertCount "contactPoints" o1, None).
Proof.
  intros Ha Hparse. unfold GetAlertGPCcount.
  destruct (decide (String.length a = 0)) as [Hlen|_].
  { destruct a; [contradiction|discriminate Hlen]. }
  rewrite Hparse.
  assert (Hfold : map_fold countEntry (0, 0, 0) o1
                  = (alertCount "groups" o1, alertCount "policies" o1,
                     alertCount "contactPoints" o1)).
  { apply (map_fold_weak_ind
             (fun r (m : gmap string json) =>
                r = (alertCount "groups" m, alertCount "policies" m,
                     alertCount "contactPoints" m))).
    - reflexivity.
    - intros k v m r Hk ->. rewrite !alertCount_insert. unfold countEntry.
      destruct (decide ("groups" = k)) as [<-|Hg]; [reflexivity|].
      destruct (decide ("policies" = k)) as [<-|Hp]; [reflexivity|].
      destruct (decide ("contactPoints" = k)) as [<-|Hc]; [reflexivity|].
      rewrite !bool_decide_eq_false_2 by congruence. reflexivity. }
  rewrite Hfold. reflexivity.
Qed.

End AlertProofs.

Lemma GetAlertGPCcount_counts yaml_Unmarshal a o1 :
  parsedAlert yaml_Unmarshal a = Some o1 ->
  GetAlertGPCcount yaml_Unmarshal a
  = (alertCount "groups" o1, alertCount "policies" o1, alertCount "contactPoints" o1, None).
Proof.
  unfold parsedAlert. destruct (decide (a = "")) as [->|Hne].
  - intros [= <-]. reflexivity.
  - destruct (yaml_Unmarshal a) as [o|err] eqn:Hparse; [|discriminate].
    intros [= <-]. apply GetAlertGPCcount_parsed; assumption.
Qed.

(** X20. IsAlertGPCcountEqual compares two alert documents by three numbers
    only: it answers true exactly when they have as many groups, policies
    and contact points, whatever these contain. A key that is missing or
    holds no sequence counts as 0, and so does empty input, which is not
    parsed at all. *)
Theorem X20_alerts_compared_by_count yaml_Unmarshal a b oa ob :
  parsedAlert yaml_Unmarshal a = Some oa ->
  parsedAlert yaml_Unmarshal b = Some ob ->
  IsAlertGPCcountEqual yaml_Unmarshal a b
  = (bool_decide (alertCount "groups" oa = alertCount "groups" ob
                  /\ alertCount "policies" oa = alertCount "policies" ob
                  /\ alertCount "contactPoints" oa = alertCount "contactPoints" ob), None).
Proof.
  intros Ha Hb. unfold IsAlertGPCcountEqual.
  rewrite (GetAlertGPCcount_counts _ _ _ Ha), (GetAlertGPCcount_counts _ _ _ Hb).
  destruct (decide (alertCount "groups" oa = alertCount "groups" ob)) as [Hg|Hg];
    destruct (decide (alertCount "policies" oa = alertCount "policies" ob)) as [Hp|Hp];
    destruct (decide (alertCount "contactPoints" oa = alertCount "contactPoints" ob))
      as [Hc|Hc];
    repeat first [rewrite (bool_decide_eq_true_2 _ Hg) | rewrite (bool_decide_eq_false_2 _ Hg)
                 | rewrite (bool_decide_eq_true_2 _ Hp) | rewrite (bool_decide_eq_false_2 _ Hp)
                 | rewrite (bool_decide_eq_true_2 _ Hc) | rewrite (bool_decide_eq_false_2 _ Hc)];
    cbn [andb];
    first [rewrite bool_decide_eq_true_2 by tauto | rewrite bool_decide_eq_false_2 by tauto];
    reflexivity.
Qed.

Lemma X20_alerts_compared_by_count_witness :
  IsAlertGPCcountEqual exampleYaml "groups: [cpu, memory]"
    "{groups: [disk, network], policies: none}" = (true, None).
Proof.
  exact (X20_alerts_compared_by_count exampleYaml "groups: [cpu, memory]"
           "{groups: [disk, network], policies: none}"
           {["groups" := JArr [JStr "cpu"; JStr "memory"]]}
           {["groups" := JArr [JStr "disk"; JStr "network"]; "policies" := JStr "none"]}
           eq_refl eq_refl).
Defined.

(** * The managed clusters *)

Lemma UpdateCluster_at obj fleet before cluster after :
  managedClusters fleet = (before ++ cluster :: after)%list ->
  NoDup (ClusterName <$> managedClusters fleet) ->
  ClusterName obj = ClusterName cluster ->
  UpdateCluster obj fleet
  = (None, {| managedClusters := (before ++ obj :: after)%list;
              updates := (updates fleet ++ [obj])%list |}).
Proof.
  intros Hstore Hnd Hname. unfold UpdateCluster.
  destruct (decide _) as [_|Hout].
  2:{ destruct Hout. rewrite Hstore, fmap_app, fmap_cons, Hname. set_solver. }
  f_equal. f_equal. rewrite Hstore in Hnd |- *.
  rewrite fmap_app, fmap_cons in Hnd.
  apply NoDup_app in Hnd as (_ & Hbefore & Hnd). apply NoDup_cons in Hnd as [Hafter _].
  rewrite fmap_app, fmap_cons.
  rewrite decide_True by (symmetry; exact Hname). f_equal; [|f_equal].
  - rewrite <- (list_fmap_id before) at 2. apply list_fmap_ext.
    intros i stored Hi. cbn [id]. rewrite decide_False; [reflexivity|].
    intros Heq. apply (Hbefore (ClusterName stored)).
    + apply list_elem_of_fmap. exists stored. split; [reflexivity|].
      eapply list_elem_of_lookup_2; eauto.
    + rewrite Heq, Hname. left.
  - rewrite <- (list_fmap_id after) at 2. apply list_fmap_ext.
    intros i stored Hi. cbn [id]. rewrite decide_False; [reflexivity|].
    intros Heq. apply Hafter. rewrite <- Hname, <- Heq.
    apply list_elem_of_fmap. exists stored. split; [reflexivity|].
    eapply list_elem_of_lookup_2; eauto.
Qed.

Lemma itemOf_heap heap heap' item cluster :
  itemOf heap item cluster ->
  (forall r, Annotations item = Some r -> heap' !! r = heap !! r) ->
  itemOf heap' item cluster.
Proof.
  intros (Hn & Hl & Hf & Ha) Hsame. repeat split; try assumption.
  destruct (Annotations item) as [r|]; [|exact Ha].
  destruct (Annotations cluster); [|exact Ha]. rewrite (Hsame r eq_refl). exact Ha.
Qed.

Lemma itemOf_valid heap item cluster r :
  itemOf heap item cluster -> Annotations item = Some r -> r < length heap.
Proof.
  intros (_ & _ & _ & Ha) Hr. rewrite Hr in Ha.
  destruct (Annotations cluster); [|contradiction].
  apply lookup_lt_Some in Ha. exact Ha.
Qed.

Lemma decodeItems_listed stored : forall heap,
  exists items ext,
    decodeItems stored heap = (items, (heap ++ ext)%list)
    /\ Forall2 (itemOf (heap ++ ext)%list) items stored
    /\ NoDup (omap Annotations items)
    /\ (forall r, r ∈ omap Annotations items -> length heap <= r).
Proof.
  induction stored as [|cluster rest IH]; intros heap.
  - exists [], []. rewrite app_nil_r. split; [reflexivity|].
    split; [constructor|]. split; [constructor|]. intros r Hr. inversion Hr.
  - cbn [decodeItems]. destruct (Annotations cluster) as [annotations|] eqn:Hann.
    + cbn [alloc]. destruct (IH (heap ++ [annotations])%list)
        as (items & ext & Hrun & Hitems & Hnd & Hge).
      rewrite Hrun. exists (withAnnotations (Some (length heap)) cluster :: items),
        (annotations :: ext).
      rewrite <- app_assoc in Hrun, Hitems. cbn [app] in Hrun, Hitems.
      rewrite <- app_assoc. cbn [app]. split; [reflexivity|].
      split; [|split].
      * constructor; [|exact Hitems].
        unfold itemOf. cbn [withAnnotations Annotations ClusterName ClusterLabels Finalizers].
        rewrite Hann. repeat (split; [reflexivity|]).
        rewrite lookup_app_r by lia. replace (length heap - length heap) with 0 by lia.
        reflexivity.
      * cbn [omap withAnnotations Annotations]. constructor; [|exact Hnd].
        intros Hin. apply Hge in Hin. rewrite length_app in Hin. cbn [length] in Hin. lia.
      * cbn [omap withAnnotations Annotations]. intros r Hr.
        apply elem_of_cons in Hr as [->|Hr]; [lia|].
        apply Hge in Hr. rewrite length_app in Hr. lia.
    + destruct (IH heap) as (items & ext & Hrun & Hitems & Hnd & Hge).
      rewrite Hrun. exists (withAnnotations None cluster :: items), ext.
      split; [reflexivity|]. split; [|split].
      * constructor; [|exact Hitems].
        unfold itemOf. cbn [withAnnotations Annotations ClusterName ClusterLabels Finalizers].
        rewrite Hann. repeat (split; [reflexivity|]). exact I.
      * cbn [omap withAnnotations Annotations]. exact Hnd.
      * cbn [omap withAnnotations Annotations]. exact Hge.
Qed.

Lemma withAnnotations_stored (cluster : ManagedCluster) :
  withAnnotations (Annotations cluster) cluster = cluster.
Proof. destruct cluster; reflexivity. Qed.

Lemma encodeItem_itemOf heap item cluster :
  itemOf heap item cluster ->
  encodeItem item heap = withAnnotations (load (Annotations item) heap) cluster.
Proof.
  intros (Hn & Hl & Hf & _). unfold encodeItem, withAnnotations.
  rewrite Hn, Hl, Hf. reflexivity.
Qed.

Lemma annotationsSet_nonempty constants annotations :
  annotationsSet constants annotations <> ∅.
Proof. unfold annotationsSet. apply insert_non_empty. Qed.

Lemma CopyMap_union (newMap originalMap : gmap string string) :
  CopyMap (Some newMap) (Some originalMap) = Done (Some (originalMap ∪ newMap)).
Proof.
  unfold CopyMap. cbn [default from_option id].
  destruct (decide (originalMap = ∅)) as [->|Hne].
  - rewrite (left_id_L ∅ (∪)). reflexivity.
  - rewrite CopyMap_fold. reflexivity.
Qed.

Lemma assign_lookup_eq r key value (heap : list (gmap string string)) :
  assign r key value heap !! r = insert key value <$> heap !! r.
Proof. unfold assign. apply list_lookup_alter_eq. Qed.

Lemma assign_lookup_ne r r' key value (heap : list (gmap string string)) :
  r <> r' -> assign r key value heap !! r' = heap !! r'.
Proof. intros Hne. unfold assign. apply list_lookup_alter_ne. exact Hne. Qed.

Lemma listed_heap (heap heap' : list (gmap string string)) items stored :
  Forall2 (itemOf heap) items stored ->
  (forall r, r ∈ omap Annotations items -> heap' !! r = heap !! r) ->
  Forall2 (itemOf heap') items stored.
Proof.
  induction 1 as [|item cluster items stored Hitem _ IH]; intros Hsame; [constructor|].
  constructor.
  - apply (itemOf_heap heap); [exact Hitem|]. intros r Hr. apply Hsame.
    cbn [omap list_omap]. rewrite Hr. left.
  - apply IH. intros r Hr. apply Hsame. cbn [omap list_omap].
    destruct (Annotations item); [right|]; exact Hr.
Qed.

Lemma listed_valid (heap : list (gmap string string)) items stored r :
  Forall2 (itemOf heap) items stored -> r ∈ omap Annotations items -> r < length heap.
Proof.
  induction 1 as [|item cluster items stored Hitem _ IH]; intros Hr; [inversion Hr|].
  cbn [omap list_omap] in Hr. destruct (Annotations item) as [r'|] eqn:Hann; [|auto].
  apply elem_of_cons in Hr as [->|Hr]; [|auto]. eapply itemOf_valid; eauto.
Qed.

Section AnnotateProofs.

Context (constants : PkgConstants).

Lemma annotateItems_listed stored : forall items heap fleet before,
  Forall2 (itemOf heap) items stored ->
  NoDup (omap Annotations items) ->
  managedClusters fleet = (before ++ stored)%list ->
  NoDup (ClusterName <$> managedClusters fleet) ->
  annotateItems constants items heap fleet
  = (Done None,
     {| managedClusters :=
          (before ++ ((fun cluster => default cluster (annotateUpdate constants cluster))
                        <$> stored))%list;
        updates := (updates fleet ++ omap (annotateUpdate constants) stored)%list |}).
Proof.
  induction stored as [|cluster rest IH]; intros items heap fleet before Hitems Hrefs Hstore Hnd.
  - apply Forall2_nil_inv_r in Hitems as ->. cbn [annotateItems fmap list_fmap omap list_omap].
    rewrite !app_nil_r. rewrite app_nil_r in Hstore. rewrite <- Hstore.
    destruct fleet; reflexivity.
  - apply Forall2_cons_inv_r in Hitems as (item & items' & Hitem & Hitems & ->).
    cbn [annotateItems].
    assert (Hname : ClusterName item = ClusterName cluster) by apply Hitem.
    assert (Hnext : forall fleet' obj heap',
               managedClusters fleet' = ((before ++ [obj]) ++ rest)%list ->
               ClusterName obj = ClusterName cluster ->
               Forall2 (itemOf heap') items' rest ->
               annotateItems constants items' heap' fleet'
               = (Done None,
                  {| managedClusters :=
                       ((before ++ [obj])
                        ++ ((fun cluster => default cluster (annotateUpdate constants cluster))
                              <$> rest))%list;
                     updates := (updates fleet' ++ omap (annotateUpdate constants) rest)%list |})).
    { intros fleet' obj heap' Hstore' Hobj Hitems'.
      apply IH; [exact Hitems'| |exact Hstore'|].
      - cbn [omap list_omap] in Hrefs. destruct (Annotations item); [|exact Hrefs].
        apply NoDup_cons in Hrefs as [_ Hrefs]. exact Hrefs.
      - rewrite Hstore', !fmap_app, fmap_cons, Hobj, <- app_assoc.
        rewrite Hstore, fmap_app, fmap_cons in Hnd. exact Hnd. }
    rewrite fmap_cons. change (omap (annotateUpdate constants) (cluster :: rest))
      with (match annotateUpdate constants cluster with
            | Some obj => obj :: omap (annotateUpdate constants) rest
            | None => omap (annotateUpdate constants) rest
            end).
    destruct (decide (ClusterName item = LocalClusterName constants)) as [Hlocal|Hhub].
    { assert (Hu : annotateUpdate constants cluster = None).
      { unfold annotateUpdate. rewrite <- Hname, decide_True by exact Hlocal. reflexivity. }
      rewrite Hu. cbn [default from_option id].
      rewrite (Hnext fleet cluster heap); [|rewrite Hstore, <- app_assoc; reflexivity
                                           |reflexivity|exact Hitems].
      rewrite <- app_assoc. reflexivity. }
    destruct Hitem as (_ & Hl & Hf & Ha).
    destruct (Annotations item) as [r|] eqn:Hitemann;
      destruct (Annotations cluster) as [annotations|] eqn:Hann; try contradiction.
    + (* the item and its copy share the map of the annotations *)
      assert (Hr : r < length heap) by (apply lookup_lt_Some in Ha; exact Ha).
      cbn [alloc]. unfold CopyMapAt. cbn [load mbind option_bind].
      rewrite lookup_app_r by lia. replace (length heap - length heap) with 0 by lia.
      cbn [lookup list_lookup]. rewrite lookup_app_l by exact Hr. rewrite Ha.
      rewrite CopyMap_union, (right_id_L ∅ (∪)).
      set (heap4 := assign r (AnnotationPolicyONMulticlusterHub constants) "true"
                      (assign r (AnnotationONMulticlusterHub constants) "true"
                         (<[length heap := annotations]> (heap ++ [∅])%list))).
      assert (H4r : heap4 !! r = Some (annotationsSet constants annotations)).
      { subst heap4. rewrite !assign_lookup_eq, list_lookup_insert_ne by lia.
        rewrite lookup_app_l by exact Hr. rewrite Ha. reflexivity. }
      assert (H4len : heap4 !! length heap = Some annotations).
      { subst heap4. rewrite !assign_lookup_ne by lia.
        apply list_lookup_insert_eq. rewrite length_app. cbn [length]. lia. }
      assert (H4rest : Forall2 (itemOf heap4) items' rest).
      { apply (listed_heap heap); [exact Hitems|]. intros r' Hr'.
        assert (r' <> r).
        { intros ->. cbn [omap list_omap] in Hrefs. rewrite Hitemann in Hrefs.
          apply NoDup_cons in Hrefs as [Hout _]. contradiction. }
        pose proof (listed_valid _ _ _ _ Hitems Hr') as Hlt.
        subst heap4. rewrite !assign_lookup_ne by congruence.
        rewrite list_lookup_insert_ne by lia. apply lookup_app_l. exact Hlt. }
      rewrite H4r, H4len. unfold Semantic_DeepEqual_maps. cbn [default from_option id].
      unfold annotateUpdate. rewrite <- Hname, decide_False by exact Hhub. rewrite Hann.
      destruct (decide (annotations = annotationsSet constants annotations)) as [Heq|Hne].
      * rewrite bool_decide_eq_true_2 by exact Heq. cbn [negb default from_option id].
        rewrite (Hnext fleet cluster heap4); [|rewrite Hstore, <- app_assoc; reflexivity
                                              |reflexivity|exact H4rest].
        rewrite <- app_assoc. reflexivity.
      * rewrite bool_decide_eq_false_2 by exact Hne. cbn [negb default from_option id].
        assert (Hobj : encodeItem item heap4
                       = withAnnotations (Some (annotationsSet constants annotations)) cluster).
        { unfold encodeItem, withAnnotations. rewrite Hitemann. cbn [load mbind option_bind].
          rewrite H4r, Hname, Hl, Hf. reflexivity. }
        rewrite Hobj.
        rewrite (UpdateCluster_at
                   (withAnnotations (Some (annotationsSet constants annotations)) cluster)
                   fleet before cluster rest Hstore Hnd eq_refl).
        rewrite (Hnext _ (withAnnotations (Some (annotationsSet constants annotations)) cluster)
                   heap4); [|cbn [managedClusters]; rewrite <- app_assoc; reflexivity
                            |reflexivity|exact H4rest].
        cbn [updates]. rewrite <- !app_assoc. reflexivity.
    + (* the annotations are set in a map that no object holds *)
      cbn [alloc]. unfold CopyMapAt. cbn [load mbind option_bind].
      rewrite lookup_app_r by (rewrite length_app; cbn [length]; lia).
      replace (length (heap ++ [∅]) - length (heap ++ [∅])) with 0 by lia.
      cbn [lookup list_lookup].
      change (CopyMap (Some ∅) None) with (Done (Some (∅ : gmap string string))).
      cbv beta iota.
      set (heap4 := assign (length heap) (AnnotationPolicyONMulticlusterHub constants) "true"
                      (assign (length heap) (AnnotationONMulticlusterHub constants) "true"
                         (<[length (heap ++ [∅]) := ∅]> ((heap ++ [∅]) ++ [∅])%list))).
      assert (H4r : heap4 !! length heap = Some (annotationsSet constants ∅)).
      { subst heap4. rewrite !assign_lookup_eq, list_lookup_insert_ne
          by (rewrite length_app; cbn [length]; lia).
        rewrite lookup_app_l by (rewrite length_app; cbn [length]; lia).
        rewrite lookup_app_r by lia. replace (length heap - length heap) with 0 by lia.
        reflexivity. }
      assert (H4len : heap4 !! length (heap ++ [∅]) = Some ∅).
      { subst heap4. rewrite !assign_lookup_ne by (rewrite length_app; cbn [length]; lia).
        apply list_lookup_insert_eq. rewrite !length_app. cbn [length]. lia. }
      assert (H4rest : Forall2 (itemOf heap4) items' rest).
      { apply (listed_heap heap); [exact Hitems|]. intros r' Hr'.
        pose proof (listed_valid _ _ _ _ Hitems Hr') as Hlt.
        subst heap4. rewrite !assign_lookup_ne by lia.
        rewrite list_lookup_insert_ne by (rewrite length_app; cbn [length]; lia).
        rewrite lookup_app_l by (rewrite length_app; cbn [length]; lia).
        apply lookup_app_l. exact Hlt. }
      rewrite H4r, H4len. unfold Semantic_DeepEqual_maps. cbn [default from_option id].
      rewrite bool_decide_eq_false_2
        by (intros Heq; symmetry in Heq; revert Heq; apply annotationsSet_nonempty).
      cbn [negb].
      unfold annotateUpdate. rewrite <- Hname, decide_False by exact Hhub. rewrite Hann.
      cbn [default from_option id].
      assert (Hobj : encodeItem item heap4 = cluster).
      { unfold encodeItem. rewrite Hitemann. cbn [load mbind option_bind].
        unfold withAnnotations. rewrite Hname, Hl, Hf, <- Hann.
        destruct cluster; reflexivity. }
      rewrite Hobj.
      rewrite (UpdateCluster_at _ fleet before cluster rest Hstore Hnd eq_refl).
      rewrite (Hnext _ cluster heap4); [|cbn [managedClusters]; rewrite <- app_assoc; reflexivity
                                         |reflexivity|exact H4rest].
      cbn [updates]. rewrite <- !app_assoc. reflexivity.
Qed.

Lemma AnnotateManagedHubCluster_listed fleet :
  NoDup (ClusterName <$> managedClusters fleet) ->
  AnnotateManagedHubCluster constants fleet
  = (Done None,
     {| managedClusters :=
          (fun cluster => default cluster (annotateUpdate constants cluster))
            <$> managedClusters fleet;
        updates := (updates fleet
                    ++ omap (annotateUpdate constants) (managedClusters fleet))%list |}).
Proof.
  intros Hnd. unfold AnnotateManagedHubCluster.
  destruct (decodeItems_listed (managedClusters fleet) [])
    as (items & ext & Hrun & Hitems & Hrefs & _).
  rewrite Hrun. apply (annotateItems_listed _ _ _ _ []); auto.
Qed.

End AnnotateProofs.

Lemma annotateUpdate_name constants cluster obj :
  annotateUpdate constants cluster = Some obj -> ClusterName obj = ClusterName cluster.
Proof.
  unfold annotateUpdate. destruct (decide _); [discriminate|].
  destruct (Annotations cluster) as [annotations|].
  - destruct (decide _); [discriminate|]. intros [= <-]. reflexivity.
  - intros [= <-]. reflexivity.
Qed.

Lemma annotated_name constants (cluster : ManagedCluster) :
  ClusterName (default cluster (annotateUpdate constants cluster)) = ClusterName cluster.
Proof.
  destruct (annotateUpdate constants cluster) as [obj|] eqn:Hu; [|reflexivity].
  apply (annotateUpdate_name _ _ _ Hu).
Qed.

Lemma same_name_eq (stored : list ManagedCluster) cluster cluster' :
  NoDup (ClusterName <$> stored) ->
  cluster ∈ stored -> cluster' ∈ stored ->
  ClusterName cluster = ClusterName cluster' -> cluster = cluster'.
Proof.
  intros Hnd Hin Hin' Hname.
  apply list_elem_of_lookup in Hin as [i Hi]. apply list_elem_of_lookup in Hin' as [j Hj].
  assert (i = j).
  { apply (NoDup_lookup _ i j (ClusterName cluster) Hnd).
    - rewrite list_lookup_fmap, Hi. reflexivity.
    - rewrite list_lookup_fmap, Hj, Hname. reflexivity. }
  subst j. congruence.
Qed.

Lemma annotationsSet_idemp constants annotations :
  annotationsSet constants (annotationsSet constants annotations)
  = annotationsSet constants annotations.
Proof.
  unfold annotationsSet. apply map_eq. intros key.
  destruct (decide (AnnotationPolicyONMulticlusterHub constants = key)) as [<-|Hp].
  { rewrite !lookup_insert_eq. reflexivity. }
  rewrite (lookup_insert_ne _ _ key) by exact Hp.
  destruct (decide (AnnotationONMulticlusterHub constants = key)) as [<-|Ho].
  { rewrite lookup_insert_eq.
    rewrite (lookup_insert_ne _ _ (AnnotationONMulticlusterHub constants)) by exact Hp.
    rewrite lookup_insert_eq. reflexivity. }
  rewrite (lookup_insert_ne _ _ key) by exact Ho. reflexivity.
Qed.

Lemma annotatedTimes_inv constants fleet cluster n :
  NoDup (ClusterName <$> managedClusters fleet) ->
  cluster ∈ managedClusters fleet ->
  ClusterName cluster <> LocalClusterName constants ->
  Annotations cluster = None ->
  NoDup (ClusterName <$> managedClusters (annotatedTimes constants n fleet))
  /\ cluster ∈ managedClusters (annotatedTimes constants n fleet).
Proof.
  intros Hnd Hin Hhub Hnil. induction n as [|n [IHnd IHin]]; [split; assumption|].
  change (annotatedTimes constants (S n) fleet)
    with ((AnnotateManagedHubCluster constants (annotatedTimes constants n fleet)).2).
  rewrite (AnnotateManagedHubCluster_listed constants _ IHnd). cbn [snd managedClusters].
  split.
  - rewrite <- list_fmap_compose.
    erewrite list_fmap_ext; [exact IHnd|]. intros i stored _. apply annotated_name.
  - apply list_elem_of_fmap. exists cluster. split; [|exact IHin].
    unfold annotateUpdate. rewrite decide_False by exact Hhub. rewrite Hnil. reflexivity.
Qed.

(** X21. A managed hub that has no annotations at all is never annotated:
    AnnotateManagedHubCluster sets the two annotations in a map of its own
    and sends the cluster as it was listed. Every call - the first and any
    later one - sends an Update whose object is the unchanged cluster, and
    leaves the cluster in the store without annotations. *)
Theorem X21_hub_without_annotations_stays_bare constants fleet cluster n :
  NoDup (ClusterName <$> managedClusters fleet) ->
  cluster ∈ managedClusters fleet ->
  ClusterName cluster <> LocalClusterName constants ->
  Annotations cluster = None ->
  exists after sent,
    AnnotateManagedHubCluster constants (annotatedTimes constants n fleet) = (Done None, after)
    /\ cluster ∈ managedClusters after
    /\ updates after = (updates (annotatedTimes constants n fleet) ++ sent)%list
    /\ cluster ∈ sent.
Proof.
  intros Hnd Hin Hhub Hnil.
  destruct (annotatedTimes_inv constants fleet cluster n Hnd Hin Hhub Hnil) as [Hnd' Hin'].
  assert (Hu : annotateUpdate constants cluster = Some cluster).
  { unfold annotateUpdate. rewrite decide_False by exact Hhub. rewrite Hnil. reflexivity. }
  eexists _, _. split; [apply AnnotateManagedHubCluster_listed; exact Hnd'|].
  cbn [managedClusters updates]. split; [|split; [reflexivity|]].
  - apply list_elem_of_fmap. exists cluster. rewrite Hu. split; [reflexivity|exact Hin'].
  - apply list_elem_of_omap. exists cluster. split; [exact Hin'|exact Hu].
Qed.

Lemma X21_hub_without_annotations_stays_bare_witness :
  exists after sent,
    AnnotateManagedHubCluster exampleConstants (annotatedTimes exampleConstants 2 exampleFleet)
    = (Done None, after)
    /\ exampleHub "hub1" None ∈ managedClusters after
    /\ updates after = (updates (annotatedTimes exampleConstants 2 exampleFleet) ++ sent)%list
    /\ exampleHub "hub1" None ∈ sent.
Proof.
  apply (X21_hub_without_annotations_stays_bare exampleConstants exampleFleet
           (exampleHub "hub1" None) 2).
  - cbn [exampleFleet managedClusters fmap list_fmap exampleHub ClusterName].
    repeat (constructor; [set_solver|]). constructor.
  - right. left.
  - intros H. discriminate H.
  - reflexivity.
Defined.

(** X22. A managed hub that has annotations gets the two annotations: after
    AnnotateManagedHubCluster its stored annotations are the old ones with
    both set to "true". An Update is sent for it only if that changes its
    annotations, and the next call sends none for it. *)
Theorem X22_hub_with_annotations_annotated constants fleet cluster annotations :
  NoDup (ClusterName <$> managedClusters fleet) ->
  cluster ∈ managedClusters fleet ->
  ClusterName cluster <> LocalClusterName constants ->
  Annotations cluster = Some annotations ->
  let updated := withAnnotations (Some (annotationsSet constants annotations)) cluster in
  exists after sent again,
    AnnotateManagedHubCluster constants fleet = (Done None, after)
    /\ updates after = (updates fleet ++ sent)%list
    /\ updated ∈ managedClusters after
    /\ (annotations <> annotationsSet constants annotations -> updated ∈ sent)
    /\ (forall obj, obj ∈ sent -> ClusterName obj = ClusterName cluster ->
          obj = updated /\ annotations <> annotationsSet constants annotations)
    /\ AnnotateManagedHubCluster constants after
       = (Done None, {| managedClusters := managedClusters after;
                        updates := (updates after ++ again)%list |})
    /\ (forall obj, obj ∈ again -> ClusterName obj <> ClusterName cluster).
Proof.
  intros Hnd Hin Hhub Hann updated.
  set (annotated := fun cluster : ManagedCluster =>
                      default cluster (annotateUpdate constants cluster)).
  assert (Hupdated : annotated cluster = updated).
  { unfold annotated, annotateUpdate. rewrite decide_False by exact Hhub. rewrite Hann.
    destruct (decide _) as [Heq|Hne]; [|reflexivity].
    cbn [default from_option id]. subst updated. rewrite <- Heq, <- Hann.
    symmetry. apply withAnnotations_stored. }
  assert (Hnd' : NoDup (ClusterName <$> (annotated <$> managedClusters fleet))).
  { rewrite <- list_fmap_compose.
    erewrite list_fmap_ext; [exact Hnd|]. intros i stored _. apply annotated_name. }
  assert (Hsettled : forall stored, annotated (annotated stored) = annotated stored).
  { intros stored. unfold annotated at 2 3.
    destruct (annotateUpdate constants stored) as [obj|] eqn:Hu; cbn [default from_option id].
    2:{ unfold annotated. rewrite Hu. reflexivity. }
    revert Hu. unfold annotateUpdate at 1.
    destruct (decide (ClusterName stored = LocalClusterName constants)) as [Hl|Hl];
      [discriminate|].
    destruct (Annotations stored) as [a|] eqn:Ha.
    - destruct (decide (a = annotationsSet constants a)) as [Heq|Hne]; [discriminate|].
      intros [= <-]. unfold annotated, annotateUpdate.
      cbn [withAnnotations ClusterName Annotations]. rewrite decide_False by exact Hl.
      rewrite decide_True by (symmetry; apply annotationsSet_idemp). reflexivity.
    - intros [= <-]. unfold annotated, annotateUpdate.
      rewrite decide_False by exact Hl. rewrite Ha. reflexivity. }
  eexists _, _, _.
  split; [apply AnnotateManagedHubCluster_listed; exact Hnd|].
  cbn [managedClusters updates]. split; [reflexivity|].
  split; [apply list_elem_of_fmap; exists cluster; split; [symmetry; exact Hupdated|exact Hin]|].
  split; [|split; [|split]].
  - intros Hne. apply list_elem_of_omap. exists cluster. split; [exact Hin|].
    unfold annotateUpdate. rewrite decide_False by exact Hhub. rewrite Hann.
    rewrite decide_False by exact Hne. reflexivity.
  - intros obj Hobj Hname. apply list_elem_of_omap in Hobj as (stored & Hstored & Hu).
    pose proof (annotateUpdate_name _ _ _ Hu) as Hn.
    assert (stored = cluster) as ->
        by (apply (same_name_eq (managedClusters fleet)); auto; congruence).
    revert Hu. unfold annotateUpdate. rewrite decide_False by exact Hhub. rewrite Hann.
    destruct (decide _) as [Heq|Hne]; [discriminate|]. intros [= <-].
    split; [reflexivity|exact Hne].
  - rewrite AnnotateManagedHubCluster_listed by (cbn [managedClusters]; exact Hnd').
    cbn [managedClusters updates].
    f_equal. f_equal.
    rewrite <- list_fmap_compose. apply list_fmap_ext. intros i stored _. apply Hsettled.
  - intros obj Hobj Hname. apply list_elem_of_omap in Hobj as (stored & Hstored & Hu).
    apply list_elem_of_fmap in Hstored as (original & -> & Horiginal).
    pose proof (annotateUpdate_name _ _ _ Hu) as Hn.
    fold (annotated original) in Hu, Hn.
    assert (original = cluster) as ->.
    { apply (same_name_eq (managedClusters fleet)); auto.
      rewrite <- Hname, Hn. unfold annotated. symmetry. apply annotated_name. }
    rewrite Hupdated in Hu. revert Hu. subst updated. unfold annotateUpdate.
    cbn [withAnnotations ClusterName Annotations]. rewrite decide_False by exact Hhub.
    rewrite decide_True by (symmetry; apply annotationsSet_idemp). discriminate.
Qed.

Lemma X22_hub_with_annotations_annotated_witness :
  let updated := withAnnotations
                   (Some (annotationsSet exampleConstants {["owner" := "team-a"]}))
                   (exampleHub "hub2" (Some {["owner" := "team-a"]})) in
  exists after sent again,
    AnnotateManagedHubCluster exampleConstants exampleFleet = (Done None, after)
    /\ updates after = (updates exampleFleet ++ sent)%list
    /\ updated ∈ managedClusters after
    /\ ({["owner" := "team-a"]} <> annotationsSet exampleConstants {["owner" := "team-a"]}
        -> updated ∈ sent)
    /\ (forall obj, obj ∈ sent ->
          ClusterName obj = ClusterName (exampleHub "hub2" (Some {["owner" := "team-a"]})) ->
          obj = updated
          /\ {["owner" := "team-a"]}
             <> annotationsSet exampleConstants {["owner" := "team-a"]})
    /\ AnnotateManagedHubCluster exampleConstants after
       = (Done None, {| managedClusters := managedClusters after;
                        updates := (updates after ++ again)%list |})
    /\ (forall obj, obj ∈ again ->
          ClusterName obj <> ClusterName (exampleHub "hub2" (Some {["owner" := "team-a"]}))).
Proof.
  apply (X22_hub_with_annotations_annotated exampleConstants exampleFleet
           (exampleHub "hub2" (Some {["owner" := "team-a"]})) {["owner" := "team-a"]}).
  - cbn [exampleFleet managedClusters fmap list_fmap exampleHub ClusterName].
    repeat (constructor; [set_solver|]). constructor.
  - right. right. left.
  - intros H. discriminate H.
  - reflexivity.
Defined.

Lemma Remove_length (items : list string) (s : string) :
  length items <> length (Remove items s) <-> s ∈ items.
Proof.
  rewrite Remove_filter. induction items as [|v rest IH].
  - cbn. split; [congruence|]. intros Hin. inversion Hin.
  - pose proof (length_filter (fun v => v <> s) rest) as Hle.
    destruct (decide (v = s)) as [->|Hne].
    + rewrite filter_cons_False by (intros H; apply H; reflexivity).
      cbn [length]. split; [intros _; left|lia].
    + rewrite filter_cons_True by exact Hne. cbn [length]. rewrite elem_of_cons.
      split.
      * intros Hlen. right. apply IH. lia.
      * intros [Heq|Hin]; [congruence|]. apply IH in Hin. lia.
Qed.

Section FinalizerProofs.

Context (constants : PkgConstants).

Lemma finalizerUpdate_name cluster obj :
  finalizerUpdate constants cluster = Some obj -> ClusterName obj = ClusterName cluster.
Proof.
  unfold finalizerUpdate. destruct (decide _); [discriminate|].
  destruct (decide _); [|discriminate]. intros [= <-]. reflexivity.
Qed.

Lemma removeFinalizers_listed stored : forall fleet before,
  managedClusters fleet = (before ++ stored)%list ->
  NoDup (ClusterName <$> managedClusters fleet) ->
  removeFinalizers constants stored fleet
  = (None,
     {| managedClusters :=
          (before ++ ((fun cluster => default cluster (finalizerUpdate constants cluster))
                        <$> stored))%list;
        updates := (updates fleet ++ omap (finalizerUpdate constants) stored)%list |}).
Proof.
  induction stored as [|cluster rest IH]; intros fleet before Hstore Hnd.
  - cbn [removeFinalizers fmap list_fmap omap list_omap].
    rewrite !app_nil_r. rewrite app_nil_r in Hstore. rewrite <- Hstore.
    destruct fleet; reflexivity.
  - cbn [removeFinalizers]. rewrite fmap_cons.
    change (omap (finalizerUpdate constants) (cluster :: rest))
      with (match finalizerUpdate constants cluster with
            | Some obj => obj :: omap (finalizerUpdate constants) rest
            | None => omap (finalizerUpdate constants) rest
            end).
    destruct (decide (ClusterName cluster = LocalClusterName constants)) as [Hlocal|Hhub].
    { assert (Hu : finalizerUpdate constants cluster = None).
      { unfold finalizerUpdate. rewrite decide_True by exact Hlocal. reflexivity. }
      rewrite Hu. cbn [default from_option id].
      rewrite (IH fleet (before ++ [cluster])%list);
        [|rewrite Hstore, <- app_assoc; reflexivity|exact Hnd].
      rewrite <- app_assoc. reflexivity. }
    cbn [RemoveFinalizer].
    destruct (decide (GlobalHubCleanupFinalizer constants ∈ Finalizers cluster)) as [Hin|Hout].
    + set (obj := {| ClusterName := ClusterName cluster;
                     ClusterLabels := ClusterLabels cluster;
                     Annotations := Annotations cluster;
                     Finalizers := Remove (Finalizers cluster)
                                     (GlobalHubCleanupFinalizer constants) |}).
      assert (Hu : finalizerUpdate constants cluster = Some obj).
      { unfold finalizerUpdate. rewrite decide_False by exact Hhub.
        rewrite decide_True by exact Hin. reflexivity. }
      rewrite Hu. rewrite bool_decide_eq_true_2 by (apply Remove_length; exact Hin).
      cbn [default from_option id].
      rewrite (UpdateCluster_at obj fleet before cluster rest Hstore Hnd eq_refl).
      rewrite (IH _ (before ++ [obj])%list).
      * cbn [updates]. rewrite <- !app_assoc. reflexivity.
      * cbn [managedClusters]. rewrite <- app_assoc. reflexivity.
      * cbn [managedClusters]. rewrite Hstore in Hnd.
        rewrite fmap_app, fmap_cons in Hnd |- *. exact Hnd.
    + assert (Hu : finalizerUpdate constants cluster = None).
      { unfold finalizerUpdate. rewrite decide_False by exact Hhub.
        rewrite decide_False by exact Hout. reflexivity. }
      rewrite Hu. rewrite bool_decide_eq_false_2 by (rewrite Remove_length; exact Hout).
      cbn [default from_option id].
      rewrite (IH fleet (before ++ [cluster])%list);
        [|rewrite Hstore, <- app_assoc; reflexivity|exact Hnd].
      rewrite <- app_assoc. reflexivity.
Qed.

Lemma RemoveManagedHubClusterFinalizer_listed fleet :
  NoDup (ClusterName <$> managedClusters fleet) ->
  RemoveManagedHubClusterFinalizer constants fleet
  = (None,
     {| managedClusters :=
          (fun cluster => default cluster (finalizerUpdate constants cluster))
            <$> managedClusters fleet;
        updates := (updates fleet
                    ++ omap (finalizerUpdate constants) (managedClusters fleet))%list |}).
Proof.
  intros Hnd. unfold RemoveManagedHubClusterFinalizer.
  apply (removeFinalizers_listed _ fleet []); [reflexivity|exact Hnd].
Qed.

End FinalizerProofs.

(** X23. RemoveManagedHubClusterFinalizer returns nil and afterwards no
    managed cluster but the local one holds the cleanup finalizer; every
    cluster of the store is still there with its labels and annotations, its
    other finalizers kept in their order, and the local cluster entirely as
    it was. An Update is sent only for clusters that held the finalizer, and
    a second call sends none. *)
Theorem X23_cleanup_finalizer_removed constants fleet :
  NoDup (ClusterName <$> managedClusters fleet) ->
  exists after sent,
    RemoveManagedHubClusterFinalizer constants fleet = (None, after)
    /\ updates after = (updates fleet ++ sent)%list
    /\ (forall cluster, cluster ∈ managedClusters after ->
          ClusterName cluster <> LocalClusterName constants ->
          GlobalHubCleanupFinalizer constants ∉ Finalizers cluster)
    /\ (forall cluster, cluster ∈ managedClusters fleet ->
          exists kept, kept ∈ managedClusters after
            /\ ClusterName kept = ClusterName cluster
            /\ ClusterLabels kept = ClusterLabels cluster
            /\ Annotations kept = Annotations cluster
            /\ Finalizers kept
               = if decide (ClusterName cluster = LocalClusterName constants)
                 then Finalizers cluster
                 else Remove (Finalizers cluster) (GlobalHubCleanupFinalizer constants))
    /\ (forall obj, obj ∈ sent ->
          exists cluster, cluster ∈ managedClusters fleet
            /\ ClusterName cluster = ClusterName obj
            /\ ClusterName cluster <> LocalClusterName constants
            /\ GlobalHubCleanupFinalizer constants ∈ Finalizers cluster)
    /\ RemoveManagedHubClusterFinalizer constants after = (None, after).
Proof.
  intros Hnd.
  set (cleaned := fun cluster : ManagedCluster =>
                    default cluster (finalizerUpdate constants cluster)).
  assert (Hgone : forall cluster,
             ClusterName cluster <> LocalClusterName constants ->
             GlobalHubCleanupFinalizer constants ∉ Finalizers (cleaned cluster)).
  { intros cluster Hhub. unfold cleaned, finalizerUpdate.
    rewrite decide_False by exact Hhub.
    destruct (decide _) as [Hin|Hout]; [|exact Hout].
    cbn [default from_option id RemoveFinalizer fst Finalizers].
    rewrite Remove_filter. intros Hstill.
    apply list_elem_of_filter in Hstill as [Hne _]. congruence. }
  assert (Hname : forall cluster, ClusterName (cleaned cluster) = ClusterName cluster).
  { intros cluster. unfold cleaned.
    destruct (finalizerUpdate constants cluster) as [obj|] eqn:Hu; [|reflexivity].
    apply (finalizerUpdate_name _ _ _ Hu). }
  assert (Hsettled : forall cluster, finalizerUpdate constants (cleaned cluster) = None).
  { intros cluster. unfold finalizerUpdate at 1. rewrite Hname.
    destruct (decide _) as [Hlocal|Hhub]; [reflexivity|].
    rewrite decide_False by (apply Hgone; exact Hhub). reflexivity. }
  eexists _, _. split; [apply RemoveManagedHubClusterFinalizer_listed; exact Hnd|].
  cbn [managedClusters updates]. fold cleaned.
  split; [reflexivity|]. split; [|split; [|split]].
  - intros cluster Hin Hhub. apply list_elem_of_fmap in Hin as (original & -> & _).
    apply Hgone. rewrite <- Hname. exact Hhub.
  - intros cluster Hin. exists (cleaned cluster).
    split; [apply list_elem_of_fmap; exists cluster; split; [reflexivity|exact Hin]|].
    unfold cleaned, finalizerUpdate.
    destruct (decide (ClusterName cluster = LocalClusterName constants)) as [Hlocal|Hhub].
    { repeat split. }
    destruct (decide _) as [Hheld|Hout]; cbn [default from_option id RemoveFinalizer fst].
    + repeat split.
    + repeat split. symmetry. rewrite Remove_filter.
      clear -Hout. induction (Finalizers cluster) as [|v rest IH]; [reflexivity|].
      apply not_elem_of_cons in Hout as [Hne Hrest].
      rewrite filter_cons_True by congruence. rewrite IH by exact Hrest. reflexivity.
  - intros obj Hobj. apply list_elem_of_omap in Hobj as (cluster & Hin & Hu).
    exists cluster. split; [exact Hin|].
    split; [symmetry; apply (finalizerUpdate_name _ _ _ Hu)|].
    revert Hu. unfold finalizerUpdate.
    destruct (decide _) as [Hlocal|Hhub]; [discriminate|].
    destruct (decide _) as [Hheld|Hout]; [|discriminate]. auto.
  - rewrite RemoveManagedHubClusterFinalizer_listed.
    2:{ cbn [managedClusters]. rewrite <- list_fmap_compose.
        erewrite list_fmap_ext; [exact Hnd|]. intros i stored _. apply Hname. }
    cbn [managedClusters updates]. f_equal. f_equal.
    + rewrite <- list_fmap_compose. apply list_fmap_ext. intros i stored _.
      cbn. fold (cleaned stored). rewrite Hsettled. reflexivity.
    + assert (Hnone : forall l, omap (finalizerUpdate constants) (cleaned <$> l) = []).
      { induction l as [|v l IH]; [reflexivity|].
        rewrite fmap_cons. cbn [omap list_omap]. rewrite Hsettled. exact IH. }
      rewrite Hnone. apply app_nil_r.
Qed.

Lemma X23_cleanup_finalizer_removed_witness :
  exists after sent,
    RemoveManagedHubClusterFinalizer exampleConstants exampleFleet = (None, after)
    /\ updates after = (updates exampleFleet ++ sent)%list
    /\ (forall cluster, cluster ∈ managedClusters after ->
          ClusterName cluster <> LocalClusterName exampleConstants ->
          GlobalHubCleanupFinalizer exampleConstants ∉ Finalizers cluster)
    /\ (forall cluster, cluster ∈ managedClusters exampleFleet ->
          exists kept, kept ∈ managedClusters after
            /\ ClusterName kept = ClusterName cluster
            /\ ClusterLabels kept = ClusterLabels cluster
            /\ Annotations kept = Annotations cluster
            /\ Finalizers kept
               = if decide (ClusterName cluster = LocalClusterName exampleConstants)
                 then Finalizers cluster
                 else Remove (Finalizers cluster)
                        (GlobalHubCleanupFinalizer exampleConstants))
    /\ (forall obj, obj ∈ sent ->
          exists cluster, cluster ∈ managedClusters exampleFleet
            /\ ClusterName cluster = ClusterName obj
            /\ ClusterName cluster <> LocalClusterName exampleConstants
            /\ GlobalHubCleanupFinalizer exampleConstants ∈ Finalizers cluster)
    /\ RemoveManagedHubClusterFinalizer exampleConstants after = (None, after).
Proof.
  apply (X23_cleanup_finalizer_removed exampleConstants exampleFleet).
  cbn [exampleFleet managedClusters fmap list_fmap exampleHub ClusterName].
  repeat (constructor; [set_solver|]). constructor.
Defined.

(** * Config maps and secrets *)

(** X24. ApplyConfigMap on an available store ends without error with the
    required data in the config map of that namespace and name: a missing
    config map is created as required, an existing one keeps its metadata -
    the labels of the required one are not applied - and gets the required
    data. The answer is true exactly when the store was written to (one
    request), no other config map and no secret changes, and a second call
    answers false and writes nothing. *)
Theorem X24_config_map_applied required store :
  unavailable store = None ->
  configMapsKeyed store ->
  exists changed after stored,
    ApplyConfigMap required store = (changed, None, after)
    /\ configMaps after !! configMapKey required = Some stored
    /\ ConfigMapData stored = ConfigMapData required
    /\ ConfigMapMeta stored
       = match configMaps store !! configMapKey required with
         | Some current => ConfigMapMeta current
         | None => ConfigMapMeta required
         end
    /\ (forall key, key <> configMapKey required ->
                    configMaps after !! key = configMaps store !! key)
    /\ secrets after = secrets store
    /\ (changed = false -> after = store)
    /\ (changed = true ->
        exists v, configWrites after = (configWrites store ++ [(v, configMapKey required)])%list)
    /\ ApplyConfigMap required after = (false, None, after).
Proof.
  intros Hup Hkeyed. unfold ApplyConfigMap at 1, GetConfigMap. rewrite Hup.
  destruct (configMaps store !! configMapKey required) as [current|] eqn:Hcur.
  - unfold reflect_DeepEqual.
    destruct (decide (ConfigMapData current = ConfigMapData required)) as [Heq|Hne].
    + rewrite bool_decide_eq_true_2 by exact Heq.
      exists false, store, current. split; [reflexivity|]. split; [exact Hcur|].
      split; [exact Heq|]. split; [reflexivity|]. split; [reflexivity|].
      split; [reflexivity|]. split; [reflexivity|]. split; [discriminate|].
      unfold ApplyConfigMap, GetConfigMap. rewrite Hup, Hcur. unfold reflect_DeepEqual.
      rewrite bool_decide_eq_true_2 by exact Heq. reflexivity.
    + rewrite bool_decide_eq_false_2 by exact Hne.
      assert (Hkey : configMapKey {| ConfigMapMeta := ConfigMapMeta current;
                                     ConfigMapData := ConfigMapData required |}
                     = configMapKey required) by apply (Hkeyed _ _ Hcur).
      unfold UpdateConfigMap. rewrite Hkey. cbn [logWrite unavailable configMaps].
      rewrite Hup, Hcur.
      eexists true, _, _. split; [reflexivity|].
      cbn [setConfigMaps configMaps secrets configWrites].
      split; [apply lookup_insert_eq|]. split; [reflexivity|]. split; [reflexivity|].
      split; [intros key Hk; apply lookup_insert_ne; congruence|].
      split; [reflexivity|]. split; [discriminate|]. split; [eexists; reflexivity|].
      unfold ApplyConfigMap, GetConfigMap. cbn [unavailable configMaps setConfigMaps logWrite].
      rewrite Hup, lookup_insert_eq. unfold reflect_DeepEqual. cbn [ConfigMapData].
      rewrite bool_decide_eq_true_2 by reflexivity. reflexivity.
  - cbn [IsNotFound]. unfold CreateConfigMap. cbn [logWrite unavailable configMaps].
    rewrite Hup, Hcur.
    eexists true, _, _. split; [reflexivity|].
    cbn [setConfigMaps configMaps secrets configWrites].
    split; [apply lookup_insert_eq|]. split; [reflexivity|]. split; [reflexivity|].
    split; [intros key Hk; apply lookup_insert_ne; congruence|].
    split; [reflexivity|]. split; [discriminate|]. split; [eexists; reflexivity|].
    unfold ApplyConfigMap, GetConfigMap. cbn [unavailable configMaps setConfigMaps logWrite].
    rewrite Hup, lookup_insert_eq. unfold reflect_DeepEqual.
    rewrite bool_decide_eq_true_2 by reflexivity. reflexivity.
Qed.

Lemma X24_config_map_applied_witness :
  exists changed after stored,
    ApplyConfigMap requiredAlerts (exampleStore None) = (changed, None, after)
    /\ configMaps after !! configMapKey requiredAlerts = Some stored
    /\ ConfigMapData stored = ConfigMapData requiredAlerts
    /\ ConfigMapMeta stored
       = match configMaps (exampleStore None) !! configMapKey requiredAlerts with
         | Some current => ConfigMapMeta current
         | None => ConfigMapMeta requiredAlerts
         end
    /\ (forall key, key <> configMapKey requiredAlerts ->
                    configMaps after !! key = configMaps (exampleStore None) !! key)
    /\ secrets after = secrets (exampleStore None)
    /\ (changed = false -> after = exampleStore None)
    /\ (changed = true ->
        exists v, configWrites after
                  = (configWrites (exampleStore None)
                     ++ [(v, configMapKey requiredAlerts)])%list)
    /\ ApplyConfigMap requiredAlerts after = (false, None, after).
Proof.
  apply (X24_config_map_applied requiredAlerts (exampleStore None)).
  - reflexivity.
  - intros key obj. cbn [exampleStore configMaps].
    intros [<- <-]%lookup_singleton_Some. reflexivity.
Defined.

(** X25. ApplySecret on an available store ends without error with the
    required data in the secret of that namespace and name: a missing secret
    is created as required, an existing one keeps its metadata and gets the
    required data, also when it had none (a nil map differs from every map).
    The answer is true exactly when the store was written to (one request),
    no other secret and no config map changes, and a second call answers
    false and writes nothing. *)
Theorem X25_secret_applied requiredSecret store :
  unavailable store = None ->
  secretsKeyed store ->
  exists changed after stored,
    ApplySecret requiredSecret store = (changed, None, after)
    /\ secrets after !! secretKey requiredSecret = Some stored
    /\ SecretData stored = SecretData requiredSecret
    /\ SecretMeta stored
       = match secrets store !! secretKey requiredSecret with
         | Some current => SecretMeta current
         | None => SecretMeta requiredSecret
         end
    /\ (forall key, key <> secretKey requiredSecret ->
                    secrets after !! key = secrets store !! key)
    /\ configMaps after = configMaps store
    /\ (changed = false -> after = store)
    /\ (changed = true ->
        exists v, configWrites after
                  = (configWrites store ++ [(v, secretKey requiredSecret)])%list)
    /\ ApplySecret requiredSecret after = (false, None, after).
Proof.
  intros Hup Hkeyed. unfold ApplySecret at 1, GetSecret. rewrite Hup.
  destruct (secrets store !! secretKey requiredSecret) as [current|] eqn:Hcur.
  - unfold reflect_DeepEqual.
    destruct (decide (SecretData current = SecretData requiredSecret)) as [Heq|Hne].
    + rewrite bool_decide_eq_true_2 by exact Heq.
      exists false, store, current. split; [reflexivity|]. split; [exact Hcur|].
      split; [exact Heq|]. split; [reflexivity|]. split; [reflexivity|].
      split; [reflexivity|]. split; [reflexivity|]. split; [discriminate|].
      unfold ApplySecret, GetSecret. rewrite Hup, Hcur. unfold reflect_DeepEqual.
      rewrite bool_decide_eq_true_2 by exact Heq. reflexivity.
    + rewrite bool_decide_eq_false_2 by exact Hne.
      assert (Hkey : secretKey {| SecretMeta := SecretMeta current;
                                     SecretData := SecretData requiredSecret |}
                     = secretKey requiredSecret) by apply (Hkeyed _ _ Hcur).
      unfold UpdateSecret. rewrite Hkey. cbn [logWrite unavailable secrets].
      rewrite Hup, Hcur.
      eexists true, _, _. split; [reflexivity|].
      cbn [setSecrets secrets configMaps configWrites].
      split; [apply lookup_insert_eq|]. split; [reflexivity|]. split; [reflexivity|].
      split; [intros key Hk; apply lookup_insert_ne; congruence|].
      split; [reflexivity|]. split; [discriminate|]. split; [eexists; reflexivity|].
      unfold ApplySecret, GetSecret. cbn [unavailable secrets setSecrets logWrite].
      rewrite Hup, lookup_insert_eq. unfold reflect_DeepEqual. cbn [SecretData].
      rewrite bool_decide_eq_true_2 by reflexivity. reflexivity.
  - cbn [IsNotFound]. unfold CreateSecret. cbn [logWrite unavailable secrets].
    rewrite Hup, Hcur.
    eexists true, _, _. split; [reflexivity|].
    cbn [setSecrets secrets configMaps configWrites].
    split; [apply lookup_insert_eq|]. split; [reflexivity|]. split; [reflexivity|].
    split; [intros key Hk; apply lookup_insert_ne; congruence|].
    split; [reflexivity|]. split; [discriminate|]. split; [eexists; reflexivity|].
    unfold ApplySecret, GetSecret. cbn [unavailable secrets setSecrets logWrite].
    rewrite Hup, lookup_insert_eq. unfold reflect_DeepEqual.
    rewrite bool_decide_eq_true_2 by reflexivity. reflexivity.
Qed.

Lemma X25_secret_applied_witness :
  exists changed after stored,
    ApplySecret requiredCredentials (exampleStore None) = (changed, None, after)
    /\ secrets after !! secretKey requiredCredentials = Some stored
    /\ SecretData stored = SecretData requiredCredentials
    /\ SecretMeta stored
       = match secrets (exampleStore None) !! secretKey requiredCredentials with
         | Some current => SecretMeta current
         | None => SecretMeta requiredCredentials
         end
    /\ (forall key, key <> secretKey requiredCredentials ->
                    secrets after !! key = secrets (exampleStore None) !! key)
    /\ configMaps after = configMaps (exampleStore None)
    /\ (changed = false -> after = exampleStore None)
    /\ (changed = true ->
        exists v, configWrites after
                  = (configWrites (exampleStore None)
                     ++ [(v, secretKey requiredCredentials)])%list)
    /\ ApplySecret requiredCredentials after = (false, None, after).
Proof.
  apply (X25_secret_applied requiredCredentials (exampleStore None)).
  - reflexivity.
  - intros key obj. cbn [exampleStore secrets].
    intros [<- <-]%lookup_singleton_Some. reflexivity.
Defined.

(** X26. While the API server answers with an error other than "not
    found", ApplyConfigMap and ApplySecret do not report it: they return
    false and nil, as they do when the stored data already are the required
    ones, and send no write request. *)
Theorem X26_apply_hides_server_errors required requiredSecret store err :
  unavailable store = Some err ->
  err <> ErrNotFound ->
  ApplyConfigMap required store = (false, None, store)
  /\ ApplySecret requiredSecret store = (false, None, store).
Proof.
  intros Hdown Hne.
  unfold ApplyConfigMap, ApplySecret, GetConfigMap, GetSecret. rewrite Hdown.
  destruct err; [contradiction| |]; split; reflexivity.
Qed.

Lemma X26_apply_hides_server_errors_witness :
  ApplyConfigMap requiredAlerts (exampleStore (Some (ErrMsg "etcdserver: request timed out")))
  = (false, None, exampleStore (Some (ErrMsg "etcdserver: request timed out")))
  /\ ApplySecret requiredCredentials
       (exampleStore (Some (ErrMsg "etcdserver: request timed out")))
     = (false, None, exampleStore (Some (ErrMsg "etcdserver: request timed out"))).
Proof.
  apply (X26_apply_hides_server_errors requiredAlerts requiredCredentials
           (exampleStore (Some (ErrMsg "etcdserver: request timed out")))
           (ErrMsg "etcdserver: request timed out")).
  - reflexivity.
  - intros H. discriminate H.
Defined.

(** * More on MergeObjects *)

Lemma get_path_null path v : get_path path JNull = Some v -> path = [] /\ v = JNull.
Proof. destruct path; cbn [get_path]; [intros [= <-]; auto|discriminate]. Qed.

Lemma MergePatch_takes_leaf path : forall existing desired v,
  get_path path desired = Some v ->
  is_leaf v ->
  get_path path (MergePatch existing desired) = Some v.
Proof.
  induction path as [|k ks IH]; intros existing desired v Hget Hleaf.
  - cbn [get_path] in Hget |- *. injection Hget as ->.
    rewrite MergePatch_not_obj; [reflexivity|].
    intros p ->. exact Hleaf.
  - destruct desired as [| | | | |dm]; try discriminate Hget.
    cbn [get_path] in Hget. destruct (dm !! k) as [d|] eqn:Hd; [|discriminate Hget].
    cbn [mbind option_bind] in Hget.
    rewrite MergePatch_as_obj. cbn [get_path]. rewrite lookup_MergePatch, Hd.
    destruct d; try (cbn [is_null mbind option_bind]; apply IH; assumption).
    apply get_path_null in Hget as [-> ->]. contradiction.
Qed.

Lemma MergePatch_removes_null path : forall existing desired key,
  get_path (path ++ [key])%list desired = Some JNull ->
  get_path (path ++ [key])%list (MergePatch existing desired) = None.
Proof.
  induction path as [|k ks IH]; intros existing desired key Hget.
  - cbn [app] in Hget |- *.
    destruct desired as [| | | | |dm]; try discriminate Hget.
    cbn [get_path] in Hget. destruct (dm !! key) as [d|] eqn:Hd; [|discriminate Hget].
    cbn [mbind option_bind get_path] in Hget. injection Hget as ->.
    rewrite MergePatch_as_obj. cbn [get_path]. rewrite lookup_MergePatch, Hd. reflexivity.
  - cbn [app] in Hget |- *.
    destruct desired as [| | | | |dm]; try discriminate Hget.
    cbn [get_path] in Hget. destruct (dm !! k) as [d|] eqn:Hd; [|discriminate Hget].
    cbn [mbind option_bind] in Hget.
    rewrite MergePatch_as_obj. cbn [get_path]. rewrite lookup_MergePatch, Hd.
    destruct d; try (cbn [is_null mbind option_bind]; apply IH; assumption).
    apply get_path_null in Hget as [Hnil _]. destruct ks; discriminate Hnil.
Qed.

(** X27. MergeObjects lets the desired object win: a scalar or an array
    that the desired document holds at some path is the value at that path
    after the merge, whatever the existing document holds there - an array is
    replaced as a whole. For the user that EnsureUser asks for this means
    that the merged user has exactly the desired spec, the rules of the
    existing user being dropped, and carries every desired label with the
    desired value. *)
Theorem X27_merge_desired_wins (existing desired : json) path v :
  get_path path desired = Some v ->
  is_leaf v ->
  (exists merged, MergeObjects existing desired = Some merged
                  /\ get_path path merged = Some v)
  /\ (forall cfg k clusterName (existingUser : KafkaUser),
        exists merged,
          MergeObjects existingUser (desiredUserOf cfg k clusterName) = Some merged
          /\ UserSpec merged = UserSpec (desiredUserOf cfg k clusterName)
          /\ forall label value,
               Labels (UserMeta (desiredUserOf cfg k clusterName)) !! label = Some value ->
               Labels (UserMeta merged) !! label = Some value).
Proof.
  intros Hget Hleaf. split.
  - eexists. split; [reflexivity|]. apply MergePatch_takes_leaf; assumption.
  - intros cfg k clusterName existingUser. eexists. split.
    + apply MergeObjects_KafkaUser.
    + cbn [UserMeta UserSpec mergeObjectMeta Labels desiredUserOf newKafkaUser].
      split; [reflexivity|].
      intros label value Hl. rewrite lookup_union, Hl.
      destruct (Labels (UserMeta existingUser) !! label); reflexivity.
Qed.

Lemma X27_merge_desired_wins_witness :
  (exists merged, MergeObjects liveDocument desiredDocument = Some merged
                  /\ get_path ["spec"; "partitions"] merged = Some (JNum 3))
  /\ (forall cfg k clusterName (existingUser : KafkaUser),
        exists merged,
          MergeObjects existingUser (desiredUserOf cfg k clusterName) = Some merged
          /\ UserSpec merged = UserSpec (desiredUserOf cfg k clusterName)
          /\ forall label value,
               Labels (UserMeta (desiredUserOf cfg k clusterName)) !! label = Some value ->
               Labels (UserMeta merged) !! label = Some value).
Proof.
  apply (X27_merge_desired_wins liveDocument desiredDocument ["spec"; "partitions"] (JNum 3)).
  - vm_compute. reflexivity.
  - exact I.
Defined.

(** X28. A null in the desired document removes the member from the merged
    one: where the desired document holds null under a key, the merged
    document has no such key, whatever the existing one holds there. *)
Theorem X28_merge_null_removes (existing desired : json) path key :
  get_path (path ++ [key])%list desired = Some JNull ->
  exists merged, MergeObjects existing desired = Some merged
                 /\ get_path (path ++ [key])%list merged = None.
Proof.
  intros Hget. eexists. split; [reflexivity|]. apply MergePatch_removes_null. exact Hget.
Qed.

Lemma X28_merge_null_removes_witness :
  exists merged, MergeObjects labelledDocument removingDocument = Some merged
                 /\ get_path (["metadata"; "labels"] ++ ["obsolete"])%list merged = None.
Proof.
  apply (X28_merge_null_removes labelledDocument removingDocument ["metadata"; "labels"]
           "obsolete").
  vm_compute. reflexivity.
Defined.
